(** * GDC dashboard data management: schema evolution, reconciliation, freshness

    A shallow embedding of [_form.py].  The SQLite store is a finite map from
    table names to tables, a row is a finite map from column names to values,
    Python dictionaries are finite maps, and code that can raise returns an
    [outcome].  The reference clock ([datetime.now()], [CURRENT_TIMESTAMP]) is
    always an explicit argument. *)

From Stdlib Require Import ZArith Lia Bool List Ascii String Sorted DecimalString.
From stdpp Require Import gmap strings list fin_maps.

Local Open Scope string_scope.
Local Open Scope Z_scope.

(** ** Python exceptions and results *)

Inductive exn : Type :=
| ValueError
| TypeError
| KeyError (key : string)
| ZeroDivisionError
| OperationalError (msg : string)
| IntegrityError (msg : string)
| ProgrammingError (msg : string).

(** [str(e)]. *)
Definition exn_text (e : exn) : string :=
  match e with
  | ValueError => "ValueError"
  | TypeError => "TypeError"
  | KeyError key => "'" ++ key ++ "'"
  | ZeroDivisionError => "division by zero"
  | OperationalError msg | IntegrityError msg | ProgrammingError msg => msg
  end.

Inductive outcome (A : Type) : Type :=
| Returned (a : A)
| Raised (e : exn).
Arguments Returned {A} a.
Arguments Raised {A} e.

Definition obind {A B} (m : outcome A) (k : A -> outcome B) : outcome B :=
  match m with
  | Returned a => k a
  | Raised e => Raised e
  end.

(** [try: m except: h], the bare [except:] clause of Python. *)
Definition try_except {A} (m : outcome A) (h : outcome A) : outcome A :=
  match m with
  | Returned a => Returned a
  | Raised _ => h
  end.

(** ** Freshness evaluator: [is_outdated] and [color_by_days] *)

Module Freshness.

(** [datetime.datetime], naive (no tzinfo). *)
Record datetime : Type := mk_datetime {
  year : Z; month : Z; day : Z;
  hour : Z; minute : Z; second : Z; microsecond : Z
}.

(** [datetime.timedelta] after normalisation:
    [0 <= seconds < 86400] and [0 <= microseconds < 1000000]. *)
Record timedelta : Type := mk_timedelta {
  days : Z; seconds : Z; microseconds : Z
}.

Definition is_leap (y : Z) : bool :=
  (y mod 4 =? 0) && (negb (y mod 100 =? 0) || (y mod 400 =? 0)).

Definition days_before_year (y : Z) : Z :=
  let y1 := y - 1 in y1 * 365 + y1 / 4 - y1 / 100 + y1 / 400.

Definition days_in_month (y m : Z) : Z :=
  if m =? 2 then (if is_leap y then 29 else 28)
  else if (m =? 4) || (m =? 6) || (m =? 9) || (m =? 11) then 30
  else 31.

(** Days of the year before the first day of month [m]. *)
Definition days_before_month (y m : Z) : Z :=
  fold_right Z.add 0
    (map (days_in_month y) (map Z.of_nat (seq 1 (Z.to_nat (m - 1))))).

Definition ymd2ord (y m d : Z) : Z :=
  days_before_year y + days_before_month y m + d.

Definition toordinal (t : datetime) : Z := ymd2ord (year t) (month t) (day t).

(** [timedelta(days, seconds, microseconds)]: carries are propagated with
    floor division, as Python's [divmod] does. *)
Definition timedelta_new (d s us : Z) : timedelta :=
  let s1 := s + us / 1000000 in
  {| days := d + s1 / 86400;
     seconds := s1 mod 86400;
     microseconds := us mod 1000000 |}.

Definition secs_of_day (t : datetime) : Z :=
  second t + minute t * 60 + hour t * 3600.

(** [a - b] on two naive datetimes. *)
Definition datetime_sub (a b : datetime) : timedelta :=
  timedelta_new (toordinal a - toordinal b)
                (secs_of_day a - secs_of_day b)
                (microsecond a - microsecond b).

(** Microseconds elapsed from [b] to [a]. *)
Definition elapsed_us (a b : datetime) : Z :=
  ((toordinal a - toordinal b) * 86400 + (secs_of_day a - secs_of_day b)) * 1000000
  + (microsecond a - microsecond b).

Definition BG_GREEN : string := "background-color: #99FF99".
Definition BG_YELLOW : string := "background-color: #FFFF99".
Definition BG_RED : string := "background-color: #FF9999".

Section Evaluator.

(** [datetime.strptime(_, '%Y-%m-%d %H:%M:%S')] of the Python library:
    returns the parsed datetime or raises. *)
Variable strptime : string -> outcome datetime.

(** [datetime.now()]. *)
Variable now : datetime.

(** A cell of a timestamp column is a string, or null ([None] or NaN, for
    which [pd.isna] answers true): an [option string]. *)
Definition is_outdated (timestamp_str : option string) : outcome bool :=
  match timestamp_str with
  | None => Returned true
  | Some s =>
      try_except
        (obind (strptime s) (fun timestamp =>
           let diff := datetime_sub now timestamp in
           Returned (days diff >? 30)))
        (Returned true)
  end.

(** The inner function of [apply_update_styling]. *)
Definition color_by_days (val : option string) : outcome string :=
  match val with
  | None => Returned BG_RED
  | Some s =>
      try_except
        (obind (strptime s) (fun timestamp =>
           let diff := datetime_sub now timestamp in
           let days := days diff in
           if days <? 30 then Returned BG_GREEN
           else if days <? 35 then Returned BG_YELLOW
           else Returned BG_RED))
        (Returned BG_RED)
  end.

End Evaluator.

(** *** The timestamps SQLite writes

    [CURRENT_TIMESTAMP] is always the 19-character text
    [YYYY-MM-DD HH:MM:SS].  On such strings [datetime.strptime] with the
    format ['%Y-%m-%d %H:%M:%S'] reads the six zero-padded fields and raises
    [ValueError] when a field is out of range; [strptime_sqlite] is that
    restriction, and raises on every other string. *)

Definition digit_of (c : ascii) : option Z :=
  let n := Z.of_nat (nat_of_ascii c) in
  if (48 <=? n) && (n <=? 57) then Some (n - 48) else None.

Fixpoint number_of (acc : Z) (cs : list ascii) : option Z :=
  match cs with
  | [] => Some acc
  | c :: cs' =>
      match digit_of c with
      | Some d => number_of (acc * 10 + d) cs'
      | None => None
      end
  end.

Definition field (cs : list ascii) (start len : nat) : option Z :=
  let f := firstn len (skipn start cs) in
  if (length f =? len)%nat then number_of 0 f else None.

Definition sep_at (cs : list ascii) (i : nat) (c : ascii) : bool :=
  match nth_error cs i with
  | Some c' => if ascii_dec c c' then true else false
  | None => false
  end.

Definition strptime_sqlite (s : string) : outcome datetime :=
  let cs := list_ascii_of_string s in
  if negb ((length cs =? 19)%nat
           && sep_at cs 4 "-" && sep_at cs 7 "-" && sep_at cs 10 " "
           && sep_at cs 13 ":" && sep_at cs 16 ":")
  then Raised ValueError
  else
    match field cs 0 4, field cs 5 2, field cs 8 2,
          field cs 11 2, field cs 14 2, field cs 17 2 with
    | Some y, Some m, Some d, Some hh, Some mm, Some ss =>
        if (1 <=? y) && (1 <=? m) && (m <=? 12)
           && (1 <=? d) && (d <=? days_in_month y m)
           && (hh <=? 23) && (mm <=? 59) && (ss <=? 59)
        then Returned (mk_datetime y m d hh mm ss 0)
        else Raised ValueError
    | _, _, _, _, _, _ => Raised ValueError
    end.

End Freshness.

(** ** Aggregate reconciler: total headcount in [show_hub_metrics_view] *)

Module Headcount.

(** Python's [<] on the keys [pd.to_datetime(..., errors='coerce')] returns:
    a key is a timestamp (here the number of its month, [12 * year + month])
    or [NaT] ([None]); every ordering comparison with [NaT] is false. *)
Definition key_lt (a b : option Z) : bool :=
  match a, b with
  | Some x, Some y => x <? y
  | _, _ => false
  end.

(** [Series.unique()]: the distinct values in order of first appearance. *)
Fixpoint unique (l : list string) : list string :=
  match l with
  | [] => []
  | x :: l' => x :: filter (fun y => negb (String.eqb x y)) (unique l')
  end.

(** [sorted(l, key=..., reverse=...)].  [list.sort] is stable and is driven
    only by [<] on the keys; with [reverse=True] it reverses the list, sorts
    it ascending and reverses the result.  The ascending sort is modelled by
    stable insertion: the two agree on every list whose keys [<] orders as a
    strict weak order (no [NaT] among them), and on every list of at most two
    elements whatever the keys are. *)
Section Sorted.
Context {A : Type} (key : A -> option Z).

Fixpoint insort (pivot : A) (l : list A) : list A :=
  match l with
  | [] => [pivot]
  | e :: l' =>
      if key_lt (key pivot) (key e) then pivot :: e :: l'
      else e :: insort pivot l'
  end.

Definition sort_ascending (l : list A) : list A :=
  fold_left (fun acc x => insort x acc) l [].

Definition sorted (l : list A) (reverse : bool) : list A :=
  if reverse then rev (sort_ascending (rev l)) else sort_ascending l.
End Sorted.

Section Reconciler.

(** Cells of the [metric_value] column are pandas float64 numbers; the
    reconciler only adds two of them, or the Python integer [0]. *)
Context {num : Type} (zero : num) (add : num -> num -> num).

(** [pd.to_datetime(x, format="%b %Y", errors='coerce')] of the pandas
    library; [None] is [NaT]. *)
Variable to_datetime : string -> option Z.

(** A row of the frame [get_people_metrics] returns (the columns the
    reconciler reads). *)
Record people_row : Type := mk_people_row {
  metric_name : string;
  metric_category : string;
  time_period : string;
  metric_value : num
}.

Definition employment_type (people_metrics_df : list people_row) : list people_row :=
  filter (fun r => String.eqb (metric_category r) "Employment Type") people_metrics_df.

Definition latest_time_period (people_metrics_df : list people_row) : option string :=
  let employment_type_df := employment_type people_metrics_df in
  match employment_type_df with
  | [] => None
  | _ :: _ =>
      let time_periods :=
        sorted to_datetime (unique (map time_period employment_type_df)) true in
      match time_periods with
      | [] => None
      | p :: _ => Some p
      end
  end.

(** [df[df['metric_name'] == name]['metric_value'].iloc[0]], or [0] when
    no row matches. *)
Definition count_of (name : string) (latest_employment_data : list people_row) : num :=
  match filter (fun r => String.eqb (metric_name r) name) latest_employment_data with
  | [] => zero
  | r :: _ => metric_value r
  end.

Definition total_headcount_calculated (people_metrics_df : list people_row) : num :=
  match latest_time_period people_metrics_df with
  | None => zero
  | Some p =>
      (* [if latest_time_period:] an empty string is falsy *)
      if String.eqb p "" then zero
      else
        let latest_employment_data :=
          filter (fun r => String.eqb (time_period r) p)
                 (employment_type people_metrics_df) in
        let permanent_count := count_of "Permanent Employees" latest_employment_data in
        let contract_count := count_of "Contract Employees" latest_employment_data in
        add permanent_count contract_count
  end.

End Reconciler.

Arguments mk_people_row {num}.
Arguments metric_name {num}.
Arguments metric_category {num}.
Arguments time_period {num}.
Arguments metric_value {num}.

(** The periods the application writes are [strftime("%b %Y")] strings:
    an English month abbreviation, one space, a four-digit year.
    [to_datetime_mon_yyyy] is [pd.to_datetime] restricted to such strings.
    On any other string it answers [NaT], which is also the answer of pandas
    for a string without a month name, such as the year-only period
    ["2025"] of the seed rows. *)
Definition month_of_abbr (m : string) : option Z :=
  if String.eqb m "Jan" then Some 1 else if String.eqb m "Feb" then Some 2
  else if String.eqb m "Mar" then Some 3 else if String.eqb m "Apr" then Some 4
  else if String.eqb m "May" then Some 5 else if String.eqb m "Jun" then Some 6
  else if String.eqb m "Jul" then Some 7 else if String.eqb m "Aug" then Some 8
  else if String.eqb m "Sep" then Some 9 else if String.eqb m "Oct" then Some 10
  else if String.eqb m "Nov" then Some 11 else if String.eqb m "Dec" then Some 12
  else None.

Definition to_datetime_mon_yyyy (x : string) : option Z :=
  let cs := list_ascii_of_string x in
  if (length cs =? 8)%nat && Freshness.sep_at cs 3 " " then
    match month_of_abbr (substring 0 3 x), Freshness.field cs 4 4 with
    | Some m, Some y => if 1 <=? y then Some (12 * y + m) else None
    | _, _ => None
    end
  else None.

End Headcount.

(** ** The SQLite store *)

Module Store.

(** A cell.  [REAL] cells hold a fraction [num / den]. *)
Inductive value : Type :=
| VNull
| VInt (n : Z)
| VReal (num : Z) (den : positive)
| VText (s : string).

Definition is_null (v : value) : bool :=
  match v with VNull => true | _ => false end.

(** SQL [a = b] as a [WHERE] condition: false as soon as one side is [NULL];
    integers and reals compare by value. *)
Definition sql_eq (a b : value) : bool :=
  match a, b with
  | VInt x, VInt y => x =? y
  | VText x, VText y => String.eqb x y
  | VReal n d, VReal n' d' => n * Z.pos d' =? n' * Z.pos d
  | VInt x, VReal n d | VReal n d, VInt x => x * Z.pos d =? n
  | _, _ => false
  end.

Inductive col_default : Type :=
| DNull                       (* no DEFAULT clause *)
| DConst (v : value)          (* DEFAULT 0 *)
| DCurrentTimestamp.          (* DEFAULT CURRENT_TIMESTAMP *)

Record column : Type := mk_column {
  c_name : string;
  c_default : col_default;
  c_notnull : bool
}.

Abbreviation row := (gmap string value).

(** A table: its columns in declaration order, its [UNIQUE] constraints and
    its rows in rowid order.  The column [id] of every table of the
    application is its [INTEGER PRIMARY KEY].  Foreign keys are not enforced:
    the program never turns that pragma on.  [INSERT], [UPDATE] and [SELECT]
    name columns with the spelling of the schema, as every statement of the
    program does; [ALTER TABLE] compares names as SQLite does, without regard
    to ASCII case. *)
Record table : Type := mk_table {
  columns : list column;
  uniques : list (list string);
  rows : list row
}.

Abbreviation db := (gmap string table).

(** The cell of column [c] in row [r]. *)
Definition cell (r : row) (c : string) : value := default VNull (r !! c).

Definition mem (x : string) (l : list string) : bool := existsb (String.eqb x) l.

(** ASCII lower case: SQLite compares identifiers without regard to ASCII
    case, and [str.lower()] is this on the ASCII hub names. *)
Definition lower_ascii (c : ascii) : ascii :=
  let n := nat_of_ascii c in
  if (65 <=? n)%nat && (n <=? 90)%nat then ascii_of_nat (n + 32) else c.

Fixpoint lower (s : string) : string :=
  match s with
  | EmptyString => EmptyString
  | String c s' => String (lower_ascii c) (lower s')
  end.

(** [s.replace(" ", "_")]. *)
Fixpoint replace_space (s : string) : string :=
  match s with
  | EmptyString => EmptyString
  | String c s' =>
      String (if Ascii.eqb c " " then "_"%char else c) (replace_space s')
  end.

(** [needle in hay] on Python strings. *)
Fixpoint contains (needle hay : string) : bool :=
  String.prefix needle hay ||
  match hay with
  | EmptyString => false
  | String _ hay' => contains needle hay'
  end.

(** *** Statements: a state and exception monad over the store.
    A statement that raises leaves the store as it was before it. *)

Definition M (A : Type) : Type := db -> outcome A * db.

Definition ret {A} (a : A) : M A := fun d => (Returned a, d).
Definition raise {A} (e : exn) : M A := fun d => (Raised e, d).
Definition bind {A B} (m : M A) (k : A -> M B) : M B :=
  fun d => match m d with
           | (Returned a, d') => k a d'
           | (Raised e, d') => (Raised e, d')
           end.

Declare Scope stmt_scope.
Delimit Scope stmt_scope with stmt.
Notation "x <- m ;; k" := (bind m (fun x => k))
  (at level 100, m at next level, right associativity) : stmt_scope.
Notation "m ;; k" := (bind m (fun _ => k))
  (at level 100, right associativity) : stmt_scope.
Local Open Scope stmt_scope.

Definition when (b : bool) (m : M unit) : M unit := if b then m else ret tt.

Fixpoint for_each {A} (l : list A) (body : A -> M unit) : M unit :=
  match l with
  | [] => ret tt
  | x :: l' => body x ;; for_each l' body
  end.

Definition no_such_table (t : string) : exn := OperationalError ("no such table: " ++ t).

(** [CREATE TABLE IF NOT EXISTS t (...)]. *)
Definition create_table_if_not_exists
    (t : string) (cols : list column) (uniq : list (list string)) : M unit :=
  fun d => match d !! t with
           | Some _ => (Returned tt, d)
           | None => (Returned tt, <[t := mk_table cols uniq []]> d)
           end.

(** [PRAGMA table_info(t)] then [[column[1] for column in c.fetchall()]]:
    the column names; no row, and no error, for a table that does not exist. *)
Definition table_info (t : string) : M (list string) :=
  fun d => match d !! t with
           | Some tb => (Returned (map c_name (columns tb)), d)
           | None => (Returned [], d)
           end.

Definition default_value (now : string) (df : col_default) : value :=
  match df with
  | DNull => VNull
  | DConst v => v
  | DCurrentTimestamp => VText now
  end.

(** [ALTER TABLE t ADD COLUMN c ...]: SQLite refuses a name the table
    already has, compared without regard to case, and a non-constant default.
    Existing rows read the column's default. *)
Definition alter_table_add_column (t : string) (c : column) : M unit :=
  fun d => match d !! t with
           | None => (Raised (no_such_table t), d)
           | Some tb =>
               if mem (lower (c_name c)) (map (fun c' => lower (c_name c')) (columns tb))
               then (Raised (OperationalError ("duplicate column name: " ++ c_name c)), d)
               else
                 match c_default c with
                 | DCurrentTimestamp =>
                     (Raised (OperationalError "Cannot add a column with non-constant default"), d)
                 | dflt =>
                 let v := default_value "" dflt in
                 (Returned tt,
                  <[t := mk_table (columns tb ++ [c]) (uniques tb)
                                  (map (fun r => <[c_name c := v]> r) (rows tb))]> d)
                 end
           end.

(** [SELECT COUNT( * ) FROM t] then [fetchone()[0]]. *)
Definition select_count (t : string) : M Z :=
  fun d => match d !! t with
           | None => (Raised (no_such_table t), d)
           | Some tb => (Returned (Z.of_nat (length (rows tb))), d)
           end.

(** [SELECT cols FROM t WHERE cond] then [fetchall()]; [used] lists the
    columns the statement names. *)
Definition select_where (t : string) (used : list string) (cond : row -> bool) : M (list row) :=
  fun d => match d !! t with
           | None => (Raised (no_such_table t), d)
           | Some tb =>
               if negb (forallb (fun c => mem c (map c_name (columns tb))) used)
               then (Raised (OperationalError "no such column"), d)
               else (Returned (filter cond (rows tb)), d)
           end.

(** [fetchone()[0]] on the column [c]: [None[0]] is a [TypeError]. *)
Definition fetchone_0 (c : string) (rs : list row) : M value :=
  match rs with
  | [] => raise TypeError
  | r :: _ => ret (cell r c)
  end.

(** The next rowid: one more than the largest [id], 1 in an empty table. *)
Definition next_id (rs : list row) : Z :=
  1 + fold_right Z.max 0
        (map (fun r => match cell r "id" with VInt n => n | _ => 0 end) rs).

(** The row has the same non-null cells as [r] on every column of [key]. *)
Definition same_key (key : list string) (r r' : row) : bool :=
  forallb (fun c => sql_eq (cell r c) (cell r' c)) key.

(** [INSERT INTO t (cols...) VALUES (...)] at clock [now]: a column not
    listed takes its default and [id] the next rowid. *)
Definition insert_into (now : string) (t : string) (vals : list (string * value)) : M unit :=
  fun d => match d !! t with
           | None => (Raised (no_such_table t), d)
           | Some tb =>
               let names := map c_name (columns tb) in
               if negb (forallb (fun kv => mem (fst kv) names) vals)
               then (Raised (OperationalError "table has no such column"), d)
               else
                 let base : row :=
                   list_to_map
                     (map (fun c => (c_name c, default_value now (c_default c))) (columns tb)) in
                 let r0 : row := foldl (fun r kv => <[fst kv := snd kv]> r) base vals in
                 let r : row :=
                   if mem "id" names && is_null (cell r0 "id")
                   then <["id" := VInt (next_id (rows tb))]> r0 else r0 in
                 if existsb (fun c => c_notnull c && is_null (cell r (c_name c))) (columns tb)
                 then (Raised (IntegrityError "NOT NULL constraint failed"), d)
                 else if existsb (fun key => existsb (same_key key r) (rows tb))
                           (["id"] :: uniques tb)
                 then (Raised (IntegrityError "UNIQUE constraint failed"), d)
                 else (Returned tt,
                       <[t := mk_table (columns tb) (uniques tb) (rows tb ++ [r])]> d)
           end.

(** [UPDATE t SET ... WHERE cond]: [used] lists the columns the statement
    names, [set] rewrites a row that satisfies the condition. *)
Definition update_where
    (t : string) (used : list string) (set : row -> row) (cond : row -> bool) : M unit :=
  fun d => match d !! t with
           | None => (Raised (no_such_table t), d)
           | Some tb =>
               if negb (forallb (fun c => mem c (map c_name (columns tb))) used)
               then (Raised (OperationalError "no such column"), d)
               else (Returned tt,
                     <[t := mk_table (columns tb) (uniques tb)
                                     (map (fun r => if cond r then set r else r) (rows tb))]> d)
           end.

(** [SET c1 = v1, c2 = v2, ...]. *)
Definition assign (sets : list (string * value)) (r : row) : row :=
  foldl (fun r kv => <[fst kv := snd kv]> r) r sets.

(** The constraints SQLite enforces on an [UPDATE], for a statement whose
    [SET] list names a column of a [NOT NULL] or [UNIQUE] constraint.  The
    rows are rewritten one at a time, in rowid order.  On a row it rewrites,
    SQLite checks [NOT NULL] on the columns the statement sets, and each
    [UNIQUE] constraint (the primary key among them) that has one of those
    columns, against the other rows as they are at that moment: [done] are
    the rows before it, already rewritten, [rest] the rows after it. *)
Fixpoint update_rows (tb : table) (sets : list (string * value)) (cond : row -> bool)
    (done todo : list row) : outcome (list row) :=
  match todo with
  | [] => Returned done
  | r :: rest =>
      if cond r then
        let r' := assign sets r in
        if existsb (fun c => c_notnull c && mem (c_name c) (map fst sets)
                             && is_null (cell r' (c_name c))) (columns tb)
        then Raised (IntegrityError "NOT NULL constraint failed")
        else if existsb (fun key => existsb (fun c => mem c (map fst sets)) key
                                    && existsb (same_key key r') (done ++ rest))
                        (["id"] :: uniques tb)
        then Raised (IntegrityError "UNIQUE constraint failed")
        else update_rows tb sets cond (done ++ [r']) rest
      else update_rows tb sets cond (done ++ [r]) rest
  end.

(** [UPDATE t SET c1 = v1, ... WHERE cond] with those checks: [where_cols]
    lists the columns the condition names.  A statement that fails is undone
    as a whole. *)
Definition update_set_where
    (t : string) (where_cols : list string) (sets : list (string * value))
    (cond : row -> bool) : M unit :=
  fun d => match d !! t with
           | None => (Raised (no_such_table t), d)
           | Some tb =>
               if negb (forallb (fun c => mem c (map c_name (columns tb)))
                                (where_cols ++ map fst sets))
               then (Raised (OperationalError "no such column"), d)
               else
                 match update_rows tb sets cond [] (rows tb) with
                 | Returned rows' =>
                     (Returned tt, <[t := mk_table (columns tb) (uniques tb) rows']> d)
                 | Raised e => (Raised e, d)
                 end
           end.

End Store.

(** ** [setup_database]: schema, additive migration, seed data, backfill *)

Module Setup.
Import Store.
Local Open Scope stmt_scope.

Definition col (name : string) : column := mk_column name DNull false.
Definition col_notnull (name : string) : column := mk_column name DNull true.
Definition col_default (name : string) (v : value) : column := mk_column name (DConst v) false.
Definition col_timestamp (name : string) : column := mk_column name DCurrentTimestamp false.

Definition users_columns : list column :=
  [ col "id"; col_notnull "username"; col_notnull "password_hash";
    col_notnull "hub_name"; col_default "is_admin" (VInt 0); col_timestamp "created_at" ].

Definition hubs_columns : list column :=
  [ col "id"; col_notnull "hub_name"; col_timestamp "created_at"; col_timestamp "updated_at" ].

Definition hub_metrics_columns : list column :=
  [ col "id"; col_notnull "hub_id"; col "total_headcount"; col "total_seats";
    col "total_clients"; col "services_offered"; col "female_percent";
    col "male_percent"; col "other_gender_percent"; col "campus_type";
    col "sez_status"; col "location"; col "coverage_hours";
    col "transport_facilities"; col_timestamp "updated_at"; col "updated_by";
    col_default "bench_count" (VInt 0); col "location_headcounts"; col "certifications" ].

Definition hub_capabilities_columns : list column :=
  [ col "id"; col_notnull "hub_id"; col_notnull "capability_name";
    col_notnull "capability_category"; col_default "headcount" (VInt 0);
    col_timestamp "updated_at"; col "updated_by"; col_timestamp "capability_updated_at" ].

Definition client_metrics_columns : list column :=
  [ col "id"; col_notnull "hub_id"; col_notnull "client_name"; col "engagement_status";
    col "commercial_model"; col "capability_category"; col "capability_name";
    col "relationship_duration"; col "scope_summary"; col_timestamp "updated_at";
    col "updated_by" ].

Definition people_metrics_columns : list column :=
  [ col "id"; col_notnull "hub_id"; col_notnull "metric_name"; col "metric_value";
    col "metric_category"; col "time_period"; col "hiring_reason";
    col_timestamp "updated_at"; col "updated_by"; col_timestamp "people_metric_updated_at" ].

Definition capabilities_data : list (string * string) :=
  [ ("Ad Operations", "MEDIA+"); ("Media Reporting", "MEDIA+"); ("SEO", "MEDIA+");
    ("Media Activation", "MEDIA+"); ("Retail Media", "MEDIA+"); ("Paid Search", "MEDIA+");
    ("Commerce", "MEDIA+"); ("Programmatic", "MEDIA+"); ("Analytics & Insights", "MEDIA+");
    ("Language Services", "CONTENT+"); ("Post-production", "CONTENT+");
    ("Transcreation", "CONTENT+"); ("Adaptation", "CONTENT+");
    ("Content for Commerce", "CONTENT+");
    ("Experience Platforms", "CX+"); ("Commerce Platforms", "CX+");
    ("Marketing Automation", "CX+"); ("Engineering Services", "CX+");
    ("Creative Technology", "CX+"); ("CRM", "CX+"); ("DevOps", "CX+");
    ("Quality Engineering", "CX+") ].

Definition default_hubs : list string :=
  [ "AKQA"; "Mirum Digital Pvt Ltd"; "GroupM Nexus Global Team"; "Hogarth Worldwide";
    "Hogarth Studios"; "Verticurl"; "VML-Tech Commerce" ].

(** [[f"Client {i+1}" for i in range(5)]]. *)
Definition sample_clients : list string :=
  [ "Client 1"; "Client 2"; "Client 3"; "Client 4"; "Client 5" ].

Definition people_metric_types : list (string * string * string * Z) :=
  [ ("Tenure <1 year", "Tenure", "2025", 25); ("Tenure 1-2 years", "Tenure", "2025", 22);
    ("Tenure 2-3 years", "Tenure", "2025", 18); ("Tenure 3-5 years", "Tenure", "2025", 15);
    ("Tenure 5-7 years", "Tenure", "2025", 10); ("Tenure 7-10 years", "Tenure", "2025", 5);
    ("Tenure 10+ years", "Tenure", "2025", 3);
    ("Permanent Employees", "Employment Type", "2025", 75);
    ("Contract Employees", "Employment Type", "2025", 25);
    ("Single", "Marital Status", "2025", 55); ("Married", "Marital Status", "2025", 40);
    ("Other Marital Status", "Marital Status", "2025", 5) ].

Definition hub_metrics_timestamp_columns : list string :=
  [ "metrics_updated_at"; "location_updated_at"; "certifications_updated_at" ].

Definition tables_to_update : list (string * list string) :=
  [ ("hub_metrics", ["metrics_updated_at"; "location_updated_at"; "certifications_updated_at"]);
    ("hub_capabilities", ["capability_updated_at"]);
    ("client_metrics", ["client_updated_at"]);
    ("people_metrics", ["people_metric_updated_at"]) ].

(** [try: ALTER TABLE ... except sqlite3.OperationalError: pass]. *)
Definition add_column_if_not_exists (t : string) (c : column) : M unit :=
  fun d => match alter_table_add_column t c d with
           | (Raised (OperationalError _), d') => (Returned tt, d')
           | r => r
           end.

Section SetupDatabase.

(** [hashlib.sha256(s.encode()).hexdigest()]. *)
Variable sha256_hexdigest : string -> string.

(** [CURRENT_TIMESTAMP] during the run, which is taken to fit within one
    second of the clock. *)
Variable now : string.

Definition primary_category_of (hub_name : string) : string :=
  if contains "AKQA" hub_name || contains "Mirum" hub_name
     || contains "VML-Tech Commerce" hub_name || contains "Verticurl" hub_name
  then "CX+"
  else if contains "GroupM" hub_name then "MEDIA+"
  else if contains "Hogarth" hub_name then "CONTENT+"
  else "CX+".

(** The body of [for hub_name in default_hubs]. *)
Definition seed_hub (hub_name : string) : M unit :=
  insert_into now "hubs" [("hub_name", VText hub_name)] ;;
  found <- select_where "hubs" ["id"; "hub_name"]
             (fun r => sql_eq (cell r "hub_name") (VText hub_name)) ;;
  hub_id <- fetchone_0 "id" found ;;
  insert_into now "hub_metrics"
    [ ("hub_id", hub_id); ("total_headcount", VInt 95); ("total_seats", VInt 76);
      ("total_clients", VInt 12); ("services_offered", VInt 8);
      ("female_percent", VReal 35 1); ("male_percent", VReal 63 1);
      ("other_gender_percent", VReal 2 1);
      ("campus_type",
       VText (if contains "AKQA" hub_name || contains "GroupM" hub_name
                 || contains "VML-Tech Commerce" hub_name
                 || contains "Hogarth Studios" hub_name
              then "In-Campus" else "Outside-Campus"));
      ("sez_status", VText (if contains "Hogarth Worldwide" hub_name then "Yes" else "No"));
      ("location",
       VText (if contains "Hogarth Worldwide" hub_name then "Chennai, Hyderabad, Gurugram"
              else if contains "Verticurl" hub_name then "Coimbatore, Hyderabad, Gurugram"
              else if contains "Mirum" hub_name then "Mumbai and Gurugram"
              else "Gurugram"));
      ("coverage_hours", VText "24x5");
      ("transport_facilities",
       VText (if contains "Hogarth" hub_name || contains "Verticurl" hub_name
              then "Yes" else "No")) ] ;;
  let primary_category := primary_category_of hub_name in
  for_each capabilities_data (fun '(capability_name, category) =>
    when (String.eqb category primary_category)
      (insert_into now "hub_capabilities"
         [ ("hub_id", hub_id); ("capability_name", VText capability_name);
           ("capability_category", VText category); ("headcount", VInt 0) ])) ;;
  for_each sample_clients (fun client =>
    insert_into now "client_metrics"
      [ ("hub_id", hub_id); ("client_name", VText client);
        ("engagement_status", VText "Active"); ("commercial_model", VText "FTE");
        ("capability_category", VText primary_category);
        ("scope_summary", VText "Sample scope details") ]) ;;
  for_each people_metric_types (fun '(metric_name, category, period, value) =>
    insert_into now "people_metrics"
      [ ("hub_id", hub_id); ("metric_name", VText metric_name);
        ("metric_value", VInt value); ("metric_category", VText category);
        ("time_period", VText period) ]).

(** [# Insert default hubs if table is empty]. *)
Definition seed_hubs : M unit :=
  n <- select_count "hubs" ;;
  when (n =? 0) (for_each default_hubs seed_hub).

(** [# Create default admin user if no users exist]. *)
Definition seed_users : M unit :=
  n <- select_count "users" ;;
  when (n =? 0)
    (insert_into now "users"
       [ ("username", VText "admin");
         ("password_hash", VText (sha256_hexdigest "admin123"));
         ("hub_name", VText "ALL"); ("is_admin", VInt 1) ] ;;
     hubs <- select_where "hubs" ["id"; "hub_name"] (fun _ => true) ;;
     for_each hubs (fun h =>
       match cell h "hub_name" with
       | VText hub_name =>
           let username := replace_space (lower hub_name) in
           let password := (username ++ "123")%string in
           insert_into now "users"
             [ ("username", VText username);
               ("password_hash", VText (sha256_hexdigest password));
               ("hub_name", VText hub_name); ("is_admin", VInt 0) ]
       | _ => raise TypeError   (* [.lower()] on a value that is no string *)
       end)).

(** [CREATE TABLE IF NOT EXISTS] for the six tables, with the three
    column additions to [hub_metrics] that sit between them. *)
Definition create_tables : M unit :=
  create_table_if_not_exists "users" users_columns [["username"]] ;;
  create_table_if_not_exists "hubs" hubs_columns [["hub_name"]] ;;
  create_table_if_not_exists "hub_metrics" hub_metrics_columns [] ;;
  columns <- table_info "hub_metrics" ;;
  when (negb (mem "bench_count" columns))
    (alter_table_add_column "hub_metrics" (col_default "bench_count" (VInt 0))) ;;
  when (negb (mem "location_headcounts" columns))
    (alter_table_add_column "hub_metrics" (col "location_headcounts")) ;;
  when (negb (mem "certifications" columns))
    (alter_table_add_column "hub_metrics" (col "certifications")) ;;
  create_table_if_not_exists "hub_capabilities" hub_capabilities_columns
    [["hub_id"; "capability_name"]] ;;
  create_table_if_not_exists "client_metrics" client_metrics_columns
    [["hub_id"; "client_name"]] ;;
  create_table_if_not_exists "people_metrics" people_metrics_columns
    [["hub_id"; "metric_name"; "time_period"; "hiring_reason"]].

(** The column additions after the seed blocks. *)
Definition add_missing_columns : M unit :=
  hub_metrics_columns <- table_info "hub_metrics" ;;
  for_each hub_metrics_timestamp_columns (fun column =>
    when (negb (mem column hub_metrics_columns))
      (alter_table_add_column "hub_metrics" (col column))) ;;
  capabilities_columns <- table_info "hub_capabilities" ;;
  when (negb (mem "capability_updated_at" capabilities_columns))
    (alter_table_add_column "hub_capabilities" (col "capability_updated_at")) ;;
  when (negb (mem "headcount" capabilities_columns))
    (add_column_if_not_exists "hub_capabilities" (col_default "headcount" (VInt 0))) ;;
  client_columns <- table_info "client_metrics" ;;
  when (negb (mem "employee_count" client_columns))
    (alter_table_add_column "client_metrics" (col_default "employee_count" (VInt 0))) ;;
  when (negb (mem "client_updated_at" client_columns))
    (alter_table_add_column "client_metrics" (col "client_updated_at")) ;;
  when (negb (mem "capability_name" client_columns))
    (alter_table_add_column "client_metrics" (col "capability_name")) ;;
  when (negb (mem "relationship_duration" client_columns))
    (alter_table_add_column "client_metrics" (col "relationship_duration")) ;;
  people_columns <- table_info "people_metrics" ;;
  when (negb (mem "date_created" people_columns))
    (alter_table_add_column "people_metrics" (col "date_created") ;;
     update_where "people_metrics" ["date_created"; "updated_at"]
       (fun r => <["date_created" := cell r "updated_at"]> r)
       (fun r => is_null (cell r "date_created"))) ;;
  when (negb (mem "people_metric_updated_at" people_columns))
    (alter_table_add_column "people_metrics" (col "people_metric_updated_at")).

(** [# Initialize timestamps for existing records if needed]. *)
Definition initialize_timestamps : M unit :=
  for_each tables_to_update (fun '(table_name, timestamp_columns) =>
    null_timestamp_records <-
      select_where table_name ("id" :: timestamp_columns)
        (fun r => existsb (fun c => is_null (cell r c)) timestamp_columns) ;;
    for_each null_timestamp_records (fun record =>
      update_where table_name ("id" :: timestamp_columns)
        (assign (map (fun c => (c, VText now)) timestamp_columns))
        (fun r => sql_eq (cell r "id") (cell record "id")))).

(** The three [PRAGMA] statements that open the function configure the
    engine and touch no data. *)
Definition setup_database : M unit :=
  create_tables ;;
  seed_hubs ;;
  seed_users ;;
  add_missing_columns ;;
  initialize_timestamps.

End SetupDatabase.

End Setup.

(** ** Repository operations and the forms that call them *)

Module Repository.
Import Store.
Local Open Scope stmt_scope.

(** A Python [dict] with string keys. *)
Abbreviation dict := (gmap string value).

(** [d[k]]. *)
Definition getitem (d : dict) (k : string) : M value :=
  match d !! k with
  | Some v => ret v
  | None => raise (KeyError k)
  end.

(** [k in d]. *)
Definition has_key (d : dict) (k : string) : bool :=
  match d !! k with Some _ => true | None => false end.

(** [[(k, d[k]) for k in keys]]. *)
Fixpoint getitems (d : dict) (keys : list string) : M (list (string * value)) :=
  match keys with
  | [] => ret []
  | k :: keys' =>
      v <- getitem d k ;;
      rest <- getitems d keys' ;;
      ret ((k, v) :: rest)
  end.

(** [try: body; return True / except Exception: st.error(...); return False]
    around a statement block. *)
Definition returns_true_unless_raised (body : M unit) : M bool :=
  fun d => match body d with
           | (Returned _, d') => (Returned true, d')
           | (Raised _, d') => (Returned false, d')
           end.

(** [if k not in metrics_data: metrics_data[k] = v]. *)
Definition setdefault (k : string) (v : value) (d : dict) : dict :=
  if has_key d k then d else <[k := v]> d.

Definition hub_metrics_core_fields : list string :=
  [ "total_headcount"; "total_seats"; "total_clients"; "services_offered";
    "female_percent"; "male_percent"; "other_gender_percent"; "campus_type";
    "sez_status"; "location"; "coverage_hours"; "transport_facilities" ].

Definition hub_metrics_optional_fields : list string :=
  [ "bench_count"; "location_headcounts"; "certifications" ].

Section Operations.

(** [CURRENT_TIMESTAMP] when the statement runs. *)
Variable now : string.

(** The first block of [update_hub_metrics]: the gender percentages the
    caller left out are read from the row, or are [0] when there is none. *)
Definition preserve_gender_percentages (metrics_data : dict) : M dict :=
  if negb (has_key metrics_data "female_percent")
     || negb (has_key metrics_data "male_percent")
     || negb (has_key metrics_data "other_gender_percent")
  then
    id <- getitem metrics_data "id" ;;
    found <- select_where "hub_metrics"
               ["female_percent"; "male_percent"; "other_gender_percent"; "id"]
               (fun r => sql_eq (cell r "id") id) ;;
    match found with
    | current_metrics :: _ =>
        ret (setdefault "other_gender_percent" (cell current_metrics "other_gender_percent")
            (setdefault "male_percent" (cell current_metrics "male_percent")
            (setdefault "female_percent" (cell current_metrics "female_percent")
               metrics_data)))
    | [] =>
        ret (setdefault "other_gender_percent" (VInt 0)
            (setdefault "male_percent" (VInt 0)
            (setdefault "female_percent" (VInt 0) metrics_data)))
    end
  else ret metrics_data.

Definition update_hub_metrics (metrics_data : dict) : M bool :=
  returns_true_unless_raised
    (metrics_data <- preserve_gender_percentages metrics_data ;;
     core <- getitems metrics_data hub_metrics_core_fields ;;
     updated_by <- getitem metrics_data "updated_by" ;;
     optional <- getitems metrics_data
                   (filter (fun k => has_key metrics_data k) hub_metrics_optional_fields) ;;
     id <- getitem metrics_data "id" ;;
     let sets := (core ++ [("updated_at", VText now); ("updated_by", updated_by)]
                       ++ optional)%list in
     update_where "hub_metrics" ("id" :: map fst sets) (assign sets)
       (fun r => sql_eq (cell r "id") id)).

Definition update_hub_capability (capability_data : dict) : M bool :=
  returns_true_unless_raised
    (if has_key capability_data "headcount" then
       headcount <- getitem capability_data "headcount" ;;
       updated_by <- getitem capability_data "updated_by" ;;
       id <- getitem capability_data "id" ;;
       let sets := [ ("headcount", headcount); ("updated_at", VText now);
                     ("updated_by", updated_by); ("capability_updated_at", VText now) ] in
       update_where "hub_capabilities" ("id" :: map fst sets) (assign sets)
         (fun r => sql_eq (cell r "id") id)
     else
       (* three parameters are bound to a statement with two placeholders *)
       _ <- getitem capability_data "percentage" ;;
       _ <- getitem capability_data "updated_by" ;;
       _ <- getitem capability_data "id" ;;
       raise (ProgrammingError "Incorrect number of bindings supplied")).

Definition update_client_metric (client_data : dict) : M bool :=
  returns_true_unless_raised
    (fields <- getitems client_data
                 [ "client_name"; "engagement_status"; "commercial_model";
                   "capability_category"; "capability_name"; "relationship_duration";
                   "scope_summary" ] ;;
     let employee_count := default (VInt 0) (client_data !! "employee_count") in
     updated_by <- getitem client_data "updated_by" ;;
     id <- getitem client_data "id" ;;
     let sets := (fields ++ [ ("employee_count", employee_count); ("updated_at", VText now);
                              ("updated_by", updated_by); ("client_updated_at", VText now) ])%list in
     update_set_where "client_metrics" ["id"] sets (fun r => sql_eq (cell r "id") id)).

Definition update_people_metric (metric_data : dict) : M bool :=
  returns_true_unless_raised
    (if has_key metric_data "hiring_reason" then
       metric_value <- getitem metric_data "metric_value" ;;
       hiring_reason <- getitem metric_data "hiring_reason" ;;
       updated_by <- getitem metric_data "updated_by" ;;
       id <- getitem metric_data "id" ;;
       let sets := [ ("metric_value", metric_value); ("hiring_reason", hiring_reason);
                     ("updated_at", VText now); ("updated_by", updated_by);
                     ("people_metric_updated_at", VText now) ] in
       update_set_where "people_metrics" ["id"] sets (fun r => sql_eq (cell r "id") id)
     else
       metric_value <- getitem metric_data "metric_value" ;;
       updated_by <- getitem metric_data "updated_by" ;;
       id <- getitem metric_data "id" ;;
       let sets := [ ("metric_value", metric_value); ("updated_at", VText now);
                     ("updated_by", updated_by); ("people_metric_updated_at", VText now) ] in
       update_set_where "people_metrics" ["id"] sets (fun r => sql_eq (cell r "id") id)).

(** *** Adding a capability, in [show_capabilities_view] *)

Inductive notice : Type :=
| st_error (msg : string)
| st_success (msg : string).

(** The body of [if submit_button and new_capability_name:]; [None] when
    the name is empty and nothing is done. *)
Definition add_capability
    (current_hub : string) (hub_id : Z) (new_capability_name default_category : string)
    (headcount : Z) : M (option notice) :=
  if String.eqb new_capability_name "" then ret None
  else fun d =>
    match
      (existing <- select_where "hub_capabilities" ["id"; "hub_id"; "capability_name"]
                     (fun r => sql_eq (cell r "hub_id") (VInt hub_id)
                               && sql_eq (cell r "capability_name") (VText new_capability_name)) ;;
       match existing with
       | _ :: _ =>
           ret (st_error ("Service '" ++ new_capability_name ++ "' already exists for this hub"))
       | [] =>
           insert_into now "hub_capabilities"
             [ ("hub_id", VInt hub_id); ("capability_name", VText new_capability_name);
               ("capability_category", VText default_category); ("headcount", VInt headcount);
               ("updated_at", VText now); ("updated_by", VText current_hub);
               ("capability_updated_at", VText now) ] ;;
           ret (st_success ("Added '" ++ new_capability_name ++ "' to hub capabilities!"))
       end) d
    with
    | (Returned n, d') => (Returned (Some n), d')
    | (Raised e, d') =>
        (Returned (Some (st_error ("Error adding capability: " ++ exn_text e))), d')
    end.

(** *** Gender percentages, in [handle_gender_category] *)

(** A row of the edited frame.  [Total] is a disabled column of the
    editor: it keeps the sum computed from the stored counts when the
    table was built, whatever the three counts were edited to. *)
Record gender_row : Type := mk_gender_row {
  Time_Period : string;
  Female : Z;
  Male : Z;
  Other_Gender : Z;
  Total : Z
}.

(** [a / b] on Python numbers; the quotient is kept as a reduced fraction. *)
Definition true_div (a b : Z) : outcome (Z * positive) :=
  if b =? 0 then Raised ZeroDivisionError
  else
    let g := Z.gcd a b in
    let s := Z.sgn b in
    Returned (s * (a / g), Z.to_pos (s * (b / g))).

(** [(count / total) * 100]. *)
Definition percent (count total : Z) : outcome value :=
  obind (true_div (count * 100) total) (fun '(n, d) => Returned (VReal n d)).

Definition lift {A} (o : outcome A) : M A :=
  fun d => (o, d).

(** The block under [if save_success:] of the [Save Gender Data] button. *)
Definition save_gender_percentages
    (edited_df : list gender_row) (current_hub : string) (hub_id : value) : M unit :=
  match edited_df with
  | [] => ret tt
  | latest_row :: _ =>
      let total := Total latest_row in
      if total >? 0 then
        female_pct <- lift (percent (Female latest_row) total) ;;
        male_pct <- lift (percent (Male latest_row) total) ;;
        other_pct <- lift (percent (Other_Gender latest_row) total) ;;
        let sets := [ ("female_percent", female_pct); ("male_percent", male_pct);
                      ("other_gender_percent", other_pct);
                      ("updated_at", VText now); ("updated_by", VText current_hub) ] in
        update_where "hub_metrics" ("hub_id" :: map fst sets) (assign sets)
          (fun r => sql_eq (cell r "hub_id") hub_id)
      else ret tt
  end.

End Operations.

End Repository.

(** ** Age labels and cell styles: [get_time_difference], [style_outdated] *)

Module Display.
Import Freshness.

(** [str(n)] of a Python [int]: decimal digits, with a leading minus sign
    for a negative number. *)
Definition str (n : Z) : string := NilZero.string_of_int (Z.to_int n).

Definition BG_LIGHT_RED : string := "background-color: #FFCCCC".

Section Labels.

Variable strptime : string -> outcome datetime.
Variable now : datetime.

Definition get_time_difference (timestamp_str : option string) : outcome string :=
  match timestamp_str with
  | None => Returned "Never"
  | Some s =>
      try_except
        (obind (strptime s) (fun timestamp =>
           let diff := datetime_sub now timestamp in
           let days := days diff in
           if days =? 0 then
             let hours := seconds diff / 3600 in
             if hours =? 0 then
               let minutes := seconds diff / 60 in
               Returned (str minutes ++ " minutes ago")
             else Returned (str hours ++ " hours ago")
           else if days =? 1 then Returned "Yesterday"
           else if days <? 30 then Returned (str days ++ " days ago")
           else if days <? 365 then
             let months := days / 30 in
             Returned (str months ++ " months ago")
           else
             let years := days / 365 in
             Returned (str years ++ " years ago")))
        (Returned "Unknown")
  end.

(** The inner function of [apply_outdated_style].  There is no [pd.isna]
    test here: on a null cell [strptime] raises [TypeError], inside the
    [try]. *)
Definition style_outdated (val : option string) : outcome string :=
  try_except
    (obind (match val with
            | Some s => strptime s
            | None => Raised TypeError
            end) (fun timestamp =>
       let diff := datetime_sub now timestamp in
       if days diff >? 30 then Returned BG_LIGHT_RED else Returned EmptyString))
    (Returned BG_LIGHT_RED).

End Labels.

End Display.

(** ** More forms: a new client relationship, the bench count mirror *)

Module Forms.
Import Store Repository.
Local Open Scope stmt_scope.

(** A row of the staffing editor. *)
Record staffing_row : Type := mk_staffing_row {
  Staffing_Period : string;
  Bench_Count : value
}.

Section Operations.

Variable now : string.

Definition add_client_metric (client_data : dict) : M bool :=
  returns_true_unless_raised
    (fields <- getitems client_data
                 [ "hub_id"; "client_name"; "engagement_status"; "commercial_model";
                   "capability_category"; "capability_name"; "relationship_duration";
                   "scope_summary" ] ;;
     let employee_count := default (VInt 0) (client_data !! "employee_count") in
     updated_by <- getitem client_data "updated_by" ;;
     insert_into now "client_metrics"
       (fields ++ [ ("employee_count", employee_count); ("updated_by", updated_by);
                    ("client_updated_at", VText now) ])%list).

(** The block under [if save_success:] of the [Save Staffing Data] button
    in [handle_staffing_category]: the bench count of the first row of the
    editor is copied to the hub's row of [hub_metrics]. *)
Definition save_bench_count
    (edited_df : list staffing_row) (current_hub : string) (hub_id : value) : M unit :=
  match edited_df with
  | [] => ret tt
  | latest_row :: _ =>
      let bench_count := Bench_Count latest_row in
      let sets := [ ("bench_count", bench_count); ("updated_at", VText now);
                    ("updated_by", VText current_hub) ] in
      update_where "hub_metrics" ("hub_id" :: map fst sets) (assign sets)
        (fun r => sql_eq (cell r "hub_id") hub_id)
  end.

End Operations.

End Forms.

(** ** Sessions: [login_user], [logout_user] and the [Add New User] form *)

Module Session.
Import Store Repository.
Local Open Scope stmt_scope.

(** The keys of [st.session_state] the two functions write. *)
Record session_state : Type := mk_session_state {
  logged_in : bool;
  current_hub : option value;
  is_admin : bool
}.

(** [bool(v)] on a value read from the store. *)
Definition truthy (v : value) : bool :=
  match v with
  | VNull => false
  | VInt n => negb (n =? 0)
  | VReal n _ => negb (n =? 0)
  | VText s => negb (String.eqb s "")
  end.

Section Users.

Variable sha256_hexdigest : string -> string.
Variable now : string.

Definition login_user (username password : string) (st : session_state)
  : M (bool * session_state) :=
  let password_hash := sha256_hexdigest password in
  found <- select_where "users" ["hub_name"; "is_admin"; "username"; "password_hash"]
             (fun r => sql_eq (cell r "username") (VText username)
                       && sql_eq (cell r "password_hash") (VText password_hash)) ;;
  match found with
  | result :: _ =>
      ret (true, {| logged_in := true;
                    current_hub := Some (cell result "hub_name");
                    is_admin := truthy (cell result "is_admin") |})
  | [] => ret (false, st)
  end.

Definition logout_user (st : session_state) : session_state :=
  {| logged_in := false; current_hub := None; is_admin := false |}.

(** The body of [if st.form_submit_button("Add User"):] in
    [show_admin_tools]. *)
Definition add_user
    (username password confirm_password hub_name : string) (admin : bool) : M notice :=
  if String.eqb username "" || String.eqb password "" then
    ret (st_error "Username and password are required")
  else if negb (String.eqb password confirm_password) then
    ret (st_error "Passwords do not match")
  else
    let password_hash := sha256_hexdigest password in
    fun d =>
      match insert_into now "users"
              [ ("username", VText username); ("password_hash", VText password_hash);
                ("hub_name", VText hub_name);
                ("is_admin", VInt (if admin then 1 else 0)) ] d
      with
      | (Returned _, d') =>
          (Returned (st_success ("User '" ++ username ++ "' added successfully!")), d')
      | (Raised (IntegrityError _), d') =>
          (Returned (st_error ("Username '" ++ username
                               ++ "' already exists. Please choose another username.")), d')
      | (Raised e, d') =>
          (Returned (st_error ("Error adding user: " ++ exn_text e)), d')
      end.

End Users.

End Session.

(** ** The read side: [get_hub_metrics], [get_hub_capabilities],
    [get_client_metrics], [get_people_metrics] *)

Module Queries.
Import Store.
Local Open Scope stmt_scope.

(** SQL [a != b] as a [WHERE] condition: false as soon as one side is
    [NULL]. *)
Definition sql_ne (a b : value) : bool :=
  negb (is_null a) && negb (is_null b) && negb (sql_eq a b).

(** The order of [ORDER BY]: [NULL] first, then the numbers by value, then
    the texts byte by byte. *)
Definition value_compare (a b : value) : comparison :=
  match a, b with
  | VNull, VNull => Eq
  | VNull, _ => Lt
  | _, VNull => Gt
  | VInt x, VInt y => x ?= y
  | VInt x, VReal n d => x * Z.pos d ?= n
  | VReal n d, VInt y => n ?= y * Z.pos d
  | VReal n d, VReal n' d' => n * Z.pos d' ?= n' * Z.pos d
  | (VInt _ | VReal _ _), VText _ => Lt
  | VText _, (VInt _ | VReal _ _) => Gt
  | VText s, VText s' => String.compare s s'
  end.

Fixpoint row_compare (keys : list string) (r r' : row) : comparison :=
  match keys with
  | [] => Eq
  | k :: keys' =>
      match value_compare (cell r k) (cell r' k) with
      | Eq => row_compare keys' r r'
      | c => c
      end
  end.

Definition row_le (keys : list string) (r r' : row) : bool :=
  match row_compare keys r r' with Gt => false | _ => true end.

(** [ORDER BY keys]: rows that compare equal stay in the order the join
    produced them. *)
Fixpoint insert_row (keys : list string) (r : row) (sorted : list row) : list row :=
  match sorted with
  | [] => [r]
  | x :: sorted' =>
      if row_le keys x r then x :: insert_row keys r sorted' else r :: sorted
  end.

Definition order_by (keys : list string) (l : list row) : list row :=
  foldl (fun sorted r => insert_row keys r sorted) [] l.

(** [SELECT h.hub_name, c.*, h.id as hub_id FROM t c JOIN hubs h
    ON c.hub_id = h.id WHERE ...]: every row of [t] paired with the hub its
    [hub_id] points to, in the order of [t].  A result row is the row of [t]
    with the hub's name under [hub_name]; the last column repeats [hub_id].
    [used] lists the columns of [t] the statement names. *)
Definition join_hubs (t : string) (used : list string) (keep : row -> row -> bool)
  : M (list row) :=
  fun d =>
    match d !! t with
    | None => (Raised (no_such_table t), d)
    | Some tb =>
        match d !! "hubs" with
        | None => (Raised (no_such_table "hubs"), d)
        | Some hubs =>
            if negb (forallb (fun c => mem c (map c_name (columns tb))) ("hub_id" :: used))
               || negb (forallb (fun c => mem c (map c_name (columns hubs))) ["id"; "hub_name"])
            then (Raised (OperationalError "no such column"), d)
            else
              (Returned
                 (flat_map (fun c =>
                    map (fun h => <["hub_name" := cell h "hub_name"]> c)
                        (filter (fun h => sql_eq (cell c "hub_id") (cell h "id") && keep h c)
                                (rows hubs)))
                    (rows tb)), d)
        end
    end.

Definition named (hub_name : string) (h : row) : bool :=
  sql_eq (cell h "hub_name") (VText hub_name).

Definition get_hub_metrics (hub_name : string) : M (list row) :=
  if String.eqb hub_name "ALL" then
    found <- join_hubs "hub_metrics" [] (fun _ _ => true) ;;
    ret (order_by ["hub_name"] found)
  else
    join_hubs "hub_metrics" [] (fun h _ => named hub_name h).

Definition get_hub_capabilities (hub_name : string) : M (list row) :=
  if String.eqb hub_name "ALL" then
    found <- join_hubs "hub_capabilities" ["capability_category"; "capability_name"]
               (fun _ _ => true) ;;
    ret (order_by ["hub_name"; "capability_category"; "capability_name"] found)
  else
    found <- join_hubs "hub_capabilities" ["capability_category"; "capability_name"]
               (fun h _ => named hub_name h) ;;
    ret (order_by ["capability_category"; "capability_name"] found).

Definition get_client_metrics (hub_name : string) : M (list row) :=
  if String.eqb hub_name "ALL" then
    found <- join_hubs "client_metrics" ["client_name"] (fun _ _ => true) ;;
    ret (order_by ["hub_name"; "client_name"] found)
  else
    found <- join_hubs "client_metrics" ["client_name"] (fun h _ => named hub_name h) ;;
    ret (order_by ["client_name"] found).

Definition not_hiring (p : row) : bool :=
  sql_ne (cell p "metric_category") (VText "Hiring").

(** [category] is [None] for the default argument; [if category:] is also
    false on the empty string. *)
Definition get_people_metrics (hub_name : string) (category : option string) : M (list row) :=
  match category with
  | Some (String _ _ as category) =>
      if String.eqb hub_name "ALL" then
        found <- join_hubs "people_metrics" ["metric_category"; "metric_name"; "time_period"]
                   (fun _ p => sql_eq (cell p "metric_category") (VText category)
                               && not_hiring p) ;;
        ret (order_by ["hub_name"; "metric_name"; "time_period"] found)
      else
        found <- join_hubs "people_metrics" ["metric_category"; "metric_name"; "time_period"]
                   (fun h p => named hub_name h
                               && sql_eq (cell p "metric_category") (VText category)
                               && not_hiring p) ;;
        ret (order_by ["metric_name"; "time_period"] found)
  | _ =>
      if String.eqb hub_name "ALL" then
        found <- join_hubs "people_metrics" ["metric_category"; "metric_name"; "time_period"]
                   (fun _ _ => true) ;;
        ret (order_by ["hub_name"; "metric_category"; "metric_name"; "time_period"] found)
      else
        found <- join_hubs "people_metrics" ["metric_category"; "metric_name"; "time_period"]
                   (fun h p => named hub_name h && not_hiring p) ;;
        ret (order_by ["metric_category"; "metric_name"; "time_period"] found)
  end.

(** The tiles of [show_hub_metrics_view]. *)
Definition total_clients_calculated (current_hub : string) : M Z :=
  clients_df <- get_client_metrics current_hub ;;
  ret (Z.of_nat (length clients_df)).

Definition total_services_calculated (current_hub : string) : M Z :=
  capabilities_df <- get_hub_capabilities current_hub ;;
  ret (Z.of_nat (length capabilities_df)).

End Queries.

(** ** The location list of a hub: stored as one text, edited as a list *)

Module Locations.

(** [c.isspace()] on the characters below 256. *)
Definition isspace (c : ascii) : bool :=
  let n := nat_of_ascii c in
  ((9 <=? n) && (n <=? 13) || (28 <=? n) && (n <=? 32) || (n =? 133) || (n =? 160))%nat.

Fixpoint lstrip (s : string) : string :=
  match s with
  | EmptyString => EmptyString
  | String c s' => if isspace c then lstrip s' else s
  end.

Fixpoint rstrip (s : string) : string :=
  match s with
  | EmptyString => EmptyString
  | String c s' =>
      match rstrip s' with
      | EmptyString => if isspace c then EmptyString else String c EmptyString
      | r => String c r
      end
  end.

(** [s.strip()]. *)
Definition strip (s : string) : string := rstrip (lstrip s).

(** [s.split(sep)] for a separator of one character: never empty, one
    more part than there are separators. *)
Fixpoint split (sep : ascii) (s : string) : list string :=
  match s with
  | EmptyString => [EmptyString]
  | String c s' =>
      if Ascii.eqb c sep then EmptyString :: split sep s'
      else match split sep s' with
           | part :: parts => String c part :: parts
           | [] => [String c EmptyString]
           end
  end.

(** [sep.join(l)]. *)
Fixpoint join (sep : string) (l : list string) : string :=
  match l with
  | [] => EmptyString
  | [x] => x
  | x :: l' => x ++ sep ++ join sep l'
  end.

(** [bool(s)] for a string. *)
Definition nonblank (s : string) : bool :=
  match s with EmptyString => false | String _ _ => true end.

(** In [show_hub_metrics_view]:
    [[loc.strip() for loc in row['location'].split(',') if loc.strip()]],
    and the empty list for a null cell. *)
Definition load_locations (location : option string) : list string :=
  match location with
  | Some s => map strip (List.filter (fun loc => nonblank (strip loc)) (split "," s))
  | None => []
  end.

(** [", ".join([loc for loc in locations if loc.strip()])], the text the
    form sends to [update_hub_metrics]. *)
Definition location_str (locations : list string) : string :=
  join ", " (List.filter (fun loc => nonblank (strip loc)) locations).

End Locations.

(** * Properties *)

(** ** Freshness evaluator *)

Module FreshnessFacts.
Import Freshness.

Lemma timedelta_new_days (d s us : Z) :
  days (timedelta_new d s us) = ((d * 86400 + s) * 1000000 + us) / 86400000000.
Proof.
  unfold timedelta_new; cbn [days].
  replace 86400000000 with (1000000 * 86400) by reflexivity.
  rewrite <- Z.div_div by lia.
  rewrite Z.div_add_l by lia.
  replace (d * 86400 + s + us / 1000000) with (d * 86400 + (s + us / 1000000)) by lia.
  rewrite Z.div_add_l by lia.
  reflexivity.
Qed.

(** [(a - b).days] is the number of whole days in the elapsed time,
    rounded down. *)
Lemma datetime_sub_days (a b : datetime) :
  days (datetime_sub a b) = elapsed_us a b / 86400000000.
Proof. unfold datetime_sub, elapsed_us. apply timedelta_new_days. Qed.

Lemma days_over_30 (a b : datetime) :
  30 < days (datetime_sub a b) <-> 31 * 86400000000 <= elapsed_us a b.
Proof.
  rewrite datetime_sub_days.
  pose proof (Z.div_mod (elapsed_us a b) 86400000000 ltac:(lia)) as E.
  pose proof (Z.mod_pos_bound (elapsed_us a b) 86400000000 ltac:(lia)) as B.
  lia.
Qed.

Section Evaluator.
Variable strptime : string -> outcome datetime.
Variable now : datetime.

Lemma is_outdated_returns (ts : option string) :
  exists b, is_outdated strptime now ts = Returned b.
Proof.
  destruct ts as [s|]; cbn; [|eauto].
  destruct (strptime s); cbn; eauto.
Qed.

Lemma is_outdated_valid (s : string) (t : datetime) :
  strptime s = Returned t ->
  is_outdated strptime now (Some s) = Returned (days (datetime_sub now t) >? 30).
Proof. intros H. cbn. rewrite H. reflexivity. Qed.

Lemma color_by_days_valid (s : string) (t : datetime) :
  strptime s = Returned t ->
  color_by_days strptime now (Some s) =
    Returned (let d := days (datetime_sub now t) in
              if d <? 30 then BG_GREEN else if d <? 35 then BG_YELLOW else BG_RED).
Proof.
  intros H. cbn. rewrite H. cbn.
  destruct (_ <? 30); [reflexivity|]. destruct (_ <? 35); reflexivity.
Qed.
End Evaluator.

(** C2.  [is_outdated] always returns and never raises; it answers true
    exactly when the timestamp is absent, or [strptime] raises on it, or the
    whole days elapsed from it to the reference clock exceed 30, that is when
    at least 31 full days have elapsed; on a valid timestamp the answer is
    [(now - t).days > 30]. *)
Theorem is_outdated_spec :
  forall (strptime : string -> outcome datetime) (now : datetime) (ts : option string),
    (exists b, is_outdated strptime now ts = Returned b) /\
    (is_outdated strptime now ts = Returned true <->
       ts = None \/
       (exists s e, ts = Some s /\ strptime s = Raised e) \/
       (exists s t, ts = Some s /\ strptime s = Returned t /\
                    30 < days (datetime_sub now t))) /\
    (forall s t, ts = Some s -> strptime s = Returned t ->
       is_outdated strptime now ts = Returned (days (datetime_sub now t) >? 30) /\
       (30 < days (datetime_sub now t) <-> 31 * 86400000000 <= elapsed_us now t)).
Proof.
  intros strptime now ts. split; [apply is_outdated_returns|]. split.
  - destruct ts as [s|]; cbn.
    + destruct (strptime s) as [t|e] eqn:Hs; cbn.
      * split.
        -- intros H. right; right. exists s, t. repeat split; trivial.
           injection H as H. apply Z.gtb_lt in H. lia.
        -- intros [H|[(s' & e & H & He)|(s' & t' & H & Ht & Hd)]]; try discriminate.
           ++ injection H as <-. congruence.
           ++ injection H as <-. rewrite Hs in Ht. injection Ht as <-.
              f_equal. apply Z.gtb_lt. lia.
      * split; [|reflexivity]. intros _. right; left. eauto.
    + split; [auto | reflexivity].
  - intros s t -> Hs. split; [apply is_outdated_valid; assumption | apply days_over_30].
Qed.

(** C3 (as stated, refuted).  Thirty whole days after the timestamp the
    colouring is already in its warning tier while [is_outdated] still
    answers false: the warning tier does not start where staleness does. *)
Lemma warning_tier_starts_before_outdated :
  let now := mk_datetime 2025 1 31 0 0 0 0 in
  let t := "2025-01-01 00:00:00" in
  (exists d, strptime_sqlite t = Returned d /\ days (datetime_sub now d) = 30) /\
  color_by_days strptime_sqlite now (Some t) = Returned BG_YELLOW /\
  is_outdated strptime_sqlite now (Some t) = Returned false.
Proof.
  cbv zeta. split; [|split].
  - exists (mk_datetime 2025 1 1 0 0 0 0). split; vm_compute; reflexivity.
  - vm_compute; reflexivity.
  - vm_compute; reflexivity.
Qed.

(** C3 (amended).  On a valid timestamp both functions use the same day
    count [d = (now - t).days]: the colour is green for [d < 30], yellow for
    [30 <= d <= 34] and red for [d > 35], and [is_outdated] answers
    [d > 30].  So the warning tier starts at 30 days, one day before the
    timestamp becomes outdated, and an outdated timestamp is never green. *)
Theorem color_by_days_tiers :
  forall (strptime : string -> outcome datetime) (now : datetime) (s : string) (t : datetime),
    strptime s = Returned t ->
    let d := days (datetime_sub now t) in
    (d < 30 -> color_by_days strptime now (Some s) = Returned BG_GREEN) /\
    (30 <= d <= 34 -> color_by_days strptime now (Some s) = Returned BG_YELLOW) /\
    (35 < d -> color_by_days strptime now (Some s) = Returned BG_RED) /\
    is_outdated strptime now (Some s) = Returned (d >? 30) /\
    (d = 30 -> color_by_days strptime now (Some s) = Returned BG_YELLOW /\
               is_outdated strptime now (Some s) = Returned false) /\
    (is_outdated strptime now (Some s) = Returned true ->
       color_by_days strptime now (Some s) <> Returned BG_GREEN).
Proof.
  intros strptime now s t Hs. cbv zeta.
  rewrite (color_by_days_valid strptime now s t Hs), (is_outdated_valid strptime now s t Hs).
  cbv zeta. generalize (days (datetime_sub now t)). intros d.
  destruct (Z.ltb_spec d 30) as [H30|H30]; destruct (Z.ltb_spec d 35) as [H35|H35];
    destruct (Z.gtb_spec d 30) as [G|G];
    repeat split; intros; try lia; try reflexivity; try discriminate;
    try (exfalso; lia).
Qed.

Lemma color_by_days_tiers_witness :
  let now := mk_datetime 2025 3 1 12 0 0 0 in
  let d := days (datetime_sub now (mk_datetime 2025 1 1 0 0 0 0)) in
  35 < d /\ color_by_days strptime_sqlite now (Some "2025-01-01 00:00:00") = Returned BG_RED.
Proof.
  cbv zeta. split; [vm_compute; reflexivity|].
  apply (color_by_days_tiers strptime_sqlite (mk_datetime 2025 3 1 12 0 0 0)
           "2025-01-01 00:00:00" (mk_datetime 2025 1 1 0 0 0 0)).
  - vm_compute; reflexivity.
  - vm_compute; reflexivity.
Defined.

End FreshnessFacts.

(** ** Total headcount *)

Module HeadcountFacts.
Import Headcount.

Section SortedFacts.
Context {A : Type} (key : A -> option Z).

(** The key as a number, for elements whose key is a timestamp. *)
Definition stamp (x : A) : Z := default 0 (key x).

Definition parsed (l : list A) : Prop := Forall (fun x => is_Some (key x)) l.

Lemma key_lt_stamp (x y : A) :
  is_Some (key x) -> is_Some (key y) ->
  key_lt (key x) (key y) = (stamp x <? stamp y).
Proof. unfold stamp. intros [a ->] [b ->]. reflexivity. Qed.

Lemma insort_perm (x : A) (l : list A) : insort key x l ≡ₚ x :: l.
Proof.
  induction l as [|e l IH]; cbn; [reflexivity|].
  destruct (key_lt _ _); [reflexivity|].
  rewrite IH. apply Permutation_swap.
Qed.

Lemma sort_ascending_perm (l : list A) : sort_ascending key l ≡ₚ l.
Proof.
  unfold sort_ascending.
  assert (G : forall acc, fold_left (fun acc x => insort key x acc) l acc ≡ₚ acc ++ l).
  { induction l as [|x l IH]; intros acc; cbn.
    - by rewrite app_nil_r.
    - rewrite IH, insort_perm. cbn. apply Permutation_middle. }
  apply G.
Qed.

Definition ascending (l : list A) : Prop :=
  StronglySorted (fun x y => stamp x <= stamp y) l.

Lemma insort_ascending (x : A) (l : list A) :
  is_Some (key x) -> parsed l -> ascending l -> ascending (insort key x l).
Proof.
  intros Hx Hl Hs. induction Hs as [|e l Hs IH Hall]; cbn.
  - repeat constructor.
  - inversion Hl as [|? ? He Hl']; subst.
    rewrite (key_lt_stamp x e Hx He).
    destruct (Z.ltb_spec (stamp x) (stamp e)) as [Hlt|Hge].
    + constructor; [by constructor|].
      constructor; [lia|]. eapply Forall_impl; [exact Hall|]. cbn. intros; lia.
    + constructor; [by apply IH|].
      rewrite (insort_perm x l). by constructor.
Qed.

Lemma sort_ascending_ascending (l : list A) :
  parsed l -> ascending (sort_ascending key l).
Proof.
  unfold sort_ascending.
  assert (G : forall acc, parsed acc -> ascending acc -> parsed l ->
              ascending (fold_left (fun acc x => insort key x acc) l acc)).
  { induction l as [|x l IH]; intros acc Ha Hs Hl; cbn; [done|].
    inversion Hl; subst. apply IH; [|by apply insort_ascending|done].
    unfold parsed. rewrite (insort_perm x acc). by constructor. }
  intros Hl. apply G; [constructor|constructor|done].
Qed.

(** Newest first: when every key is a timestamp, the head of
    [sorted(l, key, reverse=True)] is an element of [l] whose key is the
    largest. *)
Lemma sorted_reverse_head (l : list A) (p : A) (q : list A) :
  parsed l -> sorted key l true = p :: q ->
  p ∈ l /\ Forall (fun x => stamp x <= stamp p) l.
Proof.
  intros Hl Hs. unfold sorted in Hs.
  assert (Hrev : parsed (rev l)) by (unfold parsed; by rewrite <- Permutation_rev).
  pose proof (sort_ascending_ascending (rev l) Hrev) as Hasc.
  pose proof (sort_ascending_perm (rev l)) as Hperm.
  assert (E : sort_ascending key (rev l) = (rev q ++ [p])%list).
  { rewrite <- (rev_involutive (sort_ascending key (rev l))), Hs. reflexivity. }
  rewrite E in Hasc, Hperm.
  assert (Hl' : l ≡ₚ p :: rev q).
  { rewrite (Permutation_rev l), <- Hperm. apply Permutation_app_comm. }
  split; [rewrite Hl'; left|].
  rewrite Hl'. constructor; [lia|].
  clear -Hasc. induction (rev q) as [|e r IH]; [constructor|].
  cbn in Hasc. inversion Hasc as [|? ? Hs Hall]; subst.
  constructor; [|by apply IH].
  apply Forall_app in Hall as [_ Hp]. by inversion Hp.
Qed.
End SortedFacts.

Section ReconcilerFacts.
Context {num : Type} (zero : num) (add : num -> num -> num).
Variable to_datetime : string -> option Z.

(** Without Employment Type rows the total is [0]. *)
Lemma total_headcount_no_rows (df : list (@people_row num)) :
  employment_type df = [] -> total_headcount_calculated zero add to_datetime df = zero.
Proof.
  intros H. unfold total_headcount_calculated, latest_time_period. by rewrite H.
Qed.

Lemma unique_elem (l : list string) (x : string) : x ∈ unique l <-> x ∈ l.
Proof.
  induction l as [|y l IH]; cbn; [done|].
  rewrite !elem_of_cons, list_elem_of_filter, IH.
  destruct (String.eqb_spec y x) as [->|Hne]; cbn; [tauto|].
  split; [tauto|]. intros [->|H]; [done|]. right. split; [|done].
  destruct (String.eqb_spec y x); done.
Qed.

(** X23.  When every Employment Type period parses as a month and year,
    the period the reconciler chooses is one of them with the largest month,
    and the total is the sum of the Permanent and Contract counts of that
    period. *)
Lemma total_headcount_parsed_periods (df : list (@people_row num)) :
  employment_type df <> [] ->
  to_datetime "" = None ->
  Forall (fun r => is_Some (to_datetime (time_period r))) (employment_type df) ->
  exists p,
    latest_time_period to_datetime df = Some p /\
    (exists r, r ∈ employment_type df /\ time_period r = p) /\
    Forall (fun r => stamp to_datetime (time_period r) <= stamp to_datetime p)
           (employment_type df) /\
    total_headcount_calculated zero add to_datetime df =
      (let latest := filter (fun r => String.eqb (time_period r) p) (employment_type df) in
       add (count_of zero "Permanent Employees" latest)
           (count_of zero "Contract Employees" latest)).
Proof.
  intros Hne Hempty Hall.
  unfold total_headcount_calculated, latest_time_period.
  destruct (employment_type df) as [|r0 et] eqn:E; [done|].
  set (periods := unique (map time_period (r0 :: et))).
  assert (Hparsed : parsed to_datetime periods).
  { apply Forall_forall. intros x Hx. unfold periods in Hx.
    apply (proj1 (unique_elem _ _)) in Hx.
    apply list_elem_of_fmap in Hx as (r & -> & Hr).
    by apply (proj1 (Forall_forall _ _) Hall). }
  destruct (sorted to_datetime periods true) as [|p q] eqn:Hs.
  { exfalso. unfold sorted in Hs.
    apply (f_equal (@length _)) in Hs. rewrite length_rev in Hs.
    rewrite (Permutation_length (sort_ascending_perm to_datetime (rev periods))) in Hs.
    rewrite length_rev in Hs. subst periods. cbn in Hs. lia. }
  destruct (sorted_reverse_head to_datetime periods p q Hparsed Hs) as [Hin Hmax].
  exists p. split; [done|].
  pose proof Hin as Hin'. unfold periods in Hin'.
  apply (proj1 (unique_elem _ _)) in Hin'.
  apply list_elem_of_fmap in Hin' as (r & Hr & Hrin).
  split; [by exists r|]. split.
  - apply Forall_forall. intros x Hx.
    apply (proj1 (Forall_forall _ _) Hmax). unfold periods.
    apply (proj2 (unique_elem _ _)).
    apply list_elem_of_fmap. by exists x.
  - destruct (String.eqb_spec p "") as [->|_]; [|done].
    exfalso. pose proof (proj1 (Forall_forall _ _) Hparsed "" Hin) as [k Hk]. congruence.
Qed.
End ReconcilerFacts.

(** The frame [get_people_metrics] returns for a seeded hub once the period
    ["Jan 2025"] has been entered: rows ordered by metric name, then period. *)
Definition seeded_hub_with_january : list (@people_row Z) :=
  [ mk_people_row "Contract Employees" "Employment Type" "2025" 25;
    mk_people_row "Contract Employees" "Employment Type" "Jan 2025" 30;
    mk_people_row "Permanent Employees" "Employment Type" "2025" 75;
    mk_people_row "Permanent Employees" "Employment Type" "Jan 2025" 80 ].

(** The scenario of the specification, Permanent 80 and Contract 20 for
    ["Jan 2025"] on a seeded hub: the total is 100, read from the seed rows
    of the period ["2025"]. *)
Example seeded_hub_scenario :
  let df := [ mk_people_row "Contract Employees" "Employment Type" "2025" 25;
              mk_people_row "Contract Employees" "Employment Type" "Jan 2025" 20;
              mk_people_row "Permanent Employees" "Employment Type" "2025" 75;
              mk_people_row "Permanent Employees" "Employment Type" "Jan 2025" 80 ] in
  latest_time_period to_datetime_mon_yyyy df = Some "2025" /\
  total_headcount_calculated 0 Z.add to_datetime_mon_yyyy df = 100.
Proof. cbv zeta. split; vm_compute; reflexivity. Qed.

(** Without the seed rows the same entries give the total of the newest
    month. *)
Example two_months_scenario :
  let df := [ mk_people_row "Contract Employees" "Employment Type" "Feb 2025" 10;
              mk_people_row "Contract Employees" "Employment Type" "Jan 2025" 20;
              mk_people_row "Permanent Employees" "Employment Type" "Feb 2025" 95;
              mk_people_row "Permanent Employees" "Employment Type" "Jan 2025" 80 ] in
  latest_time_period to_datetime_mon_yyyy df = Some "Feb 2025" /\
  total_headcount_calculated 0 Z.add to_datetime_mon_yyyy df = 105.
Proof. cbv zeta. split; vm_compute; reflexivity. Qed.

Lemma total_headcount_parsed_periods_witness :
  let df := [ mk_people_row "Contract Employees" "Employment Type" "Feb 2025" 10;
              mk_people_row "Contract Employees" "Employment Type" "Jan 2025" 20;
              mk_people_row "Permanent Employees" "Employment Type" "Feb 2025" 95;
              mk_people_row "Permanent Employees" "Employment Type" "Jan 2025" 80 ] in
  exists p,
    latest_time_period to_datetime_mon_yyyy df = Some p /\
    total_headcount_calculated 0 Z.add to_datetime_mon_yyyy df =
      (let latest := filter (fun r => String.eqb (time_period r) p) (employment_type df) in
       count_of 0 "Permanent Employees" latest + count_of 0 "Contract Employees" latest).
Proof.
  cbv zeta.
  destruct (total_headcount_parsed_periods 0 Z.add to_datetime_mon_yyyy
              [ mk_people_row "Contract Employees" "Employment Type" "Feb 2025" 10;
                mk_people_row "Contract Employees" "Employment Type" "Jan 2025" 20;
                mk_people_row "Permanent Employees" "Employment Type" "Feb 2025" 95;
                mk_people_row "Permanent Employees" "Employment Type" "Jan 2025" 80 ])
    as (p & Hp & _ & _ & Ht).
  - vm_compute. discriminate.
  - reflexivity.
  - repeat constructor; vm_compute; eexists; reflexivity.
  - exists p. split; assumption.
Defined.

(** C1.  On a seeded hub the year-only period ["2025"] of the seed rows does
    not parse as a month and year; sorted with it, the only period that does
    parse, ["Jan 2025"], is not chosen, and the reconciled total is the 100 of
    the seed rows, not the 110 of January. *)
Theorem total_headcount_seed_period_chosen :
  to_datetime_mon_yyyy "2025" = None /\
  to_datetime_mon_yyyy "Jan 2025" = Some (12 * 2025 + 1) /\
  latest_time_period to_datetime_mon_yyyy seeded_hub_with_january = Some "2025" /\
  total_headcount_calculated 0 Z.add to_datetime_mon_yyyy seeded_hub_with_january = 100 /\
  (let january := filter (fun r => String.eqb (time_period r) "Jan 2025")
                    seeded_hub_with_january in
   count_of 0 "Permanent Employees" january + count_of 0 "Contract Employees" january = 110).
Proof. repeat split; vm_compute; reflexivity. Qed.

End HeadcountFacts.

(** ** The store *)

Module StoreFacts.
Import Store.

Lemma cell_insert (r : row) (k k' : string) (v : value) :
  cell (<[k := v]> r) k' = if decide (k = k') then v else cell r k'.
Proof.
  unfold cell. rewrite lookup_insert. by destruct (decide (k = k')).
Qed.

Lemma assign_app (l1 l2 : list (string * value)) (r : row) :
  assign (l1 ++ l2)%list r = assign l2 (assign l1 r).
Proof. unfold assign. apply foldl_app. Qed.

Lemma assign_cons (kv : string * value) (l : list (string * value)) (r : row) :
  assign (kv :: l) r = assign l (<[fst kv := snd kv]> r).
Proof. reflexivity. Qed.

(** A column that [SET] does not name keeps its cell. *)
Lemma cell_assign_other (sets : list (string * value)) (r : row) (k : string) :
  k ∉ map fst sets -> cell (assign sets r) k = cell r k.
Proof.
  revert r. induction sets as [|[k' v] sets IH]; intros r Hk; [done|].
  rewrite assign_cons. cbn in Hk. apply not_elem_of_cons in Hk as [Hne Hk].
  rewrite IH by done. rewrite cell_insert. cbn. by destruct (decide (k' = k)).
Qed.

Lemma mem_true (x : string) (l : list string) : mem x l = true <-> x ∈ l.
Proof.
  unfold mem. rewrite existsb_exists. split.
  - intros (y & Hy & E). apply String.eqb_eq in E as ->. by apply list_elem_of_In.
  - intros H. exists x. split; [by apply list_elem_of_In | apply String.eqb_refl].
Qed.

Lemma sql_eq_null_r (v : value) : sql_eq v VNull = false.
Proof. by destruct v. Qed.

Lemma sql_eq_refl (v : value) : v <> VNull -> sql_eq v v = true.
Proof.
  destruct v; cbn; intros H; [done| | |].
  - apply Z.eqb_refl.
  - apply Z.eqb_refl.
  - apply String.eqb_refl.
Qed.

(** [UPDATE] on a table as a function of its rows. *)
Lemma update_where_spec (t : string) (used : list string) (set : row -> row)
    (cond : row -> bool) (d d' : db) (o : outcome unit) :
  update_where t used set cond d = (o, d') ->
  (exists msg, o = Raised (OperationalError msg) /\ d' = d) \/
  (exists tb, o = Returned tt /\ d !! t = Some tb /\
     Forall (fun c => c ∈ map c_name (columns tb)) used /\
     d' = <[t := mk_table (columns tb) (uniques tb)
                  (map (fun r => if cond r then set r else r) (rows tb))]> d).
Proof.
  unfold update_where. intros H.
  destruct (d !! t) as [tb|] eqn:E.
  - destruct (forallb _ used) eqn:F; cbn in H; injection H as <- <-.
    + right. exists tb. repeat split; try done.
      apply Forall_forall. intros c Hc. apply mem_true.
      rewrite forallb_forall in F. apply F. by apply list_elem_of_In.
    + left. eauto.
  - injection H as <- <-. left. eauto.
Qed.

End StoreFacts.

(** ** Repository operations *)

Module RepositoryFacts.
Import Store Repository StoreFacts.
Local Open Scope stmt_scope.

Lemma getitem_returned (d : dict) (k : string) (s s' : db) (v : value) :
  getitem d k s = (Returned v, s') -> s' = s /\ d !! k = Some v.
Proof.
  unfold getitem. destruct (d !! k); cbn; intros H; [|discriminate].
  by injection H as -> ->.
Qed.

Lemma getitem_state (d : dict) (k : string) (s : db) : snd (getitem d k s) = s.
Proof. unfold getitem. by destruct (d !! k). Qed.

Lemma getitems_returned (d : dict) (keys : list string) (s s' : db)
    (l : list (string * value)) :
  getitems d keys s = (Returned l, s') ->
  s' = s /\ map fst l = keys /\ Forall (fun kv => d !! fst kv = Some (snd kv)) l.
Proof.
  revert l s'. induction keys as [|k keys IH]; intros l s'; cbn.
  - intros H. injection H as <- <-. repeat split; constructor.
  - unfold bind. destruct (getitem d k s) as [[v|e] s1] eqn:E1; [|discriminate].
    apply getitem_returned in E1 as [-> Hk].
    destruct (getitems d keys s) as [[rest|e] s2] eqn:E2; [|discriminate].
    destruct (IH rest s2 eq_refl) as (-> & Hfst & Hall).
    unfold ret. intros H. injection H as <- <-.
    repeat split; cbn; [by f_equal | by constructor].
Qed.

Lemma getitems_state (d : dict) (keys : list string) (s : db) :
  snd (getitems d keys s) = s.
Proof.
  induction keys as [|k keys IH]; cbn; [done|].
  unfold bind. pose proof (getitem_state d k s) as Hk.
  destruct (getitem d k s) as [[v|e] s1]; cbn in Hk; subst; [|done].
  destruct (getitems d keys s) as [[rest|e] s2]; cbn in IH; subst; done.
Qed.

Lemma setdefault_lookup (k k' : string) (v : value) (d : dict) :
  setdefault k v d !! k' =
    if decide (k = k') then Some (default v (d !! k)) else d !! k'.
Proof.
  unfold setdefault, has_key.
  destruct (decide (k = k')) as [<-|Hne].
  - destruct (d !! k) eqn:E; [done|]. by rewrite lookup_insert_eq.
  - destruct (d !! k); [done|]. by rewrite lookup_insert_ne.
Qed.

(** The primary key of a table: no value is matched by the [id] of two
    different rows. *)
Definition unique_ids (tb : table) : Prop :=
  forall (v : value) (r r' : row),
    r ∈ rows tb -> r' ∈ rows tb ->
    sql_eq (cell r "id") v = true -> sql_eq (cell r' "id") v = true -> r = r'.

Definition gender_percentages (r : row) : value * value * value :=
  (cell r "female_percent", cell r "male_percent", cell r "other_gender_percent").

Section Operations.
Variable now : string.

Lemma cell_assign_agree (m : dict) (sets : list (string * value)) (r : row)
    (k : string) (v : value) :
  Forall (fun kv => m !! fst kv = Some (snd kv)) sets ->
  k ∈ map fst sets -> m !! k = Some v -> cell (assign sets r) k = v.
Proof.
  revert r. induction sets as [|[k' v'] sets IH]; intros r Hall Hk Hm.
  - by apply not_elem_of_nil in Hk.
  - inversion Hall as [|? ? Hkv Hall']; subst. cbn in Hkv.
    rewrite assign_cons. cbn [fst snd].
    destruct (decide (k ∈ map fst sets)) as [Hin|Hnin]; [by apply IH|].
    rewrite cell_assign_other by done.
    cbn in Hk. apply elem_of_cons in Hk as [->|Hk]; [|done].
    rewrite cell_insert. destruct (decide (k' = k')); [congruence|done].
Qed.

(** What [preserve_gender_percentages] returns when the caller gave none
    of the three percentages: the cells of the first row with that [id]. *)
Lemma preserve_gender_percentages_absent
    (metrics_data md' : dict) (d d1 : db) (tb : table) :
  metrics_data !! "female_percent" = None ->
  metrics_data !! "male_percent" = None ->
  metrics_data !! "other_gender_percent" = None ->
  d !! "hub_metrics" = Some tb ->
  preserve_gender_percentages metrics_data d = (Returned md', d1) ->
  d1 = d /\ md' !! "id" = metrics_data !! "id" /\
  forall (id : value) (r : row),
    metrics_data !! "id" = Some id -> r ∈ rows tb ->
    sql_eq (cell r "id") id = true ->
    exists current, current ∈ rows tb /\ sql_eq (cell current "id") id = true /\
      md' !! "female_percent" = Some (cell current "female_percent") /\
      md' !! "male_percent" = Some (cell current "male_percent") /\
      md' !! "other_gender_percent" = Some (cell current "other_gender_percent").
Proof.
  intros Hf Hm Ho Htb. unfold preserve_gender_percentages, has_key.
  rewrite Hf, Hm, Ho. cbn [negb orb]. unfold bind.
  destruct (getitem metrics_data "id" d) as [[id|e] s1] eqn:E1; [|discriminate].
  apply getitem_returned in E1 as [-> Hid].
  unfold select_where. rewrite Htb.
  destruct (negb _); [discriminate|].
  destruct (filter _ (rows tb)) as [|current rest] eqn:F; unfold ret;
    intros H; injection H as <- <-; (split; [done|]);
    (split; [by rewrite !setdefault_lookup|]);
    intros id' r Hid' Hr Hcond; rewrite Hid in Hid'; injection Hid' as <-.
  - exfalso.
    assert (Hin : r ∈ filter (fun r => sql_eq (cell r "id") id) (rows tb))
      by (apply list_elem_of_filter; split; [by apply Is_true_true|done]).
    rewrite F in Hin. by apply not_elem_of_nil in Hin.
  - assert (Hin : current ∈ filter (fun r => sql_eq (cell r "id") id) (rows tb))
      by (rewrite F; left).
    apply list_elem_of_filter in Hin as [Hc Hin].
    exists current. split; [done|]. split; [by apply Is_true_true_1|].
    rewrite !setdefault_lookup. cbn. by rewrite Hf, Hm, Ho.
Qed.

(** C10.  When the input of [update_hub_metrics] has none of the keys
    [female_percent], [male_percent], [other_gender_percent], the call
    returns and the three gender percentages of every row of [hub_metrics]
    are the ones stored before the call. *)
Theorem update_hub_metrics_keeps_gender_percentages :
  forall (metrics_data : dict) (d : db) (tb : table),
    metrics_data !! "female_percent" = None ->
    metrics_data !! "male_percent" = None ->
    metrics_data !! "other_gender_percent" = None ->
    d !! "hub_metrics" = Some tb ->
    unique_ids tb ->
    exists (b : bool) (d' : db) (tb' : table),
      update_hub_metrics now metrics_data d = (Returned b, d') /\
      d' !! "hub_metrics" = Some tb' /\
      map gender_percentages (rows tb') = map gender_percentages (rows tb).
Proof.
  intros md d tb Hf Hm Ho Htb Huniq.
  unfold update_hub_metrics, returns_true_unless_raised.
  assert (Same : forall b, exists (b0 : bool) (d' : db) (tb' : table),
             (Returned b, d) = (Returned b0, d') /\ d' !! "hub_metrics" = Some tb' /\
             map gender_percentages (rows tb') = map gender_percentages (rows tb))
    by (intros b; by exists b, d, tb).
  unfold bind at 1.
  destruct (preserve_gender_percentages md d) as [[md'|e] d1] eqn:P.
  2:{ pose proof P as P'. unfold preserve_gender_percentages, has_key in P'.
      rewrite Hf, Hm, Ho in P'. cbn [negb orb] in P'. unfold bind in P'.
      pose proof (getitem_state md "id" d) as S1.
      destruct (getitem md "id" d) as [[id|e1] s1]; cbn in S1; subst s1.
      - unfold select_where in P'. rewrite Htb in P'.
        destruct (negb _); [injection P' as <- <-; apply Same|].
        destruct (filter _ _); discriminate.
      - injection P' as <- <-. apply Same. }
  destruct (preserve_gender_percentages_absent md md' d d1 tb Hf Hm Ho Htb P)
    as (-> & Hid' & Hcur).
  unfold bind at 1.
  pose proof (getitems_state md' hub_metrics_core_fields d) as S.
  destruct (getitems md' hub_metrics_core_fields d) as [[core|e] s1] eqn:C;
    cbn in S; subst s1; [|apply Same].
  apply getitems_returned in C as (_ & Hcore & Hagree).
  unfold bind at 1.
  pose proof (getitem_state md' "updated_by" d) as S.
  destruct (getitem md' "updated_by" d) as [[updated_by|e] s1];
    cbn in S; subst s1; [|apply Same].
  unfold bind at 1.
  pose proof (getitems_state md'
                (filter (fun k => has_key md' k) hub_metrics_optional_fields) d) as S.
  destruct (getitems md' _ d) as [[optional|e] s1] eqn:O; cbn in S; subst s1; [|apply Same].
  apply getitems_returned in O as (_ & Hopt & _).
  unfold bind at 1.
  destruct (getitem md' "id" d) as [[id|e] s1] eqn:I.
  2:{ pose proof (getitem_state md' "id" d) as S. rewrite I in S. cbn in S. subst s1.
      apply Same. }
  apply getitem_returned in I as [-> Hid].
  rewrite Hid' in Hid.
  match goal with |- context [update_where ?t ?u ?f ?c d] =>
    destruct (update_where t u f c d) as [o d'] eqn:U;
    apply update_where_spec in U as [(e & -> & ->)|(tb0 & -> & Htb0 & _ & ->)]
  end; [apply Same|].
  rewrite Htb in Htb0. injection Htb0 as <-.
  eexists true, _, _. split; [reflexivity|]. split; [apply lookup_insert_eq|].
  cbn [rows]. rewrite map_map. apply map_ext_in. intros r Hr.
  apply list_elem_of_In in Hr.
  destruct (sql_eq (cell r "id") id) eqn:Hcond; [|done].
  destruct (Hcur id r Hid Hr Hcond) as (cur & Hcin & Hccond & Hcf & Hcm & Hco).
  assert (cur = r) as -> by (by apply (Huniq id)).
  assert (Hrest : forall k, k ∈ hub_metrics_core_fields ->
            k ∉ map fst ([("updated_at", VText now); ("updated_by", updated_by)] ++ optional)%list).
  { intros k Hk. rewrite map_app, Hopt. cbn [map fst]. intros Hin.
    apply elem_of_app in Hin as [Hin|Hin].
    - unfold hub_metrics_core_fields in Hk.
      repeat (apply elem_of_cons in Hk as [->|Hk];
              [repeat (apply elem_of_cons in Hin as [Hin|Hin]; [discriminate|]);
               by apply not_elem_of_nil in Hin|]).
      by apply not_elem_of_nil in Hk.
    - apply list_elem_of_filter in Hin as [_ Hin].
      unfold hub_metrics_core_fields in Hk. unfold hub_metrics_optional_fields in Hin.
      repeat (apply elem_of_cons in Hk as [->|Hk];
              [repeat (apply elem_of_cons in Hin as [Hin|Hin]; [discriminate|]);
               by apply not_elem_of_nil in Hin|]).
      by apply not_elem_of_nil in Hk. }
  assert (Hcell : forall k v, k ∈ hub_metrics_core_fields -> md' !! k = Some v ->
            cell (assign (core ++ [("updated_at", VText now); ("updated_by", updated_by)]
                          ++ optional)%list r) k = v).
  { intros k v Hk Hv. rewrite assign_app, cell_assign_other by (by apply Hrest).
    apply (cell_assign_agree md'); [done| by rewrite Hcore |done]. }
  unfold gender_percentages.
  rewrite (Hcell "female_percent" _ ltac:(by apply mem_true) Hcf).
  rewrite (Hcell "male_percent" _ ltac:(by apply mem_true) Hcm).
  rewrite (Hcell "other_gender_percent" _ ltac:(by apply mem_true) Hco).
  reflexivity.
Qed.

(** C8.  When a capability row with the same hub and name exists, the
    form answers with the error naming the service and the store is left
    exactly as it was: no row is inserted and none is changed. *)
Theorem add_capability_duplicate_rejected :
  forall (current_hub : string) (hub_id : Z) (new_capability_name default_category : string)
         (headcount : Z) (d : db) (tb : table) (r : row),
    new_capability_name <> "" ->
    d !! "hub_capabilities" = Some tb ->
    Forall (fun c => c ∈ map c_name (columns tb)) ["id"; "hub_id"; "capability_name"] ->
    r ∈ rows tb ->
    cell r "hub_id" = VInt hub_id ->
    cell r "capability_name" = VText new_capability_name ->
    add_capability now current_hub hub_id new_capability_name default_category headcount d =
      (Returned (Some (st_error
         ("Service '" ++ new_capability_name ++ "' already exists for this hub"))), d).
Proof.
  intros hub hub_id name cat hc d tb r Hname Htb Hcols Hr Hhub Hcap.
  unfold add_capability.
  destruct (String.eqb_spec name "") as [->|_]; [done|].
  unfold bind, select_where. rewrite Htb.
  assert (F : forallb (fun c => mem c (map c_name (columns tb)))
                ["id"; "hub_id"; "capability_name"] = true).
  { apply forallb_forall. intros c Hc. apply mem_true.
    apply (proj1 (Forall_forall _ _) Hcols). by apply list_elem_of_In. }
  rewrite F. cbn [negb].
  destruct (filter _ (rows tb)) as [|r1 rs] eqn:E; [|reflexivity].
  exfalso.
  assert (Hin : r ∈ filter (fun r => sql_eq (cell r "hub_id") (VInt hub_id)
                  && sql_eq (cell r "capability_name") (VText name)) (rows tb)).
  { apply list_elem_of_filter. split; [|done].
    rewrite Hhub, Hcap. cbn. rewrite Z.eqb_refl, String.eqb_refl. done. }
  rewrite E in Hin. by apply not_elem_of_nil in Hin.
Qed.

Lemma percent_zero (total : Z) : 0 < total -> percent 0 total = Returned (VReal 0 1).
Proof.
  intros H. unfold percent, true_div. cbn [Z.mul].
  destruct (Z.eqb_spec total 0) as [->|_]; [lia|].
  rewrite Z.gcd_0_l, Z.abs_eq, Z.div_same, Z.sgn_pos by lia.
  cbn. by rewrite Z.div_0_l by lia.
Qed.

(** C4 (amended).  Saving a latest gender row whose three counts are 0
    never raises a division by zero.  When the row's [Total] is not
    positive the percentages are not written at all and the store is left
    as it was; when it is positive and the update runs, the three stored
    percentages of the hub become 0. *)
Theorem save_gender_percentages_zero_counts :
  forall (latest_row : gender_row) (rest : list gender_row)
         (current_hub : string) (hub_id : value) (d : db),
    Female latest_row = 0 -> Male latest_row = 0 -> Other_Gender latest_row = 0 ->
    exists (o : outcome unit) (d' : db),
      save_gender_percentages now (latest_row :: rest) current_hub hub_id d = (o, d') /\
      o <> Raised ZeroDivisionError /\
      (Total latest_row <= 0 -> o = Returned tt /\ d' = d) /\
      (0 < Total latest_row -> o = Returned tt ->
         forall (tb' : table) (r : row),
           d' !! "hub_metrics" = Some tb' -> r ∈ rows tb' ->
           sql_eq (cell r "hub_id") hub_id = true ->
           gender_percentages r = (VReal 0 1, VReal 0 1, VReal 0 1)).
Proof.
  intros latest rest hub hub_id d Hf Hm Ho.
  unfold save_gender_percentages. rewrite Hf, Hm, Ho.
  destruct (Z.gtb_spec (Total latest) 0) as [Hpos|Hle].
  - unfold bind, lift. rewrite (percent_zero _ Hpos).
    match goal with |- context [update_where ?t ?u ?f ?c d] =>
      destruct (update_where t u f c d) as [o d'] eqn:U;
      apply update_where_spec in U as [(e & -> & ->)|(tb0 & -> & Htb0 & _ & ->)]
    end.
    + exists (Raised (OperationalError e)), d. split; [done|]. split; [discriminate|].
      split; [lia|]. intros _ H; discriminate.
    + eexists (Returned tt), _. split; [done|]. split; [discriminate|].
      split; [lia|]. intros _ _ tb' r Htb' Hr Hcond.
      rewrite lookup_insert_eq in Htb'. injection Htb' as <-. cbn [rows] in Hr.
      apply list_elem_of_fmap in Hr as (r0 & -> & Hr0).
      destruct (sql_eq (cell r0 "hub_id") hub_id) eqn:C0; [|congruence].
      unfold gender_percentages, assign. cbn [foldl fst snd].
      rewrite !cell_insert. reflexivity.
  - exists (Returned tt), d. repeat split; try done. lia.
Qed.

End Operations.

End RepositoryFacts.

(** ** Examples on a one-hub store *)

Module RepositoryExamples.
Import Store Setup Repository StoreFacts RepositoryFacts.
Local Open Scope stmt_scope.

(** The store [setup_database] builds on an empty database at the clock
    ["2025-01-01 00:00:00"], cut down to the first default hub and without
    the user accounts. *)
Definition akqa_store : db :=
  snd ((create_tables ;;
        seed_hub "2025-01-01 00:00:00" "AKQA" ;;
        add_missing_columns ;;
        initialize_timestamps "2025-01-01 00:00:00") ∅).

(** What the hub-metrics form submits after the location was changed and
    the location headcounts and certifications were filled in. *)
Definition location_change : dict :=
  list_to_map
    [ ("id", VInt 1); ("total_headcount", VInt 100); ("total_seats", VInt 76);
      ("total_clients", VInt 5); ("services_offered", VInt 8);
      ("campus_type", VText "In-Campus"); ("sez_status", VText "No");
      ("location", VText "Pune"); ("location_headcounts", VText "{}");
      ("certifications", VText "{}"); ("coverage_hours", VText "24x5");
      ("transport_facilities", VText "No"); ("updated_by", VText "AKQA") ].

Definition hub_metrics_stamps (d : db) : option (list (list value)) :=
  (fun tb => map (fun r => map (cell r)
     [ "location"; "location_headcounts"; "certifications"; "updated_at";
       "metrics_updated_at"; "location_updated_at"; "certifications_updated_at" ])
     (rows tb)) <$> d !! "hub_metrics".

(** C9.  An update of a hub's location, location headcounts and
    certifications five months after the row was written sets [updated_at]
    and leaves the three fine-grained timestamps of [hub_metrics] at their
    old value: [update_hub_metrics] never writes them. *)
Theorem update_hub_metrics_leaves_fine_grained_timestamps :
  hub_metrics_stamps akqa_store =
    Some [[ VText "Gurugram"; VNull; VNull; VText "2025-01-01 00:00:00";
            VText "2025-01-01 00:00:00"; VText "2025-01-01 00:00:00";
            VText "2025-01-01 00:00:00" ]] /\
  fst (update_hub_metrics "2025-06-01 00:00:00" location_change akqa_store) = Returned true /\
  hub_metrics_stamps (snd (update_hub_metrics "2025-06-01 00:00:00" location_change akqa_store)) =
    Some [[ VText "Pune"; VText "{}"; VText "{}"; VText "2025-06-01 00:00:00";
            VText "2025-01-01 00:00:00"; VText "2025-01-01 00:00:00";
            VText "2025-01-01 00:00:00" ]].
Proof. repeat split; vm_compute; reflexivity. Qed.

(** The sibling operation on people metrics does set its fine-grained
    timestamp together with [updated_at]. *)
Lemma update_people_metric_sets_both_timestamps :
  let edit : dict :=
    list_to_map [("id", VInt 1); ("metric_value", VInt 30); ("updated_by", VText "AKQA")] in
  let after := update_people_metric "2025-06-01 00:00:00" edit akqa_store in
  fst after = Returned true /\
  ((fun tb => (fun r => map (cell r) ["metric_value"; "updated_at"; "people_metric_updated_at"])
              <$> head (rows tb)) <$> snd after !! "people_metrics") =
    Some (Some [VInt 30; VText "2025-06-01 00:00:00"; VText "2025-06-01 00:00:00"]).
Proof. cbv zeta. split; vm_compute; reflexivity. Qed.

Lemma update_hub_capability_sets_both_timestamps :
  let edit : dict :=
    list_to_map [("id", VInt 1); ("headcount", VInt 9); ("updated_by", VText "AKQA")] in
  let after := update_hub_capability "2025-06-01 00:00:00" edit akqa_store in
  fst after = Returned true /\
  ((fun tb => (fun r => map (cell r) ["headcount"; "updated_at"; "capability_updated_at"])
              <$> head (rows tb)) <$> snd after !! "hub_capabilities") =
    Some (Some [VInt 9; VText "2025-06-01 00:00:00"; VText "2025-06-01 00:00:00"]).
Proof. cbv zeta. split; vm_compute; reflexivity. Qed.

(** C4 (as stated, refuted).  Saving the gender row [0, 0, 0] with total 0
    returns normally and writes nothing: the stored percentages of the hub
    are still 35, 63 and 2, not 0, 0 and 0. *)
Lemma zero_total_keeps_stored_percentages :
  let zeros := mk_gender_row "Jun 2025" 0 0 0 0 in
  let after := save_gender_percentages "2025-06-01 00:00:00" [zeros] "AKQA" (VInt 1) akqa_store in
  fst after = Returned tt /\
  (fun tb => map gender_percentages (rows tb)) <$> snd after !! "hub_metrics" =
    Some [(VReal 35 1, VReal 63 1, VReal 2 1)].
Proof. cbv zeta. split; vm_compute; reflexivity. Qed.

(** The scenario of the specification: hub 1 already offers ["SEO"] with a
    headcount of 12. *)
Definition seo_row : row :=
  list_to_map
    [ ("id", VInt 1); ("hub_id", VInt 1); ("capability_name", VText "SEO");
      ("capability_category", VText "MEDIA+"); ("headcount", VInt 12);
      ("updated_at", VText "2025-01-01 00:00:00"); ("updated_by", VNull);
      ("capability_updated_at", VText "2025-01-01 00:00:00") ].

Definition seo_table : table :=
  mk_table hub_capabilities_columns [["hub_id"; "capability_name"]] [seo_row].

Definition seo_store : db := {[ "hub_capabilities" := seo_table ]}.

Lemma add_capability_duplicate_rejected_witness :
  add_capability "2025-06-01 00:00:00" "X" 1 "SEO" "MEDIA+" 4 seo_store =
    (Returned (Some (st_error "Service 'SEO' already exists for this hub")), seo_store).
Proof.
  apply (add_capability_duplicate_rejected "2025-06-01 00:00:00" "X" 1 "SEO" "MEDIA+" 4
           seo_store seo_table seo_row).
  - discriminate.
  - reflexivity.
  - repeat constructor; apply mem_true; reflexivity.
  - left.
  - reflexivity.
  - reflexivity.
Defined.

(** One row of [hub_metrics], as the seed writes it. *)
Definition metrics_row : row :=
  list_to_map
    [ ("id", VInt 1); ("hub_id", VInt 1); ("total_headcount", VInt 95);
      ("total_seats", VInt 76); ("total_clients", VInt 12); ("services_offered", VInt 8);
      ("female_percent", VReal 35 1); ("male_percent", VReal 63 1);
      ("other_gender_percent", VReal 2 1); ("campus_type", VText "In-Campus");
      ("sez_status", VText "No"); ("location", VText "Gurugram");
      ("coverage_hours", VText "24x5"); ("transport_facilities", VText "No");
      ("updated_at", VText "2025-01-01 00:00:00"); ("updated_by", VNull);
      ("bench_count", VInt 0); ("location_headcounts", VNull); ("certifications", VNull) ].

Definition metrics_table : table := mk_table hub_metrics_columns [] [metrics_row].

Definition metrics_store : db := {[ "hub_metrics" := metrics_table ]}.

Lemma save_gender_percentages_zero_counts_witness :
  exists (o : outcome unit) (d' : db),
    save_gender_percentages "2025-06-01 00:00:00" [mk_gender_row "Jun 2025" 0 0 0 40]
      "AKQA" (VInt 1) metrics_store = (o, d') /\
    o <> Raised ZeroDivisionError.
Proof.
  destruct (save_gender_percentages_zero_counts "2025-06-01 00:00:00"
              (mk_gender_row "Jun 2025" 0 0 0 40) [] "AKQA" (VInt 1) metrics_store
              eq_refl eq_refl eq_refl) as (o & d' & E & Hz & _).
  exists o, d'. split; assumption.
Defined.

Lemma update_hub_metrics_keeps_gender_percentages_witness :
  exists (b : bool) (d' : db) (tb' : table),
    update_hub_metrics "2025-06-01 00:00:00" location_change metrics_store = (Returned b, d') /\
    d' !! "hub_metrics" = Some tb' /\
    map gender_percentages (rows tb') = map gender_percentages (rows metrics_table).
Proof.
  apply (update_hub_metrics_keeps_gender_percentages "2025-06-01 00:00:00"
           location_change metrics_store metrics_table).
  - reflexivity.
  - reflexivity.
  - reflexivity.
  - reflexivity.
  - intros v r r' Hr Hr' _ _. cbn in Hr, Hr'.
    apply list_elem_of_singleton in Hr, Hr'. congruence.
Defined.

End RepositoryExamples.

(** ** [setup_database] *)

Module SetupFacts.
Import Store Setup StoreFacts.
Local Open Scope stmt_scope.

(** *** Statements only extend the store

    No statement of the program drops a table, drops a column or deletes a
    row of it. *)

Definition has_column (tb : table) (c : string) : Prop := c ∈ map c_name (columns tb).

Definition table_le (tb tb' : table) : Prop :=
  (forall c, has_column tb c -> has_column tb' c) /\ (rows tb <> [] -> rows tb' <> []).

Definition db_le (d d' : db) : Prop :=
  forall t tb, d !! t = Some tb -> exists tb', d' !! t = Some tb' /\ table_le tb tb'.

Lemma table_le_refl (tb : table) : table_le tb tb.
Proof. by split. Qed.

Lemma db_le_refl (d : db) : db_le d d.
Proof. intros t tb H. exists tb. split; [done | apply table_le_refl]. Qed.

Lemma db_le_trans (d1 d2 d3 : db) : db_le d1 d2 -> db_le d2 d3 -> db_le d1 d3.
Proof.
  intros H12 H23 t tb H.
  destruct (H12 t tb H) as (tb2 & H2 & [Hc2 Hr2]).
  destruct (H23 t tb2 H2) as (tb3 & H3 & [Hc3 Hr3]).
  exists tb3. split; [done|]. split; auto.
Qed.

Lemma db_le_insert (d : db) (t : string) (tb tb' : table) :
  d !! t = Some tb -> table_le tb tb' -> db_le d (<[t := tb']> d).
Proof.
  intros Ht Hle t0 tb0 H0. destruct (decide (t = t0)) as [<-|Hne].
  - rewrite Ht in H0. injection H0 as <-. exists tb'. by rewrite lookup_insert_eq.
  - exists tb0. rewrite lookup_insert_ne by done. split; [done | apply table_le_refl].
Qed.

Lemma db_le_insert_fresh (d : db) (t : string) (tb' : table) :
  d !! t = None -> db_le d (<[t := tb']> d).
Proof.
  intros Ht t0 tb0 H0. destruct (decide (t = t0)) as [<-|Hne]; [congruence|].
  exists tb0. rewrite lookup_insert_ne by done. split; [done | apply table_le_refl].
Qed.

Definition extensive {A} (m : M A) : Prop :=
  forall d o d', m d = (o, d') -> db_le d d'.

Lemma extensive_ret {A} (a : A) : extensive (ret a).
Proof. intros d o d' H. injection H as <- <-. apply db_le_refl. Qed.

Lemma extensive_raise {A} (e : exn) : extensive (@raise A e).
Proof. intros d o d' H. injection H as <- <-. apply db_le_refl. Qed.

Lemma extensive_bind {A B} (m : M A) (k : A -> M B) :
  extensive m -> (forall a, extensive (k a)) -> extensive (bind m k).
Proof.
  intros Hm Hk d o d' H. unfold bind in H.
  destruct (m d) as [[a|e] d1] eqn:E.
  - eapply db_le_trans; [eapply Hm, E | eapply Hk, H].
  - injection H as <- <-. eapply Hm, E.
Qed.

Lemma extensive_when (b : bool) (m : M unit) : extensive m -> extensive (when b m).
Proof. destruct b; [done | intros _; apply extensive_ret]. Qed.

Lemma extensive_for_each {A} (l : list A) (body : A -> M unit) :
  (forall x, extensive (body x)) -> extensive (for_each l body).
Proof.
  intros Hb. induction l as [|x l IH]; cbn; [apply extensive_ret|].
  apply extensive_bind; [apply Hb | intros _; apply IH].
Qed.

Lemma extensive_create (t : string) (cols : list column) (uniq : list (list string)) :
  extensive (create_table_if_not_exists t cols uniq).
Proof.
  intros d o d' H. unfold create_table_if_not_exists in H.
  destruct (d !! t) eqn:E; injection H as <- <-;
    [apply db_le_refl | by apply db_le_insert_fresh].
Qed.

Lemma extensive_table_info (t : string) : extensive (table_info t).
Proof.
  intros d o d' H. unfold table_info in H.
  destruct (d !! t); injection H as <- <-; apply db_le_refl.
Qed.

Lemma extensive_select_count (t : string) : extensive (select_count t).
Proof.
  intros d o d' H. unfold select_count in H.
  destruct (d !! t); injection H as <- <-; apply db_le_refl.
Qed.

Lemma extensive_select_where (t : string) (used : list string) (cond : row -> bool) :
  extensive (select_where t used cond).
Proof.
  intros d o d' H. unfold select_where in H.
  destruct (d !! t); [destruct (negb _)|]; injection H as <- <-; apply db_le_refl.
Qed.

Lemma extensive_fetchone_0 (c : string) (rs : list row) : extensive (fetchone_0 c rs).
Proof. destruct rs; [apply extensive_raise | apply extensive_ret]. Qed.

Lemma extensive_alter (t : string) (c : column) : extensive (alter_table_add_column t c).
Proof.
  intros d o d' H. unfold alter_table_add_column in H.
  destruct (d !! t) as [tb|] eqn:E; [|injection H as <- <-; apply db_le_refl].
  destruct (mem _ _); [injection H as <- <-; apply db_le_refl|].
  destruct (c_default c); injection H as <- <-; try apply db_le_refl;
    (eapply db_le_insert; [exact E|]; split; cbn;
     [ intros c0 Hc0; unfold has_column in *; cbn; rewrite map_app;
       apply elem_of_app; by left
     | destruct (rows tb); [done | discriminate] ]).
Qed.

Lemma extensive_add_column_if_not_exists (t : string) (c : column) :
  extensive (add_column_if_not_exists t c).
Proof.
  intros d o d' H. unfold add_column_if_not_exists in H.
  destruct (alter_table_add_column t c d) as [[u|e] d1] eqn:E.
  - injection H as <- <-. eapply extensive_alter, E.
  - destruct e; injection H as <- <-; eapply extensive_alter, E.
Qed.

Lemma extensive_insert (now t : string) (vals : list (string * value)) :
  extensive (insert_into now t vals).
Proof.
  intros d o d' H. unfold insert_into in H.
  destruct (d !! t) as [tb|] eqn:E; [|injection H as <- <-; apply db_le_refl].
  destruct (negb _); [injection H as <- <-; apply db_le_refl|].
  destruct (existsb _ (columns tb)); [injection H as <- <-; apply db_le_refl|].
  destruct (existsb _ _); injection H as <- <-; [apply db_le_refl|].
  eapply db_le_insert; [exact E|]. split; cbn; [done|].
  intros _. by destruct (rows tb).
Qed.

Lemma extensive_update (t : string) (used : list string) (set : row -> row)
    (cond : row -> bool) : extensive (update_where t used set cond).
Proof.
  intros d o d' H. unfold update_where in H.
  destruct (d !! t) as [tb|] eqn:E; [|injection H as <- <-; apply db_le_refl].
  destruct (negb _); injection H as <- <-; [apply db_le_refl|].
  eapply db_le_insert; [exact E|]. split; cbn; [done|].
  by destruct (rows tb).
Qed.

Ltac extensive_step :=
  first
    [ apply extensive_bind; [|intros ?]
    | apply extensive_for_each; intros ?
    | apply extensive_when
    | apply extensive_ret
    | apply extensive_raise
    | apply extensive_create
    | apply extensive_table_info
    | apply extensive_select_count
    | apply extensive_select_where
    | apply extensive_fetchone_0
    | apply extensive_alter
    | apply extensive_add_column_if_not_exists
    | apply extensive_insert
    | apply extensive_update
    | match goal with
      | |- extensive (match ?x with _ => _ end) => destruct x
      | |- extensive (let '(_, _) := ?x in _) => destruct x
      end ].

Ltac extensive_tac := repeat extensive_step.

(** *** What a statement that returned has established *)

Definition hoare {A} (P : db -> Prop) (m : M A) (Q : A -> db -> Prop) : Prop :=
  forall d a d', P d -> m d = (Returned a, d') -> Q a d'.

(** Facts that no later statement can undo. *)
Definition stable (P : db -> Prop) : Prop :=
  forall d d', db_le d d' -> P d -> P d'.

Definition table_exists (t : string) (d : db) : Prop := is_Some (d !! t).

Definition column_in (t c : string) (d : db) : Prop :=
  exists tb, d !! t = Some tb /\ has_column tb c.

(** The table has a column of this name up to ASCII case. *)
Definition column_ci (t c : string) (d : db) : Prop :=
  exists tb, d !! t = Some tb /\
    mem (lower c) (map (fun c' => lower (c_name c')) (columns tb)) = true.

Definition nonempty (t : string) (d : db) : Prop :=
  exists tb, d !! t = Some tb /\ rows tb <> [].

(** The column names [cols] read from [t] are columns of [t]. *)
Definition columns_read (t : string) (cols : list string) (d : db) : Prop :=
  forall c, c ∈ cols -> column_in t c d.

Lemma stable_true : stable (fun _ => True).
Proof. done. Qed.

Lemma stable_and (P Q : db -> Prop) : stable P -> stable Q -> stable (fun d => P d /\ Q d).
Proof. intros HP HQ d d' Hle [Hp Hq]. split; eauto. Qed.

Lemma stable_table_exists (t : string) : stable (table_exists t).
Proof. intros d d' Hle [tb H]. destruct (Hle t tb H) as (tb' & H' & _). by exists tb'. Qed.

Lemma stable_column_in (t c : string) : stable (column_in t c).
Proof.
  intros d d' Hle (tb & H & Hc). destruct (Hle t tb H) as (tb' & H' & [Hcols _]).
  exists tb'. split; [done | by apply Hcols].
Qed.

Lemma stable_column_ci (t c : string) : stable (column_ci t c).
Proof.
  intros d d' Hle (tb & H & Hc). destruct (Hle t tb H) as (tb' & H' & [Hcols _]).
  exists tb'. split; [done|].
  apply existsb_exists in Hc as (x & Hx & E). apply existsb_exists.
  exists x. split; [|done].
  apply in_map_iff in Hx as (c0 & <- & Hc0). apply in_map_iff.
  assert (Hin : has_column tb' (c_name c0)).
  { apply Hcols. unfold has_column. apply list_elem_of_In, in_map. exact Hc0. }
  unfold has_column in Hin. apply list_elem_of_In, in_map_iff in Hin as (c1 & E1 & Hc1).
  exists c1. split; [by rewrite E1 | done].
Qed.

Lemma stable_nonempty (t : string) : stable (nonempty t).
Proof.
  intros d d' Hle (tb & H & Hr). destruct (Hle t tb H) as (tb' & H' & [_ Hrows]).
  exists tb'. split; [done | by apply Hrows].
Qed.

Lemma stable_columns_read (t : string) (cols : list string) : stable (columns_read t cols).
Proof. intros d d' Hle H c Hc. eapply stable_column_in; [exact Hle | by apply H]. Qed.

Lemma hoare_weaken {A} (P P' : db -> Prop) (m : M A) (Q : A -> db -> Prop) :
  (forall d, P' d -> P d) -> hoare P m Q -> hoare P' m Q.
Proof. intros HP H d a d' Hd E. eapply H; [by apply HP | exact E]. Qed.

Lemma hoare_bind {A B} (P : db -> Prop) (m : M A) (Q : A -> db -> Prop)
    (k : A -> M B) (R : B -> db -> Prop) :
  hoare P m Q -> (forall a, hoare (Q a) (k a) R) -> hoare P (bind m k) R.
Proof.
  intros Hm Hk d b d' Hd E. unfold bind in E.
  destruct (m d) as [[a|e] d1] eqn:E1; [|discriminate].
  eapply Hk; [eapply Hm; [exact Hd | exact E1] | exact E].
Qed.

Lemma hoare_keep {A} (P : db -> Prop) (m : M A) :
  extensive m -> stable P -> hoare P m (fun _ => P).
Proof. intros Hm HP d a d' Hd E. eapply HP; [eapply Hm, E | exact Hd]. Qed.

(** The fact is established by the first statement of a sequence. *)
Lemma hoare_here {A B} (P Q : db -> Prop) (m : M A) (k : A -> M B) :
  hoare P m (fun _ => Q) -> (forall a, extensive (k a)) -> stable Q ->
  hoare P (bind m k) (fun _ => Q).
Proof.
  intros Hm Hk HQ. eapply hoare_bind; [exact Hm|].
  intros a. by apply hoare_keep.
Qed.

(** The fact is established after the first statement of a sequence. *)
Lemma hoare_later {A B} (P : db -> Prop) (m : M A) (k : A -> M B) (Q : B -> db -> Prop) :
  extensive m -> stable P -> (forall a, hoare P (k a) Q) -> hoare P (bind m k) Q.
Proof.
  intros Hm HP Hk. eapply hoare_bind; [by apply hoare_keep | exact Hk].
Qed.

Lemma hoare_table_info (P : db -> Prop) (t : string) :
  hoare P (table_info t) (fun cols d => P d /\ columns_read t cols d).
Proof.
  intros d cols d' Hd E. unfold table_info in E.
  destruct (d !! t) as [tb|] eqn:Ht; injection E as <- <-; (split; [done|]).
  - intros c Hc. by exists tb.
  - intros c Hc. by apply not_elem_of_nil in Hc.
Qed.

(** Reading the columns of [t], then a sequence that establishes [Q]. *)
Lemma hoare_info {B} (P : db -> Prop) (t : string) (k : list string -> M B)
    (Q : B -> db -> Prop) :
  (forall cols, hoare (fun d => P d /\ columns_read t cols d) (k cols) Q) ->
  hoare P (bind (table_info t) k) Q.
Proof. intros Hk. eapply hoare_bind; [apply hoare_table_info | exact Hk]. Qed.

Lemma hoare_create (P : db -> Prop) (t : string) (cols : list column)
    (uniq : list (list string)) :
  hoare P (create_table_if_not_exists t cols uniq) (fun _ => table_exists t).
Proof.
  intros d a d' _ E. unfold create_table_if_not_exists in E.
  destruct (d !! t) as [tb|] eqn:Ht; injection E as <- <-.
  - by exists tb.
  - eexists. apply lookup_insert_eq.
Qed.

Lemma hoare_alter (P : db -> Prop) (t : string) (c : column) :
  hoare P (alter_table_add_column t c) (fun _ => column_in t (c_name c)).
Proof.
  intros d a d' _ E. unfold alter_table_add_column in E.
  destruct (d !! t) as [tb|] eqn:Ht; [|discriminate].
  destruct (mem _ _); [discriminate|].
  destruct (c_default c); try discriminate; injection E as <- <-;
    (eexists; split; [apply lookup_insert_eq|]);
    unfold has_column; cbn; rewrite map_app; apply elem_of_app; right; cbn; left.
Qed.

(** [if c not in columns: ALTER TABLE t ADD COLUMN c]. *)
Lemma hoare_when_alter (P : db -> Prop) (t : string) (cols : list string) (c : column) :
  (forall d, P d -> columns_read t cols d) ->
  hoare P (when (negb (mem (c_name c) cols)) (alter_table_add_column t c))
        (fun _ => column_in t (c_name c)).
Proof.
  intros HP. destruct (mem (c_name c) cols) eqn:Hm; cbn [negb when].
  - intros d a d' Hd E. injection E as <- <-. apply (HP d Hd). by apply mem_true.
  - apply hoare_alter.
Qed.

Lemma alter_raises_operational (t : string) (c : column) (d d' : db) (e : exn) :
  alter_table_add_column t c d = (Raised e, d') ->
  d' = d /\ exists msg, e = OperationalError msg.
Proof.
  unfold alter_table_add_column, no_such_table.
  destruct (d !! t); [destruct (mem _ _); [|destruct (c_default c)]|];
    intros H; try discriminate; injection H as <- <-; eauto.
Qed.

(** The guarded [add_column_if_not_exists]: afterwards the table has the
    column, at least up to case. *)
Lemma hoare_when_add_column_if_not_exists (P : db -> Prop) (t : string)
    (cols : list string) (c : column) :
  (forall d, P d -> columns_read t cols d /\ table_exists t d) ->
  c_default c <> DCurrentTimestamp ->
  hoare P (when (negb (mem (c_name c) cols)) (add_column_if_not_exists t c))
        (fun _ => column_ci t (c_name c)).
Proof.
  intros HP Hdf.
  assert (Hci : forall d, column_in t (c_name c) d -> column_ci t (c_name c) d).
  { intros d (tb & Ht & Hc). exists tb. split; [done|].
    apply existsb_exists. exists (lower (c_name c)). split; [|apply String.eqb_refl].
    unfold has_column in Hc. apply list_elem_of_In, in_map_iff in Hc as (c0 & E0 & Hc0).
    apply in_map_iff. exists c0. by rewrite E0. }
  destruct (mem (c_name c) cols) eqn:Hm; cbn [negb when].
  - intros d a d' Hd E. injection E as <- <-. apply Hci.
    apply (proj1 (HP d Hd)). by apply mem_true.
  - intros d a d' Hd E. unfold add_column_if_not_exists in E.
    destruct (alter_table_add_column t c d) as [[u|e] d1] eqn:EA.
    + injection E as <- <-. apply Hci. eapply (hoare_alter (fun _ => True)); [done | exact EA].
    + destruct (alter_raises_operational _ _ _ _ _ EA) as (-> & msg & ->).
      injection E as <- <-.
      destruct (proj2 (HP d Hd)) as [tb Ht]. exists tb. split; [done|].
      unfold alter_table_add_column in EA. rewrite Ht in EA.
      destruct (mem (lower (c_name c)) _) eqn:Hdup; [done|].
      destruct (c_default c); try discriminate. by contradiction Hdf.
Qed.

Lemma hoare_insert_nonempty (P : db -> Prop) (now t : string) (vals : list (string * value)) :
  hoare P (insert_into now t vals) (fun _ => nonempty t).
Proof.
  intros d a d' _ E. unfold insert_into in E.
  destruct (d !! t) as [tb|] eqn:Ht; [|discriminate].
  destruct (negb _); [discriminate|].
  destruct (existsb _ (columns tb)); [discriminate|].
  destruct (existsb _ _); [discriminate|]. injection E as <- <-.
  eexists. split; [apply lookup_insert_eq|]. cbn. by destruct (rows tb).
Qed.

Ltac stable_basic :=
  repeat first
    [ apply stable_and | apply stable_true | apply stable_table_exists
    | apply stable_column_in | apply stable_column_ci | apply stable_nonempty
    | apply stable_columns_read ].

(** The schema after [create_tables] and after [add_missing_columns]. *)
Definition tables_created (d : db) : Prop :=
  table_exists "users" d /\ table_exists "hubs" d /\ table_exists "hub_metrics" d /\
  table_exists "hub_capabilities" d /\ table_exists "client_metrics" d /\
  table_exists "people_metrics" d /\
  column_in "hub_metrics" "bench_count" d /\
  column_in "hub_metrics" "location_headcounts" d /\
  column_in "hub_metrics" "certifications" d.

Definition columns_added (d : db) : Prop :=
  column_in "hub_metrics" "metrics_updated_at" d /\
  column_in "hub_metrics" "location_updated_at" d /\
  column_in "hub_metrics" "certifications_updated_at" d /\
  column_in "hub_capabilities" "capability_updated_at" d /\
  column_ci "hub_capabilities" "headcount" d /\
  column_in "client_metrics" "employee_count" d /\
  column_in "client_metrics" "client_updated_at" d /\
  column_in "client_metrics" "capability_name" d /\
  column_in "client_metrics" "relationship_duration" d /\
  column_in "people_metrics" "date_created" d /\
  column_in "people_metrics" "people_metric_updated_at" d.

Lemma stable_tables_created : stable tables_created.
Proof. unfold tables_created. stable_basic. Qed.

Lemma stable_columns_added : stable columns_added.
Proof. unfold columns_added. stable_basic. Qed.

Ltac stable_tac :=
  repeat first
    [ apply stable_tables_created | apply stable_columns_added | progress stable_basic ].

(** Walk down a sequence to the statement that [tac] shows to establish
    the fact. *)
Ltac find_statement tac :=
  first
    [ solve [tac]
    | apply hoare_here; [solve [find_statement tac] | intros; extensive_tac | stable_tac]
    | apply hoare_info; intros ?; find_statement tac
    | apply hoare_later; [extensive_tac | stable_tac | intros ?; find_statement tac] ].

Lemma hoare_conj {A} (P : db -> Prop) (m : M A) (Q1 Q2 : db -> Prop) :
  hoare P m (fun _ => Q1) -> hoare P m (fun _ => Q2) ->
  hoare P m (fun _ d => Q1 d /\ Q2 d).
Proof. intros H1 H2 d a d' Hd E. split; [eapply H1 | eapply H2]; eauto. Qed.

(** [if c not in columns: ALTER TABLE t ADD COLUMN c; ...]. *)
Lemma hoare_when_alter_seq (P : db -> Prop) (t : string) (cols : list string) (c : column)
    (k : M unit) :
  (forall d, P d -> columns_read t cols d) -> extensive k ->
  hoare P (when (negb (mem (c_name c) cols)) (bind (alter_table_add_column t c) (fun _ => k)))
        (fun _ => column_in t (c_name c)).
Proof.
  intros HP Hk. destruct (mem (c_name c) cols) eqn:Hm; cbn [negb when].
  - intros d a d' Hd E. injection E as <- <-. apply (HP d Hd). by apply mem_true.
  - apply hoare_here; [apply hoare_alter | done | apply stable_column_in].
Qed.

Ltac from_precondition :=
  intros ? ?;
  repeat match goal with
         | H : _ /\ _ |- _ => destruct H
         | H : tables_created _ |- _ => unfold tables_created in H
         end;
  try split; assumption.

Ltac column_added :=
  match goal with
  | |- hoare _ (when (negb (mem _ ?cols)) (alter_table_add_column ?t ?c)) _ =>
      apply (hoare_when_alter _ t cols c); from_precondition
  | |- hoare _ (when (negb (mem _ ?cols)) (bind (alter_table_add_column ?t ?c) _)) _ =>
      apply (hoare_when_alter_seq _ t cols c); [from_precondition | extensive_tac]
  | |- hoare _ (when (negb (mem _ ?cols)) (add_column_if_not_exists ?t ?c)) _ =>
      apply (hoare_when_add_column_if_not_exists _ t cols c);
      [from_precondition | discriminate]
  end.

Section Stages.
Variable sha256_hexdigest : string -> string.
Variable now : string.

Lemma extensive_seed_hub (hub_name : string) : extensive (seed_hub now hub_name).
Proof. unfold seed_hub. extensive_tac. Qed.

Lemma extensive_seed_hubs : extensive (seed_hubs now).
Proof. unfold seed_hubs. extensive_tac. Qed.

Lemma extensive_seed_users : extensive (seed_users sha256_hexdigest now).
Proof. unfold seed_users. extensive_tac. Qed.

Lemma extensive_create_tables : extensive create_tables.
Proof. unfold create_tables. extensive_tac. Qed.

Lemma extensive_add_missing_columns : extensive add_missing_columns.
Proof. unfold add_missing_columns. extensive_tac. Qed.

Lemma extensive_initialize_timestamps : extensive (initialize_timestamps now).
Proof. unfold initialize_timestamps. extensive_tac. Qed.

Lemma create_tables_post :
  hoare (fun _ => True) create_tables (fun _ => tables_created).
Proof.
  unfold tables_created.
  repeat apply hoare_conj; unfold create_tables;
    first [ find_statement ltac:(apply hoare_create)
          | find_statement ltac:(idtac; column_added) ].
Qed.

Lemma add_missing_columns_post :
  hoare tables_created add_missing_columns (fun _ => columns_added).
Proof.
  unfold columns_added.
  repeat apply hoare_conj; unfold add_missing_columns, hub_metrics_timestamp_columns;
    cbn [for_each];
    find_statement ltac:(idtac; column_added).
Qed.

Lemma select_count_returned (t : string) (d d' : db) (n : Z) :
  select_count t d = (Returned n, d') ->
  d' = d /\ exists tb, d !! t = Some tb /\ n = Z.of_nat (length (rows tb)).
Proof.
  unfold select_count. destruct (d !! t) as [tb|]; [|discriminate].
  intros H. injection H as <- <-. eauto.
Qed.

Lemma hoare_select_count (t : string) :
  hoare (fun _ => True) (select_count t) (fun n d => n <> 0 -> nonempty t d).
Proof.
  intros d n d' _ E. apply select_count_returned in E as (-> & tb & Htb & ->).
  intros Hn. exists tb. split; [done|]. destruct (rows tb); [done | discriminate].
Qed.

(** [if count == 0: seed], when the seed starts by inserting into [t]. *)
Lemma hoare_seed_if_empty (t : string) (seed : M unit) :
  hoare (fun _ => True) seed (fun _ => nonempty t) ->
  hoare (fun _ => True) (n <- select_count t ;; when (n =? 0) seed) (fun _ => nonempty t).
Proof.
  intros Hseed. eapply hoare_bind; [apply hoare_select_count|].
  intros n. destruct (Z.eqb_spec n 0) as [Hz|Hnz]; cbn [when].
  - eapply hoare_weaken; [|exact Hseed]. done.
  - intros d a d' Hd E. injection E as <- <-. by apply Hd.
Qed.

Lemma seed_hubs_post : hoare (fun _ => True) (seed_hubs now) (fun _ => nonempty "hubs").
Proof.
  unfold seed_hubs. apply hoare_seed_if_empty.
  unfold default_hubs. cbn [for_each]. unfold seed_hub at 1.
  find_statement ltac:(apply hoare_insert_nonempty).
Qed.

Lemma seed_users_post :
  hoare (fun _ => True) (seed_users sha256_hexdigest now) (fun _ => nonempty "users").
Proof.
  unfold seed_users. apply hoare_seed_if_empty.
  find_statement ltac:(apply hoare_insert_nonempty).
Qed.

(** *** Backfill of the null timestamps *)

Definition null_timestamp (cols : list string) (r : row) : bool :=
  existsb (fun c => is_null (cell r c)) cols.

Definition stamps (cols : list string) : list (string * value) :=
  map (fun c => (c, VText now)) cols.

(** The body of [for table_info in tables_to_update] for one table. *)
Definition backfill (t : string) (cols : list string) : M unit :=
  null_timestamp_records <- select_where t ("id" :: cols) (null_timestamp cols) ;;
  for_each null_timestamp_records (fun record =>
    update_where t ("id" :: cols) (assign (stamps cols))
      (fun r => sql_eq (cell r "id") (cell record "id"))).

Lemma extensive_backfill (t : string) (cols : list string) : extensive (backfill t cols).
Proof. unfold backfill. extensive_tac. Qed.

Lemma initialize_timestamps_backfill :
  initialize_timestamps now =
    (backfill "hub_metrics"
       ["metrics_updated_at"; "location_updated_at"; "certifications_updated_at"] ;;
     backfill "hub_capabilities" ["capability_updated_at"] ;;
     backfill "client_metrics" ["client_updated_at"] ;;
     backfill "people_metrics" ["people_metric_updated_at"] ;;
     ret tt).
Proof. reflexivity. Qed.

(** One pass of the loop on one row. *)
Definition stamp_if_same_id (cols : list string) (record r : row) : row :=
  if sql_eq (cell r "id") (cell record "id") then assign (stamps cols) r else r.

(** All passes of the loop on one row. *)
Definition stamped (cols : list string) (records : list row) (r : row) : row :=
  foldl (fun r record => stamp_if_same_id cols record r) r records.

Definition columns_present (tb : table) (used : list string) : bool :=
  forallb (fun c => mem c (map c_name (columns tb))) used.

Lemma table_eta (tb : table) : mk_table (columns tb) (uniques tb) (rows tb) = tb.
Proof. by destruct tb. Qed.

Lemma for_each_update (t : string) (cols : list string) (records : list row) :
  forall (d : db) (tb : table),
    d !! t = Some tb -> columns_present tb ("id" :: cols) = true ->
    for_each records (fun record =>
      update_where t ("id" :: cols) (assign (stamps cols))
        (fun r => sql_eq (cell r "id") (cell record "id"))) d =
    (Returned tt,
     <[t := mk_table (columns tb) (uniques tb) (map (stamped cols records) (rows tb))]> d).
Proof.
  induction records as [|record records IH]; intros d tb Htb Hcols.
  - cbn [for_each]. unfold ret, stamped. cbn [foldl].
    rewrite map_id, table_eta, insert_id; done.
  - cbn [for_each]. unfold bind, update_where at 1. rewrite Htb.
    fold (columns_present tb ("id" :: cols)). rewrite Hcols. cbn [negb].
    erewrite IH; [|apply lookup_insert_eq | exact Hcols].
    cbn [columns uniques rows]. rewrite insert_insert_eq, map_map. reflexivity.
Qed.

Lemma backfill_returned (t : string) (cols : list string) (d d' : db) (u : unit) :
  backfill t cols d = (Returned u, d') ->
  exists tb, d !! t = Some tb /\ columns_present tb ("id" :: cols) = true /\
    d' = <[t := mk_table (columns tb) (uniques tb)
                 (map (stamped cols (filter (null_timestamp cols) (rows tb))) (rows tb))]> d.
Proof.
  unfold backfill, bind, select_where.
  destruct (d !! t) as [tb|] eqn:Htb; [|discriminate].
  fold (columns_present tb ("id" :: cols)).
  destruct (columns_present tb ("id" :: cols)) eqn:Hcols; [|discriminate].
  cbn [negb]. rewrite (for_each_update t cols _ d tb Htb Hcols).
  intros H. injection H as <-. by exists tb.
Qed.

Lemma backfill_run (t : string) (cols : list string) (d : db) (tb : table) :
  d !! t = Some tb -> columns_present tb ("id" :: cols) = true ->
  backfill t cols d =
    (Returned tt,
     <[t := mk_table (columns tb) (uniques tb)
             (map (stamped cols (filter (null_timestamp cols) (rows tb))) (rows tb))]> d).
Proof.
  intros Htb Hcols. unfold backfill, bind, select_where. rewrite Htb.
  fold (columns_present tb ("id" :: cols)). rewrite Hcols. cbn [negb].
  apply for_each_update; assumption.
Qed.

Lemma stamps_fst (cols : list string) : map fst (stamps cols) = cols.
Proof. unfold stamps. rewrite map_map. cbn. apply map_id. Qed.

Lemma cell_assign_stamps (cols : list string) (r : row) (c : string) :
  c ∈ cols -> cell (assign (stamps cols) r) c = VText now.
Proof.
  revert r. induction cols as [|c0 cols IH]; intros r Hc.
  - by apply not_elem_of_nil in Hc.
  - unfold stamps. cbn [map]. rewrite assign_cons. cbn [fst snd]. fold (stamps cols).
    destruct (decide (c ∈ cols)) as [Hin|Hnin]; [by apply IH|].
    apply elem_of_cons in Hc as [->|Hc]; [|done].
    rewrite cell_assign_other by (by rewrite stamps_fst).
    rewrite cell_insert. by destruct (decide (c0 = c0)).
Qed.

Lemma null_timestamp_assign (cols : list string) (r : row) :
  null_timestamp cols (assign (stamps cols) r) = false.
Proof.
  unfold null_timestamp. apply not_true_iff_false. intros H.
  apply existsb_exists in H as (c & Hc & Hn).
  rewrite cell_assign_stamps in Hn by (by apply list_elem_of_In). discriminate.
Qed.

Lemma stamp_if_same_id_id (cols : list string) (record r : row) :
  "id" ∉ cols -> cell (stamp_if_same_id cols record r) "id" = cell r "id".
Proof.
  intros Hid. unfold stamp_if_same_id. destruct (sql_eq _ _); [|done].
  apply cell_assign_other. by rewrite stamps_fst.
Qed.

Lemma stamped_id (cols : list string) (records : list row) (r : row) :
  "id" ∉ cols -> cell (stamped cols records r) "id" = cell r "id".
Proof.
  intros Hid. revert r. unfold stamped.
  induction records as [|record records IH]; intros r; cbn [foldl]; [done|].
  rewrite IH. by apply stamp_if_same_id_id.
Qed.

Lemma stamped_keeps_filled (cols : list string) (records : list row) (r : row) :
  null_timestamp cols r = false -> null_timestamp cols (stamped cols records r) = false.
Proof.
  revert r. unfold stamped.
  induction records as [|record records IH]; intros r Hr; cbn [foldl]; [done|].
  apply IH. unfold stamp_if_same_id. destruct (sql_eq _ _); [|done].
  apply null_timestamp_assign.
Qed.

Lemma stamped_fills (cols : list string) (records : list row) (r record : row) :
  "id" ∉ cols -> record ∈ records ->
  sql_eq (cell r "id") (cell record "id") = true ->
  null_timestamp cols (stamped cols records r) = false.
Proof.
  intros Hid. revert r. unfold stamped.
  induction records as [|record0 records IH]; intros r Hin Heq; cbn [foldl].
  - by apply not_elem_of_nil in Hin.
  - apply elem_of_cons in Hin as [<-|Hin].
    + apply stamped_keeps_filled. unfold stamp_if_same_id. rewrite Heq.
      apply null_timestamp_assign.
    + apply IH; [done|]. by rewrite stamp_if_same_id_id.
Qed.

(** After the backfill a row with a null timestamp is a row without [id],
    which no [WHERE id = ?] reaches. *)
Definition filled (t : string) (cols : list string) (d : db) : Prop :=
  exists tb, d !! t = Some tb /\ columns_present tb ("id" :: cols) = true /\
    forall r, r ∈ rows tb -> null_timestamp cols r = true -> cell r "id" = VNull.

Lemma sql_eq_self_false (v : value) : sql_eq v v = false -> v = VNull.
Proof.
  intros H. destruct v; [done|..]; exfalso; rewrite sql_eq_refl in H; done.
Qed.

Lemma backfill_post (t : string) (cols : list string) :
  "id" ∉ cols -> hoare (fun _ => True) (backfill t cols) (fun _ => filled t cols).
Proof.
  intros Hid d u d' _ E.
  apply backfill_returned in E as (tb & Htb & Hcols & ->).
  eexists. split; [apply lookup_insert_eq|]. split; [exact Hcols|].
  cbn [rows]. intros r Hr Hnull.
  apply list_elem_of_fmap in Hr as (r0 & -> & Hr0).
  rewrite stamped_id by done.
  apply sql_eq_self_false. apply not_true_iff_false. intros Hself.
  destruct (null_timestamp cols r0) eqn:Hn0.
  - rewrite (stamped_fills cols _ r0 r0 Hid) in Hnull; [discriminate| |done].
    apply list_elem_of_filter. split; [by apply Is_true_true|done].
  - by rewrite stamped_keeps_filled in Hnull.
Qed.

Lemma backfill_frame (t t' : string) (cols cols' : list string) :
  t <> t' -> hoare (filled t cols) (backfill t' cols') (fun _ => filled t cols).
Proof.
  intros Hne d u d' (tb & Htb & H) E.
  apply backfill_returned in E as (tb' & _ & _ & ->).
  exists tb. by rewrite lookup_insert_ne.
Qed.

Lemma backfill_noop (t : string) (cols : list string) (d : db) :
  filled t cols d -> backfill t cols d = (Returned tt, d).
Proof.
  intros (tb & Htb & Hcols & Hnull).
  rewrite (backfill_run t cols d tb Htb Hcols).
  assert (Hrows : map (stamped cols (filter (null_timestamp cols) (rows tb))) (rows tb)
                  = rows tb).
  { rewrite <- (map_id (rows tb)) at 3. apply map_ext_in. intros r _.
    assert (G : forall records, Forall (fun record => cell record "id" = VNull) records ->
                stamped cols records r = r).
    { unfold stamped. induction 1 as [|record records Hrec _ IH]; cbn [foldl]; [done|].
      unfold stamp_if_same_id at 2. by rewrite Hrec, sql_eq_null_r. }
    apply G. apply Forall_forall. intros record Hin.
    apply list_elem_of_filter in Hin as [Hn Hin].
    apply Hnull; [done | by apply Is_true_true_1]. }
  rewrite Hrows, table_eta, insert_id; done.
Qed.

(** *** A store on which [setup_database] has nothing left to do *)

Definition settled (d : db) : Prop :=
  tables_created d /\ columns_added d /\ nonempty "hubs" d /\ nonempty "users" d /\
  filled "hub_metrics"
    ["metrics_updated_at"; "location_updated_at"; "certifications_updated_at"] d /\
  filled "hub_capabilities" ["capability_updated_at"] d /\
  filled "client_metrics" ["client_updated_at"] d /\
  filled "people_metrics" ["people_metric_updated_at"] d.

Lemma bind_noop {A B} (m : M A) (k : A -> M B) (d : db) (a : A) :
  m d = (Returned a, d) -> bind m k d = k a d.
Proof. intros H. unfold bind. by rewrite H. Qed.

Lemma bind_returned {A B} (m : M A) (k : A -> M B) (d d' : db) (b : B) :
  bind m k d = (Returned b, d') ->
  exists a d1, m d = (Returned a, d1) /\ k a d1 = (Returned b, d').
Proof.
  unfold bind. destruct (m d) as [[a|e] d1]; [|discriminate]. eauto.
Qed.

Lemma create_noop (t : string) (cols : list column) (uniq : list (list string)) (d : db) :
  table_exists t d -> create_table_if_not_exists t cols uniq d = (Returned tt, d).
Proof. intros [tb H]. unfold create_table_if_not_exists. by rewrite H. Qed.

Lemma table_info_run (t : string) (d : db) (tb : table) :
  d !! t = Some tb -> table_info t d = (Returned (map c_name (columns tb)), d).
Proof. intros H. unfold table_info. by rewrite H. Qed.

Lemma when_mem_noop (t c : string) (m : M unit) (d : db) (tb : table) :
  d !! t = Some tb -> column_in t c d ->
  when (negb (mem c (map c_name (columns tb)))) m d = (Returned tt, d).
Proof.
  intros Htb (tb' & Htb' & Hc). rewrite Htb in Htb'. injection Htb' as <-.
  apply mem_true in Hc. by rewrite Hc.
Qed.

Lemma when_headcount_noop (d : db) (tb : table) :
  d !! "hub_capabilities" = Some tb -> column_ci "hub_capabilities" "headcount" d ->
  when (negb (mem "headcount" (map c_name (columns tb))))
    (add_column_if_not_exists "hub_capabilities" (col_default "headcount" (VInt 0))) d
  = (Returned tt, d).
Proof.
  intros Htb (tb' & Htb' & Hc). rewrite Htb in Htb'. injection Htb' as <-.
  destruct (mem "headcount" _); [reflexivity|]. cbn [negb when].
  unfold add_column_if_not_exists, alter_table_add_column. rewrite Htb.
  change (lower (c_name (col_default "headcount" (VInt 0)))) with (lower "headcount").
  by rewrite Hc.
Qed.

Lemma seed_noop (t : string) (seed : M unit) (d : db) :
  nonempty t d -> (n <- select_count t ;; when (n =? 0) seed) d = (Returned tt, d).
Proof.
  intros (tb & Htb & Hrows). unfold bind, select_count. rewrite Htb.
  destruct (Z.eqb_spec (Z.of_nat (length (rows tb))) 0) as [Hz|_]; [|reflexivity].
  destruct (rows tb); [done | discriminate].
Qed.

Ltac noop_step :=
  erewrite bind_noop;
  [| first [ apply create_noop; assumption
           | apply table_info_run; eassumption
           | eapply when_mem_noop; eassumption
           | apply when_headcount_noop; assumption ] ].

Lemma create_tables_noop (d : db) :
  tables_created d -> create_tables d = (Returned tt, d).
Proof.
  intros (Hu & Hh & Hm & Hc & Hcl & Hp & Hb & Hl & Hce).
  pose proof Hm as [tb Htb]. unfold create_tables.
  do 9 noop_step. apply create_noop; assumption.
Qed.

Lemma add_missing_columns_noop (d : db) :
  tables_created d -> columns_added d -> add_missing_columns d = (Returned tt, d).
Proof.
  intros (_ & _ & [hm Hhm] & [hc Hhc] & [cm Hcm] & [pm Hpm] & _)
         (H1 & H2 & H3 & H4 & H5 & H6 & H7 & H8 & H9 & H10 & H11).
  unfold add_missing_columns, hub_metrics_timestamp_columns. cbn [for_each].
  noop_step.
  erewrite bind_noop; [|do 3 noop_step; reflexivity].
  do 10 noop_step. eapply when_mem_noop; eassumption.
Qed.

Lemma initialize_timestamps_noop (d : db) :
  filled "hub_metrics"
    ["metrics_updated_at"; "location_updated_at"; "certifications_updated_at"] d ->
  filled "hub_capabilities" ["capability_updated_at"] d ->
  filled "client_metrics" ["client_updated_at"] d ->
  filled "people_metrics" ["people_metric_updated_at"] d ->
  initialize_timestamps now d = (Returned tt, d).
Proof.
  intros H1 H2 H3 H4. rewrite initialize_timestamps_backfill.
  do 4 (erewrite bind_noop; [|apply backfill_noop; assumption]). reflexivity.
Qed.

Lemma setup_database_noop (d : db) :
  settled d -> setup_database sha256_hexdigest now d = (Returned tt, d).
Proof.
  intros (Ht & Hc & Hh & Hu & F1 & F2 & F3 & F4). unfold setup_database.
  erewrite bind_noop; [|by apply create_tables_noop].
  erewrite bind_noop; [|by apply seed_noop].
  erewrite bind_noop; [|by apply seed_noop].
  erewrite bind_noop; [|by apply add_missing_columns_noop].
  by apply initialize_timestamps_noop.
Qed.

Lemma not_id (cols : list string) : mem "id" cols = false -> "id" ∉ cols.
Proof. intros H Hin. apply mem_true in Hin. congruence. Qed.

(** A run that returns leaves a settled store. *)
Lemma setup_database_settles (d d1 : db) (u : unit) :
  setup_database sha256_hexdigest now d = (Returned u, d1) -> settled d1.
Proof.
  unfold setup_database. intros H.
  apply bind_returned in H as (? & s_a & Ha & H).
  apply bind_returned in H as (? & s_b & Hb & H).
  apply bind_returned in H as (? & s_c & Hc & H).
  apply bind_returned in H as (? & s_d & Hd & H).
  rewrite initialize_timestamps_backfill in H.
  apply bind_returned in H as (? & d_1 & B1 & H).
  apply bind_returned in H as (? & d_2 & B2 & H).
  apply bind_returned in H as (? & d_3 & B3 & H).
  apply bind_returned in H as (? & d_4 & B4 & H).
  injection H as _ <-.
  pose proof (extensive_seed_hubs _ _ _ Hb) as Lb.
  pose proof (extensive_seed_users _ _ _ Hc) as Lc.
  pose proof (extensive_add_missing_columns _ _ _ Hd) as Ld.
  assert (L1 : db_le s_d d_1) by exact (extensive_backfill _ _ _ _ _ B1).
  assert (L2 : db_le d_1 d_2) by exact (extensive_backfill _ _ _ _ _ B2).
  assert (L3 : db_le d_2 d_3) by exact (extensive_backfill _ _ _ _ _ B3).
  assert (L4 : db_le d_3 d_4) by exact (extensive_backfill _ _ _ _ _ B4).
  assert (Le : db_le s_d d_4) by (repeat (eapply db_le_trans; [eassumption|]); apply db_le_refl).
  pose proof (create_tables_post _ _ _ I Ha) as Ta.
  assert (Tc : tables_created s_c)
    by (eapply stable_tables_created; [|exact Ta]; eapply db_le_trans; eassumption).
  repeat split.
  1-9: eapply stable_tables_created;
       [eapply db_le_trans; [exact Ld | exact Le] | exact Tc].
  1-11: eapply stable_columns_added;
        [exact Le | exact (add_missing_columns_post _ _ _ Tc Hd)].
  - eapply stable_nonempty; [|exact (seed_hubs_post _ _ _ I Hb)].
    repeat (eapply db_le_trans; [eassumption|]). apply db_le_refl.
  - eapply stable_nonempty; [|exact (seed_users_post _ _ _ I Hc)].
    repeat (eapply db_le_trans; [eassumption|]). apply db_le_refl.
  - eapply backfill_frame; [| |exact B4]; [done|].
    eapply backfill_frame; [| |exact B3]; [done|].
    eapply backfill_frame; [| |exact B2]; [done|].
    eapply backfill_post; [|done|exact B1]. by apply not_id.
  - eapply backfill_frame; [| |exact B4]; [done|].
    eapply backfill_frame; [| |exact B3]; [done|].
    eapply backfill_post; [|done|exact B2]. by apply not_id.
  - eapply backfill_frame; [| |exact B4]; [done|].
    eapply backfill_post; [|done|exact B3]. by apply not_id.
  - eapply backfill_post; [|done|exact B4]. by apply not_id.
Qed.

End Stages.

(** C5.  When a run of [setup_database] has returned, a second run on the
    store it left returns too and leaves that store exactly as it is: no
    column is added, no row is added or changed. *)
Theorem setup_database_idempotent :
  forall (sha256_hexdigest : string -> string) (now1 now2 : string) (d d1 : db),
    setup_database sha256_hexdigest now1 d = (Returned tt, d1) ->
    setup_database sha256_hexdigest now2 d1 = (Returned tt, d1).
Proof.
  intros sha now1 now2 d d1 H.
  apply setup_database_noop.
  exact (setup_database_settles sha now1 d d1 tt H).
Qed.

End SetupFacts.

(** ** The seed blocks only append rows *)

Module SeedFacts.
Import Store Setup StoreFacts SetupFacts.
Local Open Scope stmt_scope.

(** Every table of [d] is in [d'] with the same columns and constraints,
    and with its rows, unchanged and in the same order, before any other. *)
Definition appended (d d' : db) : Prop :=
  forall t tb, d !! t = Some tb ->
    exists tb' more, d' !! t = Some tb' /\ columns tb' = columns tb /\
      uniques tb' = uniques tb /\ rows tb' = (rows tb ++ more)%list.

Lemma appended_refl (d : db) : appended d d.
Proof. intros t tb H. exists tb, []. by rewrite app_nil_r. Qed.

Lemma appended_trans (d1 d2 d3 : db) : appended d1 d2 -> appended d2 d3 -> appended d1 d3.
Proof.
  intros H12 H23 t tb H.
  destruct (H12 t tb H) as (tb2 & m2 & H2 & C2 & U2 & R2).
  destruct (H23 t tb2 H2) as (tb3 & m3 & H3 & C3 & U3 & R3).
  exists tb3, (m2 ++ m3)%list. split; [done|].
  split; [congruence|]. split; [congruence|]. by rewrite R3, R2, app_assoc.
Qed.

(** A statement that only appends rows, whatever its outcome. *)
Definition appends {A} (m : M A) : Prop :=
  forall d o d', m d = (o, d') -> appended d d'.

Lemma appends_ret {A} (a : A) : appends (ret a).
Proof. intros d o d' H. injection H as <- <-. apply appended_refl. Qed.

Lemma appends_raise {A} (e : exn) : appends (@raise A e).
Proof. intros d o d' H. injection H as <- <-. apply appended_refl. Qed.

Lemma appends_bind {A B} (m : M A) (k : A -> M B) :
  appends m -> (forall a, appends (k a)) -> appends (bind m k).
Proof.
  intros Hm Hk d o d' H. unfold bind in H.
  destruct (m d) as [[a|e] d1] eqn:E.
  - eapply appended_trans; [eapply Hm, E | eapply Hk, H].
  - injection H as <- <-. eapply Hm, E.
Qed.

Lemma appends_when (b : bool) (m : M unit) : appends m -> appends (when b m).
Proof. destruct b; [done | intros _; apply appends_ret]. Qed.

Lemma appends_for_each {A} (l : list A) (body : A -> M unit) :
  (forall x, appends (body x)) -> appends (for_each l body).
Proof.
  intros Hb. induction l as [|x l IH]; cbn; [apply appends_ret|].
  apply appends_bind; [apply Hb | intros _; apply IH].
Qed.

Lemma appends_select_count (t : string) : appends (select_count t).
Proof.
  intros d o d' H. unfold select_count in H.
  destruct (d !! t); injection H as <- <-; apply appended_refl.
Qed.

Lemma appends_select_where (t : string) (used : list string) (cond : row -> bool) :
  appends (select_where t used cond).
Proof.
  intros d o d' H. unfold select_where in H.
  destruct (d !! t); [destruct (negb _)|]; injection H as <- <-; apply appended_refl.
Qed.

Lemma appends_fetchone_0 (c : string) (rs : list row) : appends (fetchone_0 c rs).
Proof. destruct rs; [apply appends_raise | apply appends_ret]. Qed.

Lemma appends_insert (now t : string) (vals : list (string * value)) :
  appends (insert_into now t vals).
Proof.
  intros d o d' H. unfold insert_into in H.
  destruct (d !! t) as [tb|] eqn:E; [|injection H as <- <-; apply appended_refl].
  destruct (negb _); [injection H as <- <-; apply appended_refl|].
  destruct (existsb _ (columns tb)); [injection H as <- <-; apply appended_refl|].
  destruct (existsb _ _); injection H as <- <-; [apply appended_refl|].
  intros t0 tb0 H0. destruct (decide (t = t0)) as [<-|Hne].
  - rewrite E in H0. injection H0 as <-. rewrite lookup_insert_eq. by eexists _, _.
  - rewrite lookup_insert_ne by done. exists tb0, []. by rewrite app_nil_r.
Qed.

Ltac appends_step :=
  first
    [ apply appends_bind; [|intros ?]
    | apply appends_for_each; intros ?
    | apply appends_when
    | apply appends_ret
    | apply appends_raise
    | apply appends_select_count
    | apply appends_select_where
    | apply appends_fetchone_0
    | apply appends_insert
    | match goal with
      | |- appends (match ?x with _ => _ end) => destruct x
      | |- appends (let '(_, _) := ?x in _) => destruct x
      end ].

Lemma appends_seed_hubs (now : string) : appends (seed_hubs now).
Proof. unfold seed_hubs, seed_hub. repeat appends_step. Qed.

Lemma appends_seed_users (sha256_hexdigest : string -> string) (now : string) :
  appends (seed_users sha256_hexdigest now).
Proof. unfold seed_users. repeat appends_step. Qed.

Lemma appends_run {A} (m : M A) (d : db) : appends m -> appended d (snd (m d)).
Proof. intros H. destruct (m d) as [o d'] eqn:E. exact (H d o d' E). Qed.

End SeedFacts.

(** ** Runs of [setup_database] on concrete stores *)

Module SetupExamples.
Import Store Setup StoreFacts SetupFacts.
Local Open Scope stmt_scope.

(** In examples the digest is a tagged copy of the text. *)
Definition tagged_digest (s : string) : string := "sha256:" ++ s.

Definition row_count (t : string) (d : db) : nat :=
  match d !! t with
  | Some tb => length (rows tb)
  | None => 0%nat
  end.

Definition seeded_tables : list string :=
  [ "users"; "hubs"; "hub_metrics"; "hub_capabilities"; "client_metrics"; "people_metrics" ].

Definition row_counts (d : db) : list nat := map (fun t => row_count t d) seeded_tables.

Lemma run_pair {A} (m : M A) (d : db) (o : outcome A) :
  fst (m d) = o -> m d = (o, snd (m d)).
Proof. destruct (m d). cbn. by intros ->. Qed.

Lemma setup_database_idempotent_witness :
  let first := setup_database tagged_digest "2025-01-01 00:00:00" ∅ in
  setup_database tagged_digest "2025-02-01 00:00:00" (snd first) = (Returned tt, snd first).
Proof.
  cbv zeta.
  apply (setup_database_idempotent tagged_digest "2025-01-01 00:00:00"
           "2025-02-01 00:00:00" ∅).
  apply run_pair. vm_compute. reflexivity.
Defined.

Lemma first_run_returns (sha256_hexdigest : string -> string) (now : string) :
  setup_database sha256_hexdigest now ∅ =
    (Returned tt, snd (setup_database sha256_hexdigest now ∅)).
Proof. apply run_pair. vm_compute. reflexivity. Qed.

Lemma first_run_row_counts (sha256_hexdigest : string -> string) (now : string) :
  row_counts (snd (setup_database sha256_hexdigest now ∅)) = [8; 7; 7; 51; 35; 84]%nat.
Proof. vm_compute. reflexivity. Qed.

(** C7 (as stated, refuted).  Seeding is performed into a table that is
    not empty: on a store that has one row of [hub_metrics] and no [hubs]
    table, a run of [setup_database] returns and [hub_metrics] has 8 rows.
    The only row counts the seed blocks look at are those of [hubs] and of
    [users]. *)
Lemma seed_into_nonempty_table :
  row_counts RepositoryExamples.metrics_store = [0; 0; 1; 0; 0; 0]%nat /\
  fst (setup_database tagged_digest "2025-01-01 00:00:00" RepositoryExamples.metrics_store)
    = Returned tt /\
  row_counts
    (snd (setup_database tagged_digest "2025-01-01 00:00:00" RepositoryExamples.metrics_store))
    = [8; 7; 8; 51; 35; 84]%nat.
Proof. repeat split; vm_compute; reflexivity. Qed.

(** C7 (amended).  From an empty store, one run of [setup_database]
    returns with 8 users, 7 hubs, 7 hub-metrics rows, 51 capabilities, 35
    clients and 84 people metrics, and a second run on that store returns and
    leaves the very same store: every table has the same rows, hence the same
    row count.  The seed blocks are guarded by the row counts of [hubs] and
    of [users] only: on a store where that table has a row, the block leaves
    the store as it is.  On any store and whatever their outcome, the seed
    blocks only append rows: every table keeps its columns, its constraints
    and its rows, unchanged and in the same order, before any seeded row. *)
Theorem seed_loader_runs_once :
  forall (sha256_hexdigest : string -> string) (now1 now2 : string),
    exists once : db,
      setup_database sha256_hexdigest now1 ∅ = (Returned tt, once) /\
      setup_database sha256_hexdigest now2 once = (Returned tt, once) /\
      row_counts once = [8; 7; 7; 51; 35; 84]%nat /\
      (forall d, nonempty "hubs" d -> seed_hubs now2 d = (Returned tt, d)) /\
      (forall d, nonempty "users" d ->
         seed_users sha256_hexdigest now2 d = (Returned tt, d)) /\
      (forall d, SeedFacts.appended d (snd (seed_hubs now2 d))) /\
      (forall d, SeedFacts.appended d (snd (seed_users sha256_hexdigest now2 d))).
Proof.
  intros sha now1 now2.
  exists (snd (setup_database sha now1 ∅)).
  split; [apply first_run_returns|].
  split; [apply setup_database_noop;
          apply (setup_database_settles sha now1 ∅ _ tt), first_run_returns|].
  split; [apply first_run_row_counts|].
  split; [intros d Hd; apply seed_noop; exact Hd|].
  split; [intros d Hd; apply seed_noop; exact Hd|].
  split; intros d; apply SeedFacts.appends_run;
    [apply SeedFacts.appends_seed_hubs | apply SeedFacts.appends_seed_users].
Qed.

(** A [hub_metrics] table from before the bench count, location headcounts
    and certifications were introduced, in which a column [Bench_Count] was
    added by hand. *)
Definition legacy_hub_metrics : table :=
  mk_table
    [ col "id"; col_notnull "hub_id"; col "total_headcount"; col "total_seats";
      col "total_clients"; col "services_offered"; col "female_percent";
      col "male_percent"; col "other_gender_percent"; col "campus_type";
      col "sez_status"; col "location"; col "coverage_hours";
      col "transport_facilities"; col_timestamp "updated_at"; col "updated_by";
      col_default "Bench_Count" (VInt 0) ]
    [] [].

Definition legacy_store : db := {[ "hub_metrics" := legacy_hub_metrics ]}.

Definition column_names (t : string) (d : db) : option (list string) :=
  (fun tb => map c_name (columns tb)) <$> d !! t.

(** C6.  On the legacy store the unguarded [ALTER TABLE ... ADD COLUMN
    bench_count] fails, because SQLite takes [Bench_Count] for the same
    name; the error leaves [setup_database], and neither the two column
    additions that follow for [hub_metrics] nor the tables and columns after
    them are attempted.  The same addition through
    [add_column_if_not_exists] would have been swallowed. *)
Theorem setup_database_stops_at_failed_column_add :
  forall (sha256_hexdigest : string -> string) (now : string),
    let run := setup_database sha256_hexdigest now legacy_store in
    fst run = Raised (OperationalError "duplicate column name: bench_count") /\
    column_names "hub_metrics" (snd run) = column_names "hub_metrics" legacy_store /\
    snd run !! "hub_capabilities" = None /\
    snd run !! "client_metrics" = None /\
    snd run !! "people_metrics" = None /\
    add_column_if_not_exists "hub_metrics" (col_default "bench_count" (VInt 0)) legacy_store
      = (Returned tt, legacy_store).
Proof. intros sha now. cbv zeta. repeat split; vm_compute; reflexivity. Qed.

End SetupExamples.

(** ** Age labels and cell styles *)

Module DisplayFacts.
Import Freshness Display.

Lemma seconds_range (a b : datetime) :
  0 <= seconds (datetime_sub a b) < 86400.
Proof.
  unfold datetime_sub, timedelta_new; cbn [seconds].
  apply Z.mod_pos_bound; lia.
Qed.

Section Labels.
Variable strptime : string -> outcome datetime.
Variable now : datetime.

Lemma get_time_difference_valid (s : string) (t : datetime) :
  strptime s = Returned t ->
  get_time_difference strptime now (Some s) =
    Returned (let diff := datetime_sub now t in
              let d := days diff in
              if d =? 0 then
                if seconds diff / 3600 =? 0
                then str (seconds diff / 60) ++ " minutes ago"
                else str (seconds diff / 3600) ++ " hours ago"
              else if d =? 1 then "Yesterday"
              else if d <? 30 then str d ++ " days ago"
              else if d <? 365 then str (d / 30) ++ " months ago"
              else str (d / 365) ++ " years ago").
Proof.
  intros H. cbn. rewrite H. cbn.
  repeat match goal with |- context [if ?b then _ else _] => destruct b end;
    reflexivity.
Qed.

End Labels.

(** X1.  On a timestamp that [strptime] accepts, [get_time_difference]
    returns a label fixed by the whole days [d] and the remaining seconds of
    [now - t]: minutes (0 to 59) or hours (1 to 23) when [d = 0],
    [Yesterday] when [d = 1], the day count when [2 <= d < 30], months (1 to
    12, [d // 30]) when [30 <= d < 365], years (at least 1) from 365 days
    on.  A timestamp in the future has a negative [d] and falls into the day
    branch, with a negative count. *)
Theorem get_time_difference_labels :
  forall (strptime : string -> outcome datetime) (now : datetime)
         (s : string) (t : datetime),
    strptime s = Returned t ->
    let d := days (datetime_sub now t) in
    exists label,
      get_time_difference strptime now (Some s) = Returned label /\
      (d = 0 ->
         (exists n, 0 <= n <= 59 /\ label = str n ++ " minutes ago") \/
         (exists n, 1 <= n <= 23 /\ label = str n ++ " hours ago")) /\
      (d = 1 -> label = "Yesterday") /\
      (2 <= d < 30 -> label = str d ++ " days ago") /\
      (d < 0 -> label = str d ++ " days ago") /\
      (30 <= d < 365 -> exists n, 1 <= n <= 12 /\ n = d / 30 /\
                                  label = str n ++ " months ago") /\
      (365 <= d -> exists n, 1 <= n /\ n = d / 365 /\
                             label = str n ++ " years ago").
Proof.
  intros strptime now s t Hs d. subst d.
  rewrite (get_time_difference_valid strptime now s t Hs). cbv zeta.
  pose proof (seconds_range now t) as Hsec.
  generalize dependent (seconds (datetime_sub now t)).
  generalize (days (datetime_sub now t)). intros d sec Hsec.
  eexists; split; [reflexivity|].
  destruct (Z.eqb_spec d 0) as [D0|D0].
  - subst d. repeat split; try lia.
    intros _. destruct (Z.eqb_spec (sec / 3600) 0) as [Hh|Hh].
    + left. exists (sec / 60). split; [|reflexivity].
      assert (sec < 3600).
      { pose proof (Z.div_mod sec 3600 ltac:(lia)).
        pose proof (Z.mod_pos_bound sec 3600 ltac:(lia)). lia. }
      split; [apply Z.div_pos; lia|].
      pose proof (Z.div_mod sec 60 ltac:(lia)).
      pose proof (Z.mod_pos_bound sec 60 ltac:(lia)). lia.
    + right. exists (sec / 3600). split; [|reflexivity].
      pose proof (Z.div_mod sec 3600 ltac:(lia)).
      pose proof (Z.mod_pos_bound sec 3600 ltac:(lia)).
      assert (0 <= sec / 3600) by (apply Z.div_pos; lia). lia.
  - destruct (Z.eqb_spec d 1) as [D1|D1]; [subst d; repeat split; intros; lia || reflexivity|].
    destruct (Z.ltb_spec d 30) as [D30|D30].
    { repeat split; intros; try lia; reflexivity. }
    destruct (Z.ltb_spec d 365) as [D365|D365].
    + repeat split; intros; try lia.
      exists (d / 30). repeat split.
      * pose proof (Z.div_mod d 30 ltac:(lia)).
        pose proof (Z.mod_pos_bound d 30 ltac:(lia)). lia.
      * pose proof (Z.div_mod d 30 ltac:(lia)).
        pose proof (Z.mod_pos_bound d 30 ltac:(lia)). lia.
    + repeat split; intros; try lia.
      exists (d / 365). repeat split.
      pose proof (Z.div_mod d 365 ltac:(lia)).
      pose proof (Z.mod_pos_bound d 365 ltac:(lia)). lia.
Qed.

Lemma get_time_difference_labels_witness :
  let now := mk_datetime 2025 3 1 12 0 0 0 in
  exists label,
    get_time_difference strptime_sqlite now (Some "2025-03-04 09:00:00") = Returned label /\
    label = "-3 days ago".
Proof.
  cbv zeta.
  destruct (get_time_difference_labels strptime_sqlite (mk_datetime 2025 3 1 12 0 0 0)
              "2025-03-04 09:00:00" (mk_datetime 2025 3 4 9 0 0 0))
    as (label & Hl & _ & _ & _ & Hneg & _).
  - vm_compute; reflexivity.
  - exists label. split; [exact Hl|].
    rewrite Hneg; [vm_compute; reflexivity | vm_compute; reflexivity].
Defined.

(** X2.  The label and the staleness verdict go together: whenever
    [is_outdated] answers true the label is [Never], [Unknown], or a count of
    at least one month or year; a label in minutes, hours or days, and
    [Yesterday], are only shown for data that is not outdated. *)
Theorem outdated_label :
  forall (strptime : string -> outcome datetime) (now : datetime) (ts : option string),
    is_outdated strptime now ts = Returned true ->
    get_time_difference strptime now ts = Returned "Never" \/
    get_time_difference strptime now ts = Returned "Unknown" \/
    (exists n, 1 <= n <= 12 /\
       get_time_difference strptime now ts = Returned (str n ++ " months ago")) \/
    (exists n, 1 <= n /\
       get_time_difference strptime now ts = Returned (str n ++ " years ago")).
Proof.
  intros strptime now [s|]; [|intros _; left; reflexivity].
  destruct (strptime s) as [t|e] eqn:Hs.
  - rewrite (FreshnessFacts.is_outdated_valid strptime now s t Hs).
    rewrite (get_time_difference_valid strptime now s t Hs). cbv zeta.
    generalize (seconds (datetime_sub now t)).
    generalize (days (datetime_sub now t)). intros d sec H.
    injection H as H. apply Z.gtb_lt in H.
    destruct (Z.eqb_spec d 0); [lia|]. destruct (Z.eqb_spec d 1); [lia|].
    destruct (Z.ltb_spec d 30); [lia|]. right; right.
    destruct (Z.ltb_spec d 365).
    + left. exists (d / 30). split; [|reflexivity].
      pose proof (Z.div_mod d 30 ltac:(lia)).
      pose proof (Z.mod_pos_bound d 30 ltac:(lia)). lia.
    + right. exists (d / 365). split; [|reflexivity].
      pose proof (Z.div_mod d 365 ltac:(lia)).
      pose proof (Z.mod_pos_bound d 365 ltac:(lia)). lia.
  - intros _. right; left. cbn. rewrite Hs. reflexivity.
Qed.

Lemma outdated_label_witness :
  let now := mk_datetime 2025 3 15 12 0 0 0 in
  let ts := Some "2025-01-01 00:00:00" in
  get_time_difference strptime_sqlite now ts = Returned "Never" \/
  get_time_difference strptime_sqlite now ts = Returned "Unknown" \/
  (exists n, 1 <= n <= 12 /\
     get_time_difference strptime_sqlite now ts = Returned (str n ++ " months ago")) \/
  (exists n, 1 <= n /\
     get_time_difference strptime_sqlite now ts = Returned (str n ++ " years ago")).
Proof.
  cbv zeta.
  apply (outdated_label strptime_sqlite (mk_datetime 2025 3 15 12 0 0 0)
           (Some "2025-01-01 00:00:00")).
  vm_compute. reflexivity.
Defined.

(** X3.  [style_outdated] paints a cell light red exactly when
    [is_outdated] answers true for it, on every cell: a null cell and a cell
    [strptime] rejects are red, a valid one is red from 31 whole days on and
    unstyled before. *)
Theorem style_outdated_agrees :
  forall (strptime : string -> outcome datetime) (now : datetime) (val : option string),
    (style_outdated strptime now val = Returned BG_LIGHT_RED <->
       is_outdated strptime now val = Returned true) /\
    (style_outdated strptime now val = Returned EmptyString <->
       is_outdated strptime now val = Returned false).
Proof.
  intros strptime now [s|]; unfold style_outdated, is_outdated.
  - destruct (strptime s) as [t|e]; cbn [obind try_except].
    + destruct (days (datetime_sub now t) >? 30);
        split; split; intros H; try reflexivity; discriminate H.
    + split; split; intros H; try reflexivity; discriminate H.
  - cbn [obind try_except]. split; split; intros H; try reflexivity; discriminate H.
Qed.

(** X4.  The three-colour styling is consistent with the staleness verdict
    on every cell, null and unparsable ones included: a red cell is always
    outdated, a green cell never is, and the only cells that are yellow
    without being outdated are exactly 30 whole days old. *)
Theorem color_by_days_against_is_outdated :
  forall (strptime : string -> outcome datetime) (now : datetime) (val : option string),
    (color_by_days strptime now val = Returned BG_RED ->
       is_outdated strptime now val = Returned true) /\
    (color_by_days strptime now val = Returned BG_GREEN ->
       is_outdated strptime now val = Returned false) /\
    (color_by_days strptime now val = Returned BG_YELLOW ->
     is_outdated strptime now val = Returned false ->
       exists s t, val = Some s /\ strptime s = Returned t /\
                   days (datetime_sub now t) = 30).
Proof.
  intros strptime now [s|].
  - destruct (strptime s) as [t|e] eqn:Hs.
    + rewrite (FreshnessFacts.color_by_days_valid strptime now s t Hs),
              (FreshnessFacts.is_outdated_valid strptime now s t Hs). cbv zeta.
      remember (days (datetime_sub now t)) as d eqn:Hd.
      destruct (Z.ltb_spec d 30); destruct (Z.ltb_spec d 35);
        destruct (Z.gtb_spec d 30); repeat split; intros; try discriminate;
        try reflexivity; try lia.
      exists s, t. repeat split; trivial. lia.
    + cbn. rewrite Hs. cbn. repeat split; intros; try discriminate; reflexivity.
  - cbn. repeat split; intros; try discriminate; reflexivity.
Qed.

End DisplayFacts.

(** ** What the repository operations change, and what they leave alone *)

Module FormsFacts.
Import Store Repository Forms StoreFacts RepositoryFacts.
Local Open Scope stmt_scope.

(** A statement that reads the store. *)
Definition readonly {A} (m : M A) : Prop := forall d, snd (m d) = d.

(** A statement that leaves the store as it was when it raises. *)
Definition keeps_on_raise {A} (m : M A) : Prop :=
  forall d e d', m d = (Raised e, d') -> d' = d.

Lemma on_raise_readonly {A} (m : M A) : readonly m -> keeps_on_raise m.
Proof. intros H d e d' E. specialize (H d). rewrite E in H. done. Qed.

Lemma readonly_getitem (m : dict) (k : string) : readonly (getitem m k).
Proof. intros d. apply getitem_state. Qed.

Lemma readonly_getitems (m : dict) (ks : list string) : readonly (getitems m ks).
Proof. intros d. apply getitems_state. Qed.

Lemma readonly_select_where (t : string) (used : list string) (cond : row -> bool) :
  readonly (select_where t used cond).
Proof.
  intros d. unfold select_where. destruct (d !! t); [|done]. by destruct (negb _).
Qed.

Lemma on_raise_raise {A} (e : exn) : keeps_on_raise (@raise A e).
Proof. intros d e' d' H. by injection H as _ <-. Qed.

Lemma on_raise_bind {A B} (m : M A) (k : A -> M B) :
  readonly m -> (forall a, keeps_on_raise (k a)) -> keeps_on_raise (bind m k).
Proof.
  intros Hm Hk d e d' H. unfold bind in H. specialize (Hm d).
  destruct (m d) as [[a|e1] d1]; cbn in Hm; subst d1.
  - by apply (Hk a d e d').
  - by injection H as _ <-.
Qed.

Lemma on_raise_update_where (t : string) (used : list string) (set : row -> row)
    (cond : row -> bool) : keeps_on_raise (update_where t used set cond).
Proof.
  intros d e d' H.
  apply update_where_spec in H as [(msg & _ & ->)|(tb & H & _)]; [done|discriminate].
Qed.

Lemma on_raise_update_set_where (t : string) (where_cols : list string)
    (sets : list (string * value)) (cond : row -> bool) :
  keeps_on_raise (update_set_where t where_cols sets cond).
Proof.
  intros d e d' H. unfold update_set_where in H.
  destruct (d !! t) as [tb|]; [|by injection H as _ <-].
  destruct (negb _); [by injection H as _ <-|].
  destruct (update_rows tb sets cond [] (rows tb)); [discriminate|by injection H as _ <-].
Qed.

Lemma on_raise_insert_into (now t : string) (vals : list (string * value)) :
  keeps_on_raise (insert_into now t vals).
Proof.
  intros d e d' H. unfold insert_into in H.
  destruct (d !! t); [|by injection H as _ <-].
  repeat match type of H with
         | (if ?b then _ else _) = _ => destruct b
         end; try discriminate; by injection H as _ <-.
Qed.

(** A failed operation answers [False] and has changed nothing. *)
Definition fails_cleanly (f : dict -> M bool) : Prop :=
  forall (data : dict) (d : db),
    exists (b : bool) (d' : db),
      f data d = (Returned b, d') /\ (b = false -> d' = d).

Lemma returns_true_unless_raised_clean (body : M unit) (d : db) :
  keeps_on_raise body ->
  exists (b : bool) (d' : db),
    returns_true_unless_raised body d = (Returned b, d') /\ (b = false -> d' = d).
Proof.
  intros H. unfold returns_true_unless_raised.
  destruct (body d) as [[u|e] d'] eqn:E.
  - exists true, d'. split; [done|discriminate].
  - exists false, d'. split; [done|]. intros _. by apply (H d e).
Qed.

Ltac on_raise_tac :=
  repeat first
    [ apply on_raise_update_where
    | apply on_raise_update_set_where
    | apply on_raise_insert_into
    | apply on_raise_raise
    | apply on_raise_bind; [first [apply readonly_getitem | apply readonly_getitems
                               | apply readonly_select_where] | intros ?] ].

Lemma readonly_preserve_gender_percentages (md : dict) :
  readonly (preserve_gender_percentages md).
Proof.
  intros d. unfold preserve_gender_percentages.
  destruct (_ || _); [|done].
  unfold bind. pose proof (getitem_state md "id" d) as S.
  destruct (getitem md "id" d) as [[id|e] d1]; cbn in S; subst d1; [|done].
  pose proof (readonly_select_where "hub_metrics"
                ["female_percent"; "male_percent"; "other_gender_percent"; "id"]
                (fun r => sql_eq (cell r "id") id) d) as S.
  destruct (select_where _ _ _ d) as [[found|e] d1]; cbn in S; subst d1; [|done].
  by destruct found.
Qed.

Lemma add_client_metric_clean (now : string) : fails_cleanly (add_client_metric now).
Proof. intros data d. apply returns_true_unless_raised_clean. on_raise_tac. Qed.

(** X5.  The five repository operations never raise: each returns a
    boolean, and when it is [False] the store is exactly as it was before
    the call. *)
Theorem operations_fail_cleanly :
  forall now : string,
    fails_cleanly (update_hub_metrics now) /\
    fails_cleanly (update_hub_capability now) /\
    fails_cleanly (update_client_metric now) /\
    fails_cleanly (update_people_metric now) /\
    fails_cleanly (add_client_metric now).
Proof.
  intros now. repeat split; [| | | |apply add_client_metric_clean];
    intros data d; apply returns_true_unless_raised_clean.
  - apply on_raise_bind; [apply readonly_preserve_gender_percentages|intros ?]. on_raise_tac.
  - destruct (has_key data "headcount"); on_raise_tac.
  - on_raise_tac.
  - destruct (has_key data "hiring_reason"); on_raise_tac.
Qed.


(** *** The effect of a successful update *)

Lemma bind_inv {A B} (m : M A) (k : A -> M B) (d d' : db) (b : B) :
  bind m k d = (Returned b, d') ->
  exists a d1, m d = (Returned a, d1) /\ k a d1 = (Returned b, d').
Proof.
  unfold bind. destruct (m d) as [[a|e] d1]; [eauto|discriminate].
Qed.

Lemma returns_true_inv (body : M unit) (d d' : db) :
  returns_true_unless_raised body d = (Returned true, d') ->
  body d = (Returned tt, d').
Proof.
  unfold returns_true_unless_raised.
  destruct (body d) as [[[]|e] d1]; intros H; [by injection H as <-|discriminate].
Qed.

Lemma lookup_assign_other (sets : list (string * value)) (r : row) (k : string) :
  k ∉ map fst sets -> assign sets r !! k = r !! k.
Proof.
  revert r. induction sets as [|[k' v] sets IH]; intros r Hk; [done|].
  rewrite assign_cons. cbn in Hk. apply not_elem_of_cons in Hk as [Hne Hk].
  rewrite IH by done. cbn. by rewrite lookup_insert_ne.
Qed.

Lemma cell_insert_eq (r : row) (k : string) (v : value) : cell (<[k := v]> r) k = v.
Proof. unfold cell. by rewrite lookup_insert_eq. Qed.

Lemma cell_insert_ne (r : row) (k k' : string) (v : value) :
  k <> k' -> cell (<[k := v]> r) k' = cell r k'.
Proof. intros H. unfold cell. by rewrite lookup_insert_ne. Qed.

(** Membership of a literal name in a literal list of names. *)
Ltac in_names := apply mem_true; reflexivity.
Ltac not_in_names :=
  let H := fresh in
  intros H; apply mem_true in H; vm_compute in H; discriminate H.

Lemma assign_nil (r : row) : assign [] r = r.
Proof. reflexivity. Qed.

Ltac cells :=
  repeat first [ rewrite assign_app | rewrite assign_cons | rewrite assign_nil ];
  cbn [fst snd];
  repeat first [ rewrite cell_insert_eq | rewrite cell_insert_ne by discriminate ].

Lemma Forall2_map_self {A B} (g : A -> B) (l : list A) :
  Forall2 (fun x y => y = g x) l (map g l).
Proof. induction l; constructor; auto. Qed.

Lemma update_where_assign (t : string) (used : list string)
    (sets : list (string * value)) (cond : row -> bool) (d d' : db) :
  update_where t used (assign sets) cond d = (Returned tt, d') ->
  exists tb tb', d !! t = Some tb /\ d' = <[t := tb']> d /\
    columns tb' = columns tb /\ uniques tb' = uniques tb /\
    Forall2 (fun r r' => r' = if cond r then assign sets r else r) (rows tb) (rows tb').
Proof.
  intros H.
  apply update_where_spec in H as [(msg & H & _)|(tb & _ & Htb & _ & ->)]; [discriminate|].
  eexists tb, _. split; [done|]. split; [reflexivity|]. cbn.
  repeat split. apply Forall2_map_self.
Qed.

(** A checked statement that went through has rewritten the rows as the
    unchecked one does. *)
Lemma update_rows_returned (tb : table) (sets : list (string * value)) (cond : row -> bool)
    (done todo rows' : list row) :
  update_rows tb sets cond done todo = Returned rows' ->
  rows' = (done ++ map (fun r => if cond r then assign sets r else r) todo)%list.
Proof.
  revert done. induction todo as [|r rest IH]; intros done; cbn [update_rows map].
  - intros H. injection H as <-. by rewrite app_nil_r.
  - destruct (cond r).
    + cbv zeta. destruct (existsb _ (columns tb)); [discriminate|].
      destruct (existsb _ (["id"] :: uniques tb)); [discriminate|].
      intros H. rewrite (IH _ H). by rewrite <- app_assoc.
    + intros H. rewrite (IH _ H). by rewrite <- app_assoc.
Qed.

Lemma update_set_where_assign (t : string) (where_cols : list string)
    (sets : list (string * value)) (cond : row -> bool) (d d' : db) :
  update_set_where t where_cols sets cond d = (Returned tt, d') ->
  exists tb tb', d !! t = Some tb /\ d' = <[t := tb']> d /\
    columns tb' = columns tb /\ uniques tb' = uniques tb /\
    Forall2 (fun r r' => r' = if cond r then assign sets r else r) (rows tb) (rows tb').
Proof.
  unfold update_set_where. destruct (d !! t) as [tb|]; [|discriminate].
  destruct (negb _); [discriminate|].
  destruct (update_rows tb sets cond [] (rows tb)) as [rows'|e] eqn:U; [|discriminate].
  intros H. injection H as <-.
  eexists tb, _. split; [done|]. split; [reflexivity|]. cbn.
  repeat split. rewrite (update_rows_returned _ _ _ _ _ _ U). apply Forall2_map_self.
Qed.

Lemma preserve_gender_percentages_returned (md md' : dict) (d d1 : db) :
  preserve_gender_percentages md d = (Returned md', d1) ->
  d1 = d /\ md' !! "id" = md !! "id".
Proof.
  intros H. pose proof (readonly_preserve_gender_percentages md d) as S.
  rewrite H in S. cbn in S. split; [done|]. subst d1.
  unfold preserve_gender_percentages in H.
  destruct (_ || _); [|by injection H as <-].
  apply bind_inv in H as (id & d1 & _ & H).
  apply bind_inv in H as (found & d2 & _ & H).
  destruct found; injection H as <- _; by rewrite !setdefault_lookup.
Qed.

Section Effects.
Variable now : string.

(** X6.  A capability update without the key [headcount] takes the old
    percentage branch, whose statement has two placeholders for three
    parameters: it can only answer [False], and the store is untouched. *)
Theorem update_hub_capability_without_headcount :
  forall (capability_data : dict) (d : db),
    capability_data !! "headcount" = None ->
    update_hub_capability now capability_data d = (Returned false, d).
Proof.
  intros cd d H. unfold update_hub_capability, returns_true_unless_raised, has_key.
  rewrite H. unfold bind.
  pose proof (getitem_state cd "percentage" d) as S.
  destruct (getitem cd "percentage" d) as [[v|e] d1]; cbn in S; subst d1; [|done].
  pose proof (getitem_state cd "updated_by" d) as S.
  destruct (getitem cd "updated_by" d) as [[v'|e] d1]; cbn in S; subst d1; [|done].
  pose proof (getitem_state cd "id" d) as S.
  destruct (getitem cd "id" d) as [[v''|e] d1]; cbn in S; subst d1; done.
Qed.

(** X7.  A successful [update_people_metric] rewrites the table
    [people_metrics] only: the tables, the columns and the number and order
    of the rows are as before, a row whose [id] is not the one given is
    untouched, and a row with that [id] has the new value, the editor's name
    and the clock in both [updated_at] and [people_metric_updated_at], with
    every column other than those five as it was. *)
Theorem update_people_metric_effect :
  forall (metric_data : dict) (d d' : db),
    update_people_metric now metric_data d = (Returned true, d') ->
    exists (id v who : value) (tb tb' : table),
      metric_data !! "id" = Some id /\
      metric_data !! "metric_value" = Some v /\
      metric_data !! "updated_by" = Some who /\
      d !! "people_metrics" = Some tb /\ d' = <["people_metrics" := tb']> d /\
      columns tb' = columns tb /\ uniques tb' = uniques tb /\
      Forall2 (fun r r' =>
          if sql_eq (cell r "id") id
          then cell r' "metric_value" = v /\
               cell r' "updated_at" = VText now /\
               cell r' "updated_by" = who /\
               cell r' "people_metric_updated_at" = VText now /\
               (forall c, c ∉ ["metric_value"; "hiring_reason"; "updated_at";
                               "updated_by"; "people_metric_updated_at"] ->
                          r' !! c = r !! c)
          else r' = r) (rows tb) (rows tb').
Proof.
  intros md d d' H. apply returns_true_inv in H.
  destruct (has_key md "hiring_reason").
  - apply bind_inv in H as (v & d1 & Hv & H). apply getitem_returned in Hv as [-> Hv].
    apply bind_inv in H as (hr & d1 & Hr & H). apply getitem_returned in Hr as [-> Hr].
    apply bind_inv in H as (who & d1 & Hw & H). apply getitem_returned in Hw as [-> Hw].
    apply bind_inv in H as (id & d1 & Hi & H). apply getitem_returned in Hi as [-> Hi].
    apply update_set_where_assign in H as (tb & tb' & Htb & -> & Hc & Hu & Hrows).
    exists id, v, who, tb, tb'. repeat (split; [done|]).
    eapply Forall2_impl; [exact Hrows|]. intros r r' ->. cbv beta.
    destruct (sql_eq (cell r "id") id); [|done].
    unfold assign. cbn [foldl fst snd]. rewrite !cell_insert. cbn.
    repeat split. intros c Hc'.
    rewrite !lookup_insert_ne; [done|..]; intros <-; apply Hc'; in_names.
  - apply bind_inv in H as (v & d1 & Hv & H). apply getitem_returned in Hv as [-> Hv].
    apply bind_inv in H as (who & d1 & Hw & H). apply getitem_returned in Hw as [-> Hw].
    apply bind_inv in H as (id & d1 & Hi & H). apply getitem_returned in Hi as [-> Hi].
    apply update_set_where_assign in H as (tb & tb' & Htb & -> & Hc & Hu & Hrows).
    exists id, v, who, tb, tb'. repeat (split; [done|]).
    eapply Forall2_impl; [exact Hrows|]. intros r r' ->. cbv beta.
    destruct (sql_eq (cell r "id") id); [|done].
    unfold assign. cbn [foldl fst snd]. rewrite !cell_insert. cbn.
    repeat split. intros c Hc'.
    rewrite !lookup_insert_ne; [done|..]; intros <-; apply Hc'; in_names.
Qed.


(** X8.  [update_client_metric] writes [employee_count] on every call: a
    caller that leaves the key out resets the stored count to 0 (the gender
    percentages of [update_hub_metrics] are kept in that case; this count is
    not).  The matched rows also get the clock in [updated_at] and
    [client_updated_at]; the other rows are untouched. *)
Theorem update_client_metric_employee_count :
  forall (client_data : dict) (d d' : db),
    update_client_metric now client_data d = (Returned true, d') ->
    exists (id : value) (tb tb' : table),
      client_data !! "id" = Some id /\
      d !! "client_metrics" = Some tb /\ d' = <["client_metrics" := tb']> d /\
      columns tb' = columns tb /\ uniques tb' = uniques tb /\
      Forall2 (fun r r' =>
          if sql_eq (cell r "id") id
          then cell r' "employee_count" = default (VInt 0) (client_data !! "employee_count") /\
               (client_data !! "employee_count" = None -> cell r' "employee_count" = VInt 0) /\
               cell r' "updated_at" = VText now /\
               cell r' "client_updated_at" = VText now /\
               cell r' "id" = cell r "id" /\ cell r' "hub_id" = cell r "hub_id"
          else r' = r) (rows tb) (rows tb').
Proof.
  intros cd d d' H. apply returns_true_inv in H.
  apply bind_inv in H as (fields & d1 & Hf & H).
  apply getitems_returned in Hf as (-> & Hfst & _).
  apply bind_inv in H as (who & d1 & Hw & H). apply getitem_returned in Hw as [-> Hw].
  apply bind_inv in H as (id & d1 & Hi & H). apply getitem_returned in Hi as [-> Hi].
  apply update_set_where_assign in H as (tb & tb' & Htb & -> & Hc & Hu & Hrows).
  exists id, tb, tb'. repeat (split; [done|]).
  eapply Forall2_impl; [exact Hrows|]. intros r r' ->. cbv beta.
  destruct (sql_eq (cell r "id") id); [|done].
  cells.
  split; [done|]. split; [by intros ->|]. repeat (split; [done|]).
  rewrite !cell_assign_other; [done|..]; rewrite Hfst; not_in_names.
Qed.

(** X9.  A successful [update_hub_metrics] rewrites the table
    [hub_metrics] only, and in it only the rows with the given [id], on the
    twelve core fields, [updated_at], [updated_by] and the three optional
    fields: [id], [hub_id] and the fine-grained timestamps
    [metrics_updated_at], [location_updated_at] and
    [certifications_updated_at] of every row are as they were. *)
Theorem update_hub_metrics_frame :
  forall (metrics_data : dict) (d d' : db),
    update_hub_metrics now metrics_data d = (Returned true, d') ->
    exists (id : value) (tb tb' : table),
      metrics_data !! "id" = Some id /\
      d !! "hub_metrics" = Some tb /\ d' = <["hub_metrics" := tb']> d /\
      columns tb' = columns tb /\ uniques tb' = uniques tb /\
      Forall2 (fun r r' =>
          (sql_eq (cell r "id") id = false -> r' = r) /\
          (sql_eq (cell r "id") id = true -> cell r' "updated_at" = VText now) /\
          (forall c, c ∉ (hub_metrics_core_fields ++ ["updated_at"; "updated_by"]
                          ++ hub_metrics_optional_fields)%list -> r' !! c = r !! c) /\
          (forall c, c ∈ ["id"; "hub_id"; "metrics_updated_at"; "location_updated_at";
                          "certifications_updated_at"] -> r' !! c = r !! c))
        (rows tb) (rows tb').
Proof.
  intros md d d' H. apply returns_true_inv in H.
  apply bind_inv in H as (md' & d1 & Hp & H).
  apply preserve_gender_percentages_returned in Hp as [-> Hid'].
  apply bind_inv in H as (core & d1 & Hcore & H).
  apply getitems_returned in Hcore as (-> & Hcore & _).
  apply bind_inv in H as (who & d1 & Hw & H). apply getitem_returned in Hw as [-> Hw].
  apply bind_inv in H as (optional & d1 & Hopt & H).
  apply getitems_returned in Hopt as (-> & Hopt & _).
  apply bind_inv in H as (id & d1 & Hi & H). apply getitem_returned in Hi as [-> Hi].
  apply update_where_assign in H as (tb & tb' & Htb & -> & Hc & Hu & Hrows).
  exists id, tb, tb'. rewrite <- Hid'. repeat (split; [done|]).
  assert (Hkeys : forall c,
            c ∉ (hub_metrics_core_fields ++ ["updated_at"; "updated_by"]
                 ++ hub_metrics_optional_fields)%list ->
            c ∉ map fst (core ++ [("updated_at", VText now); ("updated_by", who)]
                         ++ optional)%list).
  { intros c Hc' Hin. apply Hc'. rewrite !map_app, Hcore, Hopt in Hin. cbn [map fst] in Hin.
    rewrite !elem_of_app in Hin. rewrite !elem_of_app.
    destruct Hin as [Hin|[Hin|Hin]]; [by left | by right; left |].
    right; right. by apply list_elem_of_filter in Hin as [_ Hin]. }
  eapply Forall2_impl; [exact Hrows|]. intros r r' ->. cbv beta.
  destruct (sql_eq (cell r "id") id); (split; [done|]); (split; [try done|]).
  - intros _. rewrite assign_app, (assign_app [_; _]).
    assert (Hnin : "updated_at" ∉ map fst optional).
    { rewrite Hopt. intros Hin. apply list_elem_of_filter in Hin as [_ Hin].
      revert Hin. not_in_names. }
    rewrite cell_assign_other by done. by cells.
  - split.
    + intros c Hc'. apply lookup_assign_other. by apply Hkeys.
    + intros c Hc'. apply lookup_assign_other. apply Hkeys.
      repeat (apply elem_of_cons in Hc' as [->|Hc']; [not_in_names|]).
      by apply not_elem_of_nil in Hc'.
  - done.
Qed.

(** X10.  Saving the staffing editor copies the bench count of its first
    row to [hub_metrics], whatever the count is, zero included: the rows of
    the hub get that count, the clock in [updated_at] and the editor's name,
    every other column of theirs is as it was (the fine-grained timestamps
    among them), and the rows of other hubs and the other tables are
    untouched.  When the statement raises nothing is changed. *)
Theorem save_bench_count_effect :
  forall (latest_row : staffing_row) (rest : list staffing_row)
         (current_hub : string) (hub_id : value) (d : db),
    exists (o : outcome unit) (d' : db),
      save_bench_count now (latest_row :: rest) current_hub hub_id d = (o, d') /\
      (forall e, o = Raised e -> d' = d) /\
      (o = Returned tt ->
       exists (tb tb' : table),
         d !! "hub_metrics" = Some tb /\ d' = <["hub_metrics" := tb']> d /\
         columns tb' = columns tb /\ uniques tb' = uniques tb /\
         Forall2 (fun r r' =>
             if sql_eq (cell r "hub_id") hub_id
             then cell r' "bench_count" = Bench_Count latest_row /\
                  cell r' "updated_at" = VText now /\
                  cell r' "updated_by" = VText current_hub /\
                  (forall c, c ∉ ["bench_count"; "updated_at"; "updated_by"] ->
                             r' !! c = r !! c)
             else r' = r) (rows tb) (rows tb')).
Proof.
  intros latest rest hub hub_id d. unfold save_bench_count.
  match goal with |- context [update_where ?t ?u ?f ?c d] =>
    destruct (update_where t u f c d) as [o d'] eqn:U
  end.
  exists o, d'. split; [done|]. split.
  - intros e ->. by apply on_raise_update_where in U.
  - intros ->. apply update_where_assign in U as (tb & tb' & Htb & -> & Hc & Hu & Hrows).
    exists tb, tb'. repeat (split; [done|]).
    eapply Forall2_impl; [exact Hrows|]. intros r r' ->. cbv beta.
    destruct (sql_eq (cell r "hub_id") hub_id); [|done].
    unfold assign. cbn [foldl fst snd]. rewrite !cell_insert. cbn.
    repeat split. intros c Hc'.
    rewrite !lookup_insert_ne; [done|..]; intros <-; apply Hc'; in_names.
Qed.


(** X25.  A successful [update_hub_capability] (the caller gave
    [headcount]) rewrites the table [hub_capabilities] only: a row whose [id]
    is not the one given is untouched, and a row with that [id] has the new
    headcount, the editor's name and the clock in both [updated_at] and
    [capability_updated_at], with every other column as it was. *)
Theorem update_hub_capability_effect :
  forall (capability_data : dict) (d d' : db),
    update_hub_capability now capability_data d = (Returned true, d') ->
    exists (id headcount who : value) (tb tb' : table),
      capability_data !! "id" = Some id /\
      capability_data !! "headcount" = Some headcount /\
      capability_data !! "updated_by" = Some who /\
      d !! "hub_capabilities" = Some tb /\ d' = <["hub_capabilities" := tb']> d /\
      columns tb' = columns tb /\ uniques tb' = uniques tb /\
      Forall2 (fun r r' =>
          if sql_eq (cell r "id") id
          then cell r' "headcount" = headcount /\
               cell r' "updated_at" = VText now /\
               cell r' "updated_by" = who /\
               cell r' "capability_updated_at" = VText now /\
               (forall c, c ∉ ["headcount"; "updated_at"; "updated_by";
                               "capability_updated_at"] -> r' !! c = r !! c)
          else r' = r) (rows tb) (rows tb').
Proof.
  intros cd d d' H.
  apply returns_true_inv in H. unfold has_key in H.
  destruct (cd !! "headcount") as [hc0|] eqn:Hhc.
  2:{ apply bind_inv in H as (? & d1 & _ & H). apply bind_inv in H as (? & d2 & _ & H).
      apply bind_inv in H as (? & d3 & _ & H). discriminate H. }
  apply bind_inv in H as (hc & d1 & Hv & H). apply getitem_returned in Hv as [-> Hv].
  apply bind_inv in H as (who & d1 & Hw & H). apply getitem_returned in Hw as [-> Hw].
  apply bind_inv in H as (id & d1 & Hi & H). apply getitem_returned in Hi as [-> Hi].
  apply update_where_assign in H as (tb & tb' & Htb & -> & Hc & Hu & Hrows).
  exists id, hc, who, tb, tb'. rewrite Hhc in Hv. repeat (split; [done|]).
  eapply Forall2_impl; [exact Hrows|]. intros r r' ->. cbv beta.
  destruct (sql_eq (cell r "id") id); [|done].
  unfold assign. cbn [foldl fst snd]. rewrite !cell_insert. cbn.
  repeat split. intros c Hc'.
  rewrite !lookup_insert_ne; [done|..]; intros <-; apply Hc'; in_names.
Qed.

(** X26.  [Save Gender Data] writes to [hub_metrics] only behind its
    guard and only in the rows of the hub.  With a [Total] that is not
    positive in the first row of the editor nothing is written.  With a
    positive [Total], a statement that goes through leaves the tables, the
    columns and the number and order of the rows as they were; a row of
    another hub is untouched; a row of the hub has the clock in [updated_at]
    and the editor's name in [updated_by], and every column other than the
    three percentages and those two as it was, the fine-grained timestamps
    among them.  When the statement raises, nothing is changed. *)
Theorem save_gender_percentages_effect :
  forall (latest_row : gender_row) (rest : list gender_row)
         (current_hub : string) (hub_id : value) (d : db),
    exists (o : outcome unit) (d' : db),
      save_gender_percentages now (latest_row :: rest) current_hub hub_id d = (o, d') /\
      (Total latest_row <= 0 -> o = Returned tt /\ d' = d) /\
      (forall e, o = Raised e -> d' = d) /\
      (0 < Total latest_row -> o = Returned tt ->
       exists (tb tb' : table),
         d !! "hub_metrics" = Some tb /\ d' = <["hub_metrics" := tb']> d /\
         columns tb' = columns tb /\ uniques tb' = uniques tb /\
         Forall2 (fun r r' =>
             if sql_eq (cell r "hub_id") hub_id
             then cell r' "updated_at" = VText now /\
                  cell r' "updated_by" = VText current_hub /\
                  (forall c, c ∉ ["female_percent"; "male_percent"; "other_gender_percent";
                                  "updated_at"; "updated_by"] -> r' !! c = r !! c)
             else r' = r) (rows tb) (rows tb')).
Proof.
  intros latest rest hub hub_id d. unfold save_gender_percentages.
  destruct (Z.gtb_spec (Total latest) 0) as [Hpos|Hle].
  2:{ exists (Returned tt), d. repeat split; try done; intros; try discriminate; lia. }
  destruct (percent (Female latest) (Total latest)) as [f|e] eqn:Hf.
  2:{ exists (Raised e), d. unfold bind, lift.
      repeat split; try done; intros; try discriminate; lia. }
  destruct (percent (Male latest) (Total latest)) as [m|e] eqn:Hm.
  2:{ exists (Raised e), d. unfold bind, lift.
      repeat split; try done; intros; try discriminate; lia. }
  destruct (percent (Other_Gender latest) (Total latest)) as [o|e] eqn:Ho.
  2:{ exists (Raised e), d. unfold bind, lift.
      repeat split; try done; intros; try discriminate; lia. }
  unfold bind, lift.
  match goal with |- context [update_where ?t ?u ?g ?c d] =>
    destruct (update_where t u g c d) as [res d'] eqn:U
  end.
  exists res, d'. split; [done|]. split; [lia|]. split.
  - intros e ->. by apply on_raise_update_where in U.
  - intros _ ->.
    apply update_where_assign in U as (tb & tb' & Htb & -> & Hc & Hu & Hrows).
    exists tb, tb'. repeat (split; [done|]).
    eapply Forall2_impl; [exact Hrows|]. intros r r' ->. cbv beta.
    destruct (sql_eq (cell r "hub_id") hub_id); [|done].
    unfold assign. cbn [foldl fst snd]. rewrite !cell_insert. cbn.
    repeat split. intros c Hc'.
    rewrite !lookup_insert_ne; [done|..]; intros <-; apply Hc'; in_names.
Qed.

(** *** Inserting a row *)

(** The row [INSERT] builds from the values it is given. *)
Definition new_row (tb : table) (vals : list (string * value)) : row :=
  let names := map c_name (columns tb) in
  let base : row :=
    list_to_map (map (fun c => (c_name c, default_value now (c_default c))) (columns tb)) in
  let r0 := assign vals base in
  if mem "id" names && is_null (cell r0 "id")
  then <["id" := VInt (next_id (rows tb))]> r0 else r0.

Lemma insert_into_eq (t : string) (vals : list (string * value)) (d : db) :
  insert_into now t vals d =
    match d !! t with
    | None => (Raised (no_such_table t), d)
    | Some tb =>
        if negb (forallb (fun kv => mem (fst kv) (map c_name (columns tb))) vals)
        then (Raised (OperationalError "table has no such column"), d)
        else if existsb (fun c => c_notnull c && is_null (cell (new_row tb vals) (c_name c)))
                        (columns tb)
        then (Raised (IntegrityError "NOT NULL constraint failed"), d)
        else if existsb (fun key => existsb (same_key key (new_row tb vals)) (rows tb))
                        (["id"] :: uniques tb)
        then (Raised (IntegrityError "UNIQUE constraint failed"), d)
        else (Returned tt,
              <[t := mk_table (columns tb) (uniques tb) (rows tb ++ [new_row tb vals])]> d)
    end.
Proof. reflexivity. Qed.

Lemma insert_into_returned (t : string) (vals : list (string * value)) (d d' : db) :
  insert_into now t vals d = (Returned tt, d') ->
  exists tb, d !! t = Some tb /\
    existsb (fun key => existsb (same_key key (new_row tb vals)) (rows tb))
            (["id"] :: uniques tb) = false /\
    d' = <[t := mk_table (columns tb) (uniques tb) (rows tb ++ [new_row tb vals])]> d.
Proof.
  rewrite insert_into_eq. destruct (d !! t) as [tb|]; [|discriminate].
  destruct (negb _); [discriminate|].
  destruct (existsb _ (columns tb)); [discriminate|].
  destruct (existsb _ (["id"] :: uniques tb)) eqn:U; [discriminate|].
  intros H. injection H as <-. eauto.
Qed.

Lemma insert_into_succeeds (t : string) (vals : list (string * value)) (d : db) (tb : table) :
  d !! t = Some tb ->
  forallb (fun kv => mem (fst kv) (map c_name (columns tb))) vals = true ->
  existsb (fun c => c_notnull c && is_null (cell (new_row tb vals) (c_name c)))
          (columns tb) = false ->
  existsb (fun key => existsb (same_key key (new_row tb vals)) (rows tb))
          (["id"] :: uniques tb) = false ->
  insert_into now t vals d =
    (Returned tt,
     <[t := mk_table (columns tb) (uniques tb) (rows tb ++ [new_row tb vals])]> d).
Proof.
  intros Htb Hn Hnn Hu. rewrite insert_into_eq, Htb.
  rewrite Hn. cbn [negb]. rewrite Hnn, Hu. reflexivity.
Qed.

Lemma sql_eq_sym (a b : value) : sql_eq a b = sql_eq b a.
Proof.
  destruct a, b; cbn; try reflexivity.
  - apply Z.eqb_sym.
  - rewrite Z.eqb_sym. reflexivity.
  - apply String.eqb_sym.
Qed.

Lemma existsb_elem {A} (f : A -> bool) (l : list A) (x : A) :
  x ∈ l -> f x = true -> existsb f l = true.
Proof.
  intros Hx Hf. apply existsb_exists. exists x. split; [by apply list_elem_of_In|done].
Qed.

Lemma cell_new_row_other (tb : table) (vals : list (string * value)) (c : string) :
  c <> "id" ->
  cell (new_row tb vals) c =
    cell (assign vals (list_to_map
            (map (fun c => (c_name c, default_value now (c_default c))) (columns tb)))) c.
Proof.
  intros Hc. unfold new_row. cbv zeta.
  destruct (_ && _); [|done]. by rewrite cell_insert_ne.
Qed.

(** X11.  [add_client_metric] cannot create a second relationship with
    the same hub and client name: when such a row is there, the call answers
    [False] and the store is exactly as before. *)
Theorem add_client_metric_duplicate_rejected :
  forall (client_data : dict) (d : db) (tb : table) (r : row) (hub_id client_name : value),
    d !! "client_metrics" = Some tb ->
    ["hub_id"; "client_name"] ∈ uniques tb ->
    r ∈ rows tb ->
    client_data !! "hub_id" = Some hub_id ->
    client_data !! "client_name" = Some client_name ->
    sql_eq (cell r "hub_id") hub_id = true ->
    sql_eq (cell r "client_name") client_name = true ->
    add_client_metric now client_data d = (Returned false, d).
Proof.
  intros cd d tb r h n Htb Hu Hr Hh Hn Eh En.
  destruct (add_client_metric_clean now cd d) as (b & d' & E & Hclean).
  rewrite E. destruct b; [exfalso|by rewrite Hclean].
  apply returns_true_inv in E.
  apply bind_inv in E as (fields & d1 & Hf & E).
  apply getitems_returned in Hf as (-> & Hfst & Hagree).
  apply bind_inv in E as (who & d1 & Hw & E). apply getitem_returned in Hw as [-> Hw].
  apply insert_into_returned in E as (tb0 & Htb0 & Huniq & _).
  rewrite Htb in Htb0. injection Htb0 as <-.
  cbn [existsb] in Huniq. apply orb_false_elim in Huniq as [_ Huniq].
  rewrite (existsb_elem _ _ ["hub_id"; "client_name"] Hu) in Huniq; [discriminate|].
  apply (existsb_elem _ _ r Hr). unfold same_key. cbn [forallb].
  rewrite !cell_new_row_other by discriminate.
  rewrite !assign_app.
  rewrite !(cell_assign_other [_; _; _]) by not_in_names.
  rewrite (cell_assign_agree cd fields _ "hub_id" h Hagree ltac:(rewrite Hfst; in_names) Hh).
  rewrite (cell_assign_agree cd fields _ "client_name" n Hagree ltac:(rewrite Hfst; in_names) Hn).
  rewrite (sql_eq_sym h), (sql_eq_sym n), Eh, En. reflexivity.
Qed.


Lemma next_id_above (rs : list row) (r : row) (n : Z) :
  r ∈ rs -> cell r "id" = VInt n -> n < next_id rs.
Proof.
  unfold next_id. induction rs as [|r0 rs IH]; intros Hr Hn.
  - by apply not_elem_of_nil in Hr.
  - cbn [map fold_right]. apply elem_of_cons in Hr as [->|Hr].
    + rewrite Hn. lia.
    + specialize (IH Hr Hn). lia.
Qed.

Lemma existsb_false {A} (f : A -> bool) (l : list A) :
  Forall (fun x => f x = false) l -> existsb f l = false.
Proof. induction 1 as [|x l Hx _ IH]; cbn; [done|]. by rewrite Hx, IH. Qed.

Lemma filter_none (cond : row -> bool) (l : list row) :
  Forall (fun r => cond r = false) l -> filter cond l = [].
Proof.
  induction 1 as [|x l Hx _ IH]; [done|].
  rewrite filter_cons, IH. destruct (decide (cond x)) as [H|H]; [|done].
  rewrite Hx in H. done.
Qed.

(** A capability with that hub and name is already there. *)
Lemma add_capability_existing
    (current_hub : string) (hub_id : Z) (name category : string) (headcount : Z)
    (d : db) (tb : table) (r : row) :
  name <> "" ->
  d !! "hub_capabilities" = Some tb ->
  forallb (fun c => mem c (map c_name (columns tb))) ["id"; "hub_id"; "capability_name"] = true ->
  r ∈ rows tb ->
  sql_eq (cell r "hub_id") (VInt hub_id) && sql_eq (cell r "capability_name") (VText name) = true ->
  add_capability now current_hub hub_id name category headcount d =
    (Returned (Some (st_error ("Service '" ++ name ++ "' already exists for this hub"))), d).
Proof.
  intros Hname Htb Hcols Hr Hcond. unfold add_capability.
  destruct (String.eqb_spec name "") as [->|_]; [done|].
  unfold bind, select_where. rewrite Htb, Hcols. cbn [negb].
  destruct (filter _ (rows tb)) as [|r1 rs] eqn:E; [|reflexivity].
  exfalso.
  assert (Hin : r ∈ filter (fun r => sql_eq (cell r "hub_id") (VInt hub_id)
                  && sql_eq (cell r "capability_name") (VText name)) (rows tb)).
  { apply list_elem_of_filter. split; [by apply Is_true_true|done]. }
  rewrite E in Hin. by apply not_elem_of_nil in Hin.
Qed.

(** The form on a capability the hub does not have yet. *)
Lemma add_capability_appends
    (current_hub : string) (hub_id : Z) (name category : string) (headcount : Z)
    (d : db) (tb : table) :
  name <> "" ->
  d !! "hub_capabilities" = Some tb ->
  columns tb = Setup.hub_capabilities_columns ->
  uniques tb = [["hub_id"; "capability_name"]] ->
  Forall (fun r => exists n, cell r "id" = VInt n) (rows tb) ->
  Forall (fun r => sql_eq (cell r "hub_id") (VInt hub_id)
                   && sql_eq (cell r "capability_name") (VText name) = false) (rows tb) ->
  exists (r : row),
    add_capability now current_hub hub_id name category headcount d =
      (Returned (Some (st_success ("Added '" ++ name ++ "' to hub capabilities!"))),
       <["hub_capabilities" := mk_table (columns tb) (uniques tb) (rows tb ++ [r])]> d) /\
    cell r "id" = VInt (next_id (rows tb)) /\
    cell r "hub_id" = VInt hub_id /\
    cell r "capability_name" = VText name /\
    cell r "capability_category" = VText category /\
    cell r "headcount" = VInt headcount /\
    cell r "updated_at" = VText now /\
    cell r "updated_by" = VText current_hub /\
    cell r "capability_updated_at" = VText now.
Proof.
  intros Hname Htb Hcols Huniq Hids Hfresh.
  rename current_hub into hub, category into cat, headcount into hc.
  set (vals := [ ("hub_id", VInt hub_id); ("capability_name", VText name);
                 ("capability_category", VText cat); ("headcount", VInt hc);
                 ("updated_at", VText now); ("updated_by", VText hub);
                 ("capability_updated_at", VText now) ]).
  set (r := new_row tb vals).
  assert (Hcell : forall c v,
            cell (<["id" := VInt (next_id (rows tb))]>
                    (assign vals (list_to_map
                       (map (fun c => (c_name c, default_value now (c_default c)))
                            Setup.hub_capabilities_columns)))) c = v ->
            cell r c = v).
  { intros c v <-. unfold r, new_row. rewrite Hcols. reflexivity. }
  assert (Hid : cell r "id" = VInt (next_id (rows tb))) by (apply Hcell; reflexivity).
  assert (Hhub : cell r "hub_id" = VInt hub_id) by (apply Hcell; reflexivity).
  assert (Hnm : cell r "capability_name" = VText name) by (apply Hcell; reflexivity).
  assert (Hcat : cell r "capability_category" = VText cat) by (apply Hcell; reflexivity).
  exists r. split; [|repeat split; by apply Hcell].
  unfold add_capability.
  destruct (String.eqb_spec name "") as [->|_]; [done|].
  assert (Hf : forallb (fun c => mem c (map c_name Setup.hub_capabilities_columns))
                 ["id"; "hub_id"; "capability_name"] = true) by reflexivity.
  unfold bind at 1. unfold select_where. rewrite Htb, Hcols, Hf.
  cbn [negb]. rewrite (filter_none _ _ Hfresh).
  unfold bind. fold vals.
  rewrite (insert_into_succeeds "hub_capabilities" vals d tb Htb).
  - rewrite Hcols. reflexivity.
  - rewrite Hcols. reflexivity.
  - fold r. rewrite Hcols. unfold Setup.hub_capabilities_columns.
    cbn [existsb c_notnull c_name Setup.col Setup.col_notnull Setup.col_default
         Setup.col_timestamp andb orb].
    rewrite Hhub, Hnm, Hcat. reflexivity.
  - fold r. rewrite Huniq. cbn [existsb]. rewrite orb_false_r.
    apply orb_false_intro; apply existsb_false.
    + apply Forall_forall. intros x Hx.
      destruct (proj1 (Forall_forall _ _) Hids x Hx) as [n Hn].
      unfold same_key. cbn [forallb]. rewrite Hid, Hn. cbn.
      pose proof (next_id_above _ _ _ Hx Hn).
      rewrite andb_true_r. apply Z.eqb_neq. lia.
    + eapply Forall_impl; [exact Hfresh|]. intros x Hx. cbv beta in Hx.
      unfold same_key. cbn [forallb]. rewrite Hhub, Hnm, andb_true_r.
      by rewrite (sql_eq_sym (VInt hub_id)), (sql_eq_sym (VText name)).
Qed.

(** X12.  Adding a capability the hub does not have yet, to the table as
    [setup_database] creates it: the form reports success, exactly one row is
    appended and the others are as they were, the new row has the next [id],
    the hub, name, category and headcount given, and the clock in
    [updated_at] and [capability_updated_at].  Submitting the same form once
    more is then rejected and changes nothing. *)
Theorem add_capability_fresh :
  forall (current_hub : string) (hub_id : Z) (name category : string) (headcount : Z)
         (d : db) (tb : table),
    name <> "" ->
    d !! "hub_capabilities" = Some tb ->
    columns tb = Setup.hub_capabilities_columns ->
    uniques tb = [["hub_id"; "capability_name"]] ->
    Forall (fun r => exists n, cell r "id" = VInt n) (rows tb) ->
    Forall (fun r => sql_eq (cell r "hub_id") (VInt hub_id)
                     && sql_eq (cell r "capability_name") (VText name) = false) (rows tb) ->
    exists (r : row),
      let d' := <["hub_capabilities" :=
                    mk_table (columns tb) (uniques tb) (rows tb ++ [r])]> d in
      add_capability now current_hub hub_id name category headcount d =
        (Returned (Some (st_success ("Added '" ++ name ++ "' to hub capabilities!"))), d') /\
      cell r "id" = VInt (next_id (rows tb)) /\
      cell r "hub_id" = VInt hub_id /\
      cell r "capability_name" = VText name /\
      cell r "capability_category" = VText category /\
      cell r "headcount" = VInt headcount /\
      cell r "updated_at" = VText now /\
      cell r "updated_by" = VText current_hub /\
      cell r "capability_updated_at" = VText now /\
      add_capability now current_hub hub_id name category headcount d' =
        (Returned (Some (st_error ("Service '" ++ name ++ "' already exists for this hub"))), d').
Proof.
  intros hub hub_id name cat hc d tb Hname Htb Hcols Huniq Hids Hfresh.
  destruct (add_capability_appends hub hub_id name cat hc d tb
              Hname Htb Hcols Huniq Hids Hfresh)
    as (r & Hadd & Hid & Hhub & Hnm & Hcat & Hhc & Hat & Hby & Hcap).
  exists r. cbv zeta. repeat (split; [assumption|]).
  apply (add_capability_existing hub hub_id name cat hc _
           (mk_table (columns tb) (uniques tb) (rows tb ++ [r])) r Hname).
  - apply lookup_insert_eq.
  - cbn [columns]. rewrite Hcols. reflexivity.
  - cbn [rows]. apply elem_of_app. right. by apply list_elem_of_singleton.
  - rewrite Hhub, Hnm. cbn. by rewrite Z.eqb_refl, String.eqb_refl.
Qed.

End Effects.

End FormsFacts.

(** ** The operations on one-row stores *)

Module FormsExamples.
Import Store Setup Repository Forms StoreFacts RepositoryFacts RepositoryExamples FormsFacts.

Definition clock : string := "2025-06-01 00:00:00".

(** One bench count of hub 1. *)
Definition bench_row : row :=
  list_to_map
    [ ("id", VInt 1); ("hub_id", VInt 1); ("metric_name", VText "Bench Count");
      ("metric_value", VInt 4); ("metric_category", VText "Staffing");
      ("time_period", VText "Jan 2025"); ("hiring_reason", VNull);
      ("updated_at", VText "2025-01-01 00:00:00"); ("updated_by", VNull);
      ("people_metric_updated_at", VText "2025-01-01 00:00:00") ].

Definition people_store : db :=
  {[ "people_metrics" :=
       mk_table people_metrics_columns
         [["hub_id"; "metric_name"; "time_period"; "hiring_reason"]] [bench_row] ]}.

Definition bench_change : dict :=
  list_to_map [ ("id", VInt 1); ("metric_value", VInt 7); ("updated_by", VText "AKQA") ].

(** One client of hub 1, in the table after its columns were added. *)
Definition client_row : row :=
  list_to_map
    [ ("id", VInt 1); ("hub_id", VInt 1); ("client_name", VText "Client 1");
      ("engagement_status", VText "Active"); ("commercial_model", VText "FTE");
      ("capability_category", VText "CX+"); ("capability_name", VText "CRM");
      ("relationship_duration", VText "1-2 years"); ("scope_summary", VNull);
      ("updated_at", VText "2025-01-01 00:00:00"); ("updated_by", VNull);
      ("employee_count", VInt 25); ("client_updated_at", VText "2025-01-01 00:00:00") ].

Definition client_table : table :=
  mk_table (client_metrics_columns ++
            [col_default "employee_count" (VInt 0); col "client_updated_at"])%list
           [["hub_id"; "client_name"]] [client_row].

Definition client_store : db := {[ "client_metrics" := client_table ]}.

(** What the edit form sends: every field but [employee_count]. *)
Definition client_change : dict :=
  list_to_map
    [ ("id", VInt 1); ("hub_id", VInt 1); ("client_name", VText "Client 1");
      ("engagement_status", VText "On hold"); ("commercial_model", VText "FTE");
      ("capability_category", VText "CX+"); ("capability_name", VText "CRM");
      ("relationship_duration", VText "1-2 years"); ("scope_summary", VText "CRM run");
      ("updated_by", VText "AKQA") ].

(** A second client of hub 1. *)
Definition second_client_row : row :=
  <["id" := VInt 2]> (<["client_name" := VText "Client 2"]> client_row).

Definition two_clients_store : db :=
  {[ "client_metrics" :=
       mk_table (columns client_table) (uniques client_table)
                [client_row; second_client_row] ]}.

(** Renaming client 2 to the name of client 1 of the same hub breaks
    [UNIQUE(hub_id, client_name)]: the [UPDATE] raises, the function answers
    [False] and the table is as it was.  So does an update that puts [None]
    in [client_name], which is [NOT NULL]. *)
Lemma update_client_metric_rename_refused :
  update_client_metric clock (<["id" := VInt 2]> client_change) two_clients_store
    = (Returned false, two_clients_store) /\
  update_client_metric clock
      (<["client_name" := VNull]> (<["id" := VInt 2]> client_change)) two_clients_store
    = (Returned false, two_clients_store) /\
  exists d',
    update_client_metric clock
        (<["client_name" := VText "Client 3"]> (<["id" := VInt 2]> client_change))
        two_clients_store
      = (Returned true, d') /\
    map (fun r => cell r "client_name") (from_option rows [] (d' !! "client_metrics"))
      = [VText "Client 1"; VText "Client 3"].
Proof.
  split; [vm_compute; reflexivity|]. split; [vm_compute; reflexivity|].
  eexists. split; [reflexivity | vm_compute; reflexivity].
Qed.

Lemma update_hub_capability_without_headcount_witness :
  update_hub_capability clock
    (list_to_map [("id", VInt 1); ("percentage", VInt 50); ("updated_by", VText "AKQA")])
    seo_store = (Returned false, seo_store).
Proof.
  apply (update_hub_capability_without_headcount clock
           (list_to_map [("id", VInt 1); ("percentage", VInt 50); ("updated_by", VText "AKQA")])
           seo_store).
  reflexivity.
Defined.

Lemma update_hub_capability_effect_witness :
  exists (d' : db) (tb' : table),
    update_hub_capability clock
      (list_to_map [("id", VInt 1); ("headcount", VInt 20); ("updated_by", VText "AKQA")])
      seo_store = (Returned true, d') /\
    d' = <["hub_capabilities" := tb']> seo_store.
Proof.
  assert (E : update_hub_capability clock
                (list_to_map [("id", VInt 1); ("headcount", VInt 20);
                              ("updated_by", VText "AKQA")]) seo_store =
              (Returned true,
               snd (update_hub_capability clock
                      (list_to_map [("id", VInt 1); ("headcount", VInt 20);
                                    ("updated_by", VText "AKQA")]) seo_store)))
    by (vm_compute; reflexivity).
  destruct (update_hub_capability_effect clock _ seo_store _ E)
    as (id & hc & who & tb & tb' & _ & _ & _ & _ & Hd & _).
  eexists _, tb'. split; [exact E | exact Hd].
Defined.

Lemma update_people_metric_effect_witness :
  exists (d' : db) (tb' : table),
    update_people_metric clock bench_change people_store = (Returned true, d') /\
    d' = <["people_metrics" := tb']> people_store.
Proof.
  assert (E : update_people_metric clock bench_change people_store =
              (Returned true, snd (update_people_metric clock bench_change people_store)))
    by (vm_compute; reflexivity).
  destruct (update_people_metric_effect clock bench_change people_store _ E)
    as (id & v & who & tb & tb' & _ & _ & _ & _ & Hd & _).
  exists (snd (update_people_metric clock bench_change people_store)), tb'.
  split; [exact E | exact Hd].
Defined.

Lemma update_client_metric_employee_count_witness :
  exists (d' : db) (tb' : table),
    update_client_metric clock client_change client_store = (Returned true, d') /\
    d' = <["client_metrics" := tb']> client_store /\
    Forall (fun r' => cell r' "employee_count" = VInt 0) (rows tb').
Proof.
  assert (E : update_client_metric clock client_change client_store =
              (Returned true, snd (update_client_metric clock client_change client_store)))
    by (vm_compute; reflexivity).
  destruct (update_client_metric_employee_count clock client_change client_store _ E)
    as (id & tb & tb' & Hid & Htb & Hd & _ & _ & Hrows).
  exists (snd (update_client_metric clock client_change client_store)), tb'.
  split; [exact E|]. split; [exact Hd|].
  injection Hid as <-. injection Htb as <-. cbn [rows client_table] in Hrows.
  inversion Hrows as [|r r' l l' Hr Hl E1 E2]; subst.
  inversion Hl; subst. constructor; [|constructor].
  change (sql_eq (cell client_row "id") (VInt 1)) with true in Hr.
  destruct Hr as (_ & Hr & _). apply Hr. reflexivity.
Defined.

Lemma update_hub_metrics_frame_witness :
  exists (d' : db) (tb' : table),
    update_hub_metrics clock location_change metrics_store = (Returned true, d') /\
    d' = <["hub_metrics" := tb']> metrics_store.
Proof.
  assert (E : update_hub_metrics clock location_change metrics_store =
              (Returned true, snd (update_hub_metrics clock location_change metrics_store)))
    by (vm_compute; reflexivity).
  destruct (update_hub_metrics_frame clock location_change metrics_store _ E)
    as (id & tb & tb' & _ & _ & Hd & _).
  exists (snd (update_hub_metrics clock location_change metrics_store)), tb'.
  split; [exact E | exact Hd].
Defined.

Lemma add_client_metric_duplicate_rejected_witness :
  add_client_metric clock client_change client_store = (Returned false, client_store).
Proof.
  apply (add_client_metric_duplicate_rejected clock client_change client_store
           client_table client_row (VInt 1) (VText "Client 1")).
  - reflexivity.
  - left.
  - left.
  - reflexivity.
  - reflexivity.
  - reflexivity.
  - reflexivity.
Defined.

Lemma add_capability_fresh_witness :
  exists (r : row),
    add_capability clock "AKQA" 1 "CRM" "CX+" 6 seo_store =
      (Returned (Some (st_success "Added 'CRM' to hub capabilities!")),
       <["hub_capabilities" :=
           mk_table hub_capabilities_columns [["hub_id"; "capability_name"]]
                    [seo_row; r]]> seo_store) /\
    cell r "id" = VInt 2 /\ cell r "headcount" = VInt 6.
Proof.
  destruct (add_capability_fresh clock "AKQA" 1 "CRM" "CX+" 6 seo_store seo_table)
    as (r & Hadd & Hid & _ & _ & _ & Hhc & _).
  - discriminate.
  - reflexivity.
  - reflexivity.
  - reflexivity.
  - repeat constructor. exists 1. reflexivity.
  - repeat constructor.
  - exists r. split; [exact Hadd|]. split; [exact Hid | exact Hhc].
Defined.

End FormsExamples.

(** ** [setup_database] keeps what the store holds *)

Module MigrationFacts.
Import Store Setup StoreFacts SetupFacts FormsFacts.
Local Open Scope stmt_scope.

(** The columns [setup_database] writes in existing rows: [date_created]
    when it adds that column, and the fine-grained timestamps it backfills. *)
Definition restamped : list string :=
  [ "date_created"; "metrics_updated_at"; "location_updated_at";
    "certifications_updated_at"; "capability_updated_at"; "client_updated_at";
    "people_metric_updated_at" ].

(** The row [r'] has the cells of [r] on the columns [names], the restamped
    ones apart. *)
Definition row_kept (names : list string) (r r' : row) : Prop :=
  forall c, c ∈ names -> c ∉ restamped -> r' !! c = r !! c.

(** The table [tb'] has the columns of [tb] with their definitions, in
    the same order and before any other, the same [UNIQUE] constraints, and
    the rows of [tb] in the same order and before any other. *)
Definition table_kept (tb tb' : table) : Prop :=
  (exists added, columns tb' = (columns tb ++ added)%list) /\
  uniques tb' = uniques tb /\
  exists old new, rows tb' = (old ++ new)%list /\
    Forall2 (row_kept (map c_name (columns tb))) (rows tb) old.

Definition db_kept (d d' : db) : Prop :=
  forall t tb, d !! t = Some tb -> exists tb', d' !! t = Some tb' /\ table_kept tb tb'.

Lemma row_kept_refl (names : list string) (r : row) : row_kept names r r.
Proof. by intros c _ _. Qed.

Lemma Forall2_same {A} (R : A -> A -> Prop) (l : list A) :
  (forall x, R x x) -> Forall2 R l l.
Proof. intros H. induction l; constructor; auto. Qed.

Lemma Forall2_map_r_of {A B} (R : A -> B -> Prop) (f : A -> B) (l : list A) :
  (forall x, R x (f x)) -> Forall2 R l (map f l).
Proof. intros H. induction l; constructor; auto. Qed.

Lemma table_kept_refl (tb : table) : table_kept tb tb.
Proof.
  split; [exists []; by rewrite app_nil_r|]. split; [done|].
  exists (rows tb), []. split; [by rewrite app_nil_r|].
  apply Forall2_same, row_kept_refl.
Qed.

Lemma Forall2_row_kept_trans (names names' : list string) (l1 l2 l3 : list row) :
  (forall c, c ∈ names -> c ∈ names') ->
  Forall2 (row_kept names) l1 l2 -> Forall2 (row_kept names') l2 l3 ->
  Forall2 (row_kept names) l1 l3.
Proof.
  intros Hsub H12. revert l3. induction H12 as [|a b l1 l2 Hab _ IH]; intros l3 H23.
  - inversion H23. constructor.
  - inversion H23 as [|? c ? l3' Hbc H23']; subst. constructor; [|by apply IH].
    intros k Hk Hn. rewrite (Hbc k (Hsub k Hk) Hn). by apply Hab.
Qed.

Lemma table_kept_trans (tb1 tb2 tb3 : table) :
  table_kept tb1 tb2 -> table_kept tb2 tb3 -> table_kept tb1 tb3.
Proof.
  intros ([a1 Hc1] & Hu1 & old1 & new1 & Hr1 & F1) ([a2 Hc2] & Hu2 & old2 & new2 & Hr2 & F2).
  split; [exists (a1 ++ a2)%list; by rewrite Hc2, Hc1, app_assoc|].
  split; [congruence|].
  rewrite Hr1 in F2. apply Forall2_app_inv_l in F2 as (o & n & Fo & Fn & ->).
  exists o, (n ++ new2)%list. split; [by rewrite Hr2, app_assoc|].
  eapply Forall2_row_kept_trans; [|exact F1|exact Fo].
  intros c Hc. rewrite Hc1, map_app. apply elem_of_app. by left.
Qed.

Lemma db_kept_refl (d : db) : db_kept d d.
Proof. intros t tb H. exists tb. split; [done | apply table_kept_refl]. Qed.

Lemma db_kept_trans (d1 d2 d3 : db) : db_kept d1 d2 -> db_kept d2 d3 -> db_kept d1 d3.
Proof.
  intros H12 H23 t tb H.
  destruct (H12 t tb H) as (tb2 & H2 & K2).
  destruct (H23 t tb2 H2) as (tb3 & H3 & K3).
  exists tb3. split; [done|]. by eapply table_kept_trans.
Qed.

Lemma db_kept_insert (d : db) (t : string) (tb tb' : table) :
  d !! t = Some tb -> table_kept tb tb' -> db_kept d (<[t := tb']> d).
Proof.
  intros Ht Hk t0 tb0 H0. destruct (decide (t = t0)) as [<-|Hne].
  - rewrite Ht in H0. injection H0 as <-. exists tb'. by rewrite lookup_insert_eq.
  - exists tb0. rewrite lookup_insert_ne by done. split; [done | apply table_kept_refl].
Qed.

Lemma db_kept_insert_fresh (d : db) (t : string) (tb' : table) :
  d !! t = None -> db_kept d (<[t := tb']> d).
Proof.
  intros Ht t0 tb0 H0. destruct (decide (t = t0)) as [<-|Hne]; [congruence|].
  exists tb0. rewrite lookup_insert_ne by done. split; [done | apply table_kept_refl].
Qed.

(** A statement that keeps what the store holds, whatever its outcome. *)
Definition keeps {A} (m : M A) : Prop :=
  forall d o d', m d = (o, d') -> db_kept d d'.

Lemma keeps_readonly {A} (m : M A) : readonly m -> keeps m.
Proof.
  intros H d o d' E. specialize (H d). rewrite E in H. cbn in H. subst d'.
  apply db_kept_refl.
Qed.

Lemma keeps_ret {A} (a : A) : keeps (ret a).
Proof. by apply keeps_readonly. Qed.

Lemma keeps_raised {A} (e : exn) : keeps (@raise A e).
Proof. by apply keeps_readonly. Qed.

Lemma keeps_seq {A B} (m : M A) (k : A -> M B) :
  keeps m -> (forall a, keeps (k a)) -> keeps (bind m k).
Proof.
  intros Hm Hk d o d' H. unfold bind in H.
  destruct (m d) as [[a|e] d1] eqn:E.
  - eapply db_kept_trans; [eapply Hm, E | eapply Hk, H].
  - injection H as <- <-. eapply Hm, E.
Qed.

Lemma keeps_when (b : bool) (m : M unit) : keeps m -> keeps (when b m).
Proof. destruct b; [done | intros _; apply keeps_ret]. Qed.

Lemma keeps_for_each {A} (l : list A) (body : A -> M unit) :
  (forall x, keeps (body x)) -> keeps (for_each l body).
Proof.
  intros Hb. induction l as [|x l IH]; cbn; [apply keeps_ret|].
  apply keeps_seq; [apply Hb | intros _; apply IH].
Qed.

Lemma keeps_create (t : string) (cols : list column) (uniq : list (list string)) :
  keeps (create_table_if_not_exists t cols uniq).
Proof.
  intros d o d' H. unfold create_table_if_not_exists in H.
  destruct (d !! t) eqn:E; injection H as <- <-;
    [apply db_kept_refl | by apply db_kept_insert_fresh].
Qed.

Lemma keeps_table_info (t : string) : keeps (table_info t).
Proof. apply keeps_readonly. intros d. unfold table_info. by destruct (d !! t). Qed.

Lemma keeps_select_count (t : string) : keeps (select_count t).
Proof. apply keeps_readonly. intros d. unfold select_count. by destruct (d !! t). Qed.

Lemma keeps_select_where (t : string) (used : list string) (cond : row -> bool) :
  keeps (select_where t used cond).
Proof. apply keeps_readonly, readonly_select_where. Qed.

Lemma keeps_fetchone_0 (c : string) (rs : list row) : keeps (fetchone_0 c rs).
Proof. destruct rs; [apply keeps_raised | apply keeps_ret]. Qed.

Lemma mem_lower (c : string) (names : list string) :
  c ∈ names -> mem (lower c) (map lower names) = true.
Proof. intros H. apply mem_true. apply list_elem_of_fmap. eauto. Qed.

Lemma keeps_alter (t : string) (c : column) : keeps (alter_table_add_column t c).
Proof.
  intros d o d' H. unfold alter_table_add_column in H.
  destruct (d !! t) as [tb|] eqn:E; [|injection H as <- <-; apply db_kept_refl].
  destruct (mem _ _) eqn:Hm; [injection H as <- <-; apply db_kept_refl|].
  assert (Hnew : forall c', c' ∈ map c_name (columns tb) -> c_name c <> c').
  { intros c' Hc' <-. rewrite <- (map_map c_name lower) in Hm.
    by rewrite mem_lower in Hm. }
  destruct (c_default c); injection H as <- <-; try apply db_kept_refl;
    (eapply db_kept_insert; [exact E|]; split; [by exists [c]|]; split; [done|];
     eexists _, []; split; [by rewrite app_nil_r|]; cbn [rows];
     apply Forall2_map_r_of; intros r c' Hc' _;
     by rewrite lookup_insert_ne by (by apply Hnew)).
Qed.

Lemma keeps_add_column_if_not_exists (t : string) (c : column) :
  keeps (add_column_if_not_exists t c).
Proof.
  intros d o d' H. unfold add_column_if_not_exists in H.
  destruct (alter_table_add_column t c d) as [[u|e] d1] eqn:E.
  - injection H as <- <-. eapply keeps_alter, E.
  - destruct e; injection H as <- <-; eapply keeps_alter, E.
Qed.

Lemma keeps_insert (now t : string) (vals : list (string * value)) :
  keeps (insert_into now t vals).
Proof.
  intros d o d' H. rewrite insert_into_eq in H.
  destruct (d !! t) as [tb|] eqn:E; [|injection H as <- <-; apply db_kept_refl].
  destruct (negb _); [injection H as <- <-; apply db_kept_refl|].
  destruct (existsb _ (columns tb)); [injection H as <- <-; apply db_kept_refl|].
  destruct (existsb _ _); injection H as <- <-; [apply db_kept_refl|].
  eapply db_kept_insert; [exact E|]. split; [exists []; by rewrite app_nil_r|].
  split; [done|]. eexists _, _. split; [reflexivity|].
  apply Forall2_same, row_kept_refl.
Qed.

Lemma keeps_update (t : string) (used : list string) (set : row -> row)
    (cond : row -> bool) :
  (forall r c, c ∉ restamped -> set r !! c = r !! c) ->
  keeps (update_where t used set cond).
Proof.
  intros Hset d o d' H.
  apply update_where_spec in H as [(msg & _ & ->)|(tb & _ & Htb & _ & ->)];
    [apply db_kept_refl|].
  eapply db_kept_insert; [exact Htb|]. split; [exists []; by rewrite app_nil_r|].
  split; [done|]. eexists _, []. split; [by rewrite app_nil_r|]. cbn [rows].
  apply Forall2_map_r_of. intros r c _ Hc. destruct (cond r); [by apply Hset|done].
Qed.

Lemma restamped_assign (cols : list string) (v : value) (r : row) (c : string) :
  (forall k, k ∈ cols -> k ∈ restamped) -> c ∉ restamped ->
  assign (map (fun k => (k, v)) cols) r !! c = r !! c.
Proof.
  intros Hsub Hc. apply lookup_assign_other.
  rewrite map_map. cbn. rewrite map_id. intros Hin. by apply Hc, Hsub.
Qed.

Ltac restamped_names :=
  let k := fresh "k" in
  let Hk := fresh "Hk" in
  intros k Hk;
  repeat (apply elem_of_cons in Hk as [->|Hk]; [in_names|]);
  by apply not_elem_of_nil in Hk.

Ltac keeps_step :=
  first
    [ apply keeps_seq; [|intros ?]
    | apply keeps_for_each; intros ?
    | apply keeps_when
    | apply keeps_ret
    | apply keeps_raised
    | apply keeps_create
    | apply keeps_table_info
    | apply keeps_select_count
    | apply keeps_select_where
    | apply keeps_fetchone_0
    | apply keeps_alter
    | apply keeps_add_column_if_not_exists
    | apply keeps_insert
    | match goal with
      | |- keeps (match ?x with _ => _ end) => destruct x
      | |- keeps (let '(_, _) := ?x in _) => destruct x
      end ].

Section Stages.
Variable sha256_hexdigest : string -> string.
Variable now : string.

Lemma keeps_create_tables : keeps create_tables.
Proof. unfold create_tables. repeat keeps_step. Qed.

Lemma keeps_seed_hubs : keeps (seed_hubs now).
Proof. unfold seed_hubs, seed_hub. repeat keeps_step. Qed.

Lemma keeps_seed_users : keeps (seed_users sha256_hexdigest now).
Proof. unfold seed_users. repeat keeps_step. Qed.

Lemma keeps_add_missing_columns : keeps add_missing_columns.
Proof.
  unfold add_missing_columns. repeat keeps_step.
  apply keeps_update. intros r c Hc. apply lookup_insert_ne. intros <-. apply Hc. in_names.
Qed.

Lemma keeps_initialize_timestamps : keeps (initialize_timestamps now).
Proof.
  unfold initialize_timestamps, tables_to_update. cbn [for_each].
  repeat keeps_step;
    (apply keeps_update; intros r c Hc; apply restamped_assign; [restamped_names|done]).
Qed.

End Stages.

(** X13.  Whatever the outcome of [setup_database], a raised error
    included, the store it leaves has every table it found, with the same
    columns in the same order before any new one, the same [UNIQUE]
    constraints, and the same rows in the same order before any new one; each
    of those rows has the cells it had on the columns the table had, outside
    the columns the function stamps ([date_created] and the fine-grained
    timestamps).  Nothing is dropped, renamed, reordered or deleted. *)
Theorem setup_database_keeps_data :
  forall (sha256_hexdigest : string -> string) (now : string) (d : db),
    db_kept d (snd (setup_database sha256_hexdigest now d)).
Proof.
  intros sha now d.
  assert (K : keeps (setup_database sha now)).
  { unfold setup_database.
    apply keeps_seq; [apply keeps_create_tables|intros _].
    apply keeps_seq; [apply keeps_seed_hubs|intros _].
    apply keeps_seq; [apply keeps_seed_users|intros _].
    apply keeps_seq; [apply keeps_add_missing_columns|intros _].
    apply keeps_initialize_timestamps. }
  destruct (setup_database sha now d) as [o d'] eqn:E. exact (K d o d' E).
Qed.

(** X14.  What a run of [setup_database] that returned has established,
    on any store: the six tables exist; [hub_metrics], [hub_capabilities],
    [client_metrics] and [people_metrics] have the columns the function adds
    ([headcount] up to ASCII case); [hubs] and [users] have a row; and in
    the four tables with fine-grained timestamps every row with an [id] has
    all of them set. *)
Theorem setup_database_postcondition :
  forall (sha256_hexdigest : string -> string) (now : string) (d d1 : db),
    setup_database sha256_hexdigest now d = (Returned tt, d1) ->
    (forall t, t ∈ ["users"; "hubs"; "hub_metrics"; "hub_capabilities";
                    "client_metrics"; "people_metrics"] -> is_Some (d1 !! t)) /\
    (forall t c,
       (t, c) ∈ [ ("hub_metrics", "bench_count"); ("hub_metrics", "location_headcounts");
                  ("hub_metrics", "certifications"); ("hub_metrics", "metrics_updated_at");
                  ("hub_metrics", "location_updated_at");
                  ("hub_metrics", "certifications_updated_at");
                  ("hub_capabilities", "capability_updated_at");
                  ("client_metrics", "employee_count");
                  ("client_metrics", "client_updated_at");
                  ("client_metrics", "capability_name");
                  ("client_metrics", "relationship_duration");
                  ("people_metrics", "date_created");
                  ("people_metrics", "people_metric_updated_at") ] ->
       exists tb, d1 !! t = Some tb /\ c ∈ map c_name (columns tb)) /\
    (exists tb, d1 !! "hub_capabilities" = Some tb /\
       "headcount" ∈ map (fun c => lower (c_name c)) (columns tb)) /\
    (forall t, t ∈ ["hubs"; "users"] -> exists tb, d1 !! t = Some tb /\ rows tb <> []) /\
    (forall t cols, (t, cols) ∈ tables_to_update ->
       exists tb, d1 !! t = Some tb /\
         forall r c, r ∈ rows tb -> c ∈ cols -> cell r "id" <> VNull -> cell r c <> VNull).
Proof.
  intros sha now d d1 H.
  destruct (setup_database_settles sha now d d1 tt H)
    as (T & C & Hh & Hu & F1 & F2 & F3 & F4).
  destruct T as (T1 & T2 & T3 & T4 & T5 & T6 & T7 & T8 & T9).
  destruct C as (C1 & C2 & C3 & C4 & C5 & C6 & C7 & C8 & C9 & C10 & C11).
  assert (Fill : forall t cols, filled t cols d1 ->
            exists tb, d1 !! t = Some tb /\
              forall r c, r ∈ rows tb -> c ∈ cols -> cell r "id" <> VNull -> cell r c <> VNull).
  { intros t cols (tb & Htb & _ & Hf). exists tb. split; [done|].
    intros r c Hr Hc Hid Hnull. apply Hid, Hf; [done|].
    unfold null_timestamp. apply existsb_exists. exists c.
    split; [by apply list_elem_of_In | by rewrite Hnull]. }
  repeat split.
  - intros t Ht.
    repeat (apply elem_of_cons in Ht as [->|Ht]; [assumption|]).
    by apply not_elem_of_nil in Ht.
  - intros t c Ht.
    repeat (apply elem_of_cons in Ht as [Ht|Ht]; [injection Ht as -> ->; assumption|]).
    by apply not_elem_of_nil in Ht.
  - destruct C5 as (tb & Htb & Hm). exists tb. split; [done|]. by apply mem_true in Hm.
  - intros t Ht.
    repeat (apply elem_of_cons in Ht as [->|Ht]; [assumption|]).
    by apply not_elem_of_nil in Ht.
  - intros t cols Ht. unfold tables_to_update in Ht.
    repeat (apply elem_of_cons in Ht as [Ht|Ht]; [injection Ht as -> ->; by apply Fill|]).
    by apply not_elem_of_nil in Ht.
Qed.

Lemma add_column_cases (t : string) (c : column) (d : db) :
  add_column_if_not_exists t c d = (Returned tt, d) \/
  exists tb, d !! t = Some tb /\
    add_column_if_not_exists t c d =
      (Returned tt,
       <[t := mk_table (columns tb ++ [c]) (uniques tb)
               (map (fun r => <[c_name c := default_value "" (c_default c)]> r)
                    (rows tb))]> d).
Proof.
  unfold add_column_if_not_exists, alter_table_add_column.
  destruct (d !! t) as [tb|]; [|by left].
  destruct (mem _ _); [by left|].
  destruct (c_default c); [right; by exists tb | right; by exists tb | by left].
Qed.

Lemma add_column_present (t : string) (c : column) (d : db) (tb : table) :
  d !! t = Some tb ->
  mem (lower (c_name c)) (map (fun c' => lower (c_name c')) (columns tb)) = true ->
  add_column_if_not_exists t c d = (Returned tt, d).
Proof.
  intros Htb Hm. unfold add_column_if_not_exists, alter_table_add_column.
  by rewrite Htb, Hm.
Qed.

(** X15.  [add_column_if_not_exists] always returns, and running it a
    second time changes nothing: either the first call added the column, and
    the second is refused by SQLite and the refusal swallowed, or the first
    was itself refused (the table is missing, or has the name in some ASCII
    case, or the default is not constant) and both leave the store alone. *)
Theorem add_column_if_not_exists_idempotent :
  forall (t : string) (c : column) (d : db),
    let once := snd (add_column_if_not_exists t c d) in
    add_column_if_not_exists t c d = (Returned tt, once) /\
    add_column_if_not_exists t c once = (Returned tt, once).
Proof.
  intros t c d. cbv zeta.
  destruct (add_column_cases t c d) as [H|(tb & Htb & H)]; rewrite H; cbn [snd].
  - by rewrite H.
  - split; [done|]. eapply add_column_present; [apply lookup_insert_eq|].
    cbn [columns]. apply mem_true. rewrite map_app. apply elem_of_app. right. cbn. left.
Qed.

End MigrationFacts.

(** ** [setup_database] on a store with data *)

Module MigrationExamples.
Import Store Setup StoreFacts SetupFacts SetupExamples RepositoryExamples MigrationFacts.

Lemma setup_database_keeps_data_witness :
  exists tb',
    snd (setup_database tagged_digest "2025-06-01 00:00:00" metrics_store) !! "hub_metrics"
      = Some tb' /\
    table_kept metrics_table tb'.
Proof.
  exact (setup_database_keeps_data tagged_digest "2025-06-01 00:00:00" metrics_store
           "hub_metrics" metrics_table eq_refl).
Defined.

Lemma setup_database_postcondition_witness :
  exists tb,
    snd (setup_database tagged_digest "2025-01-01 00:00:00" ∅) !! "people_metrics" = Some tb /\
    forall r c, r ∈ rows tb -> c ∈ ["people_metric_updated_at"] ->
      cell r "id" <> VNull -> cell r c <> VNull.
Proof.
  apply (proj2 (proj2 (proj2 (proj2
    (setup_database_postcondition tagged_digest "2025-01-01 00:00:00" ∅ _
       (first_run_returns tagged_digest "2025-01-01 00:00:00")))))).
  unfold tables_to_update. do 3 right. left.
Defined.

End MigrationExamples.

(** ** Sessions *)

Module SessionFacts.
Import Store Setup Repository Session StoreFacts RepositoryFacts FormsFacts.
Local Open Scope stmt_scope.

Section Users.
Variable sha256_hexdigest : string -> string.
Variable now : string.

(** Logging in when one row, and no other, has the username. *)
Lemma login_user_unique (username password : string) (st : session_state)
    (d : db) (tb : table) (r : row) :
  d !! "users" = Some tb ->
  forallb (fun c => mem c (map c_name (columns tb)))
          ["hub_name"; "is_admin"; "username"; "password_hash"] = true ->
  r ∈ rows tb ->
  cell r "username" = VText username ->
  cell r "password_hash" = VText (sha256_hexdigest password) ->
  (forall r', r' ∈ rows tb -> sql_eq (cell r' "username") (VText username) = true -> r' = r) ->
  login_user sha256_hexdigest username password st d =
    (Returned (true, {| logged_in := true;
                        current_hub := Some (cell r "hub_name");
                        is_admin := truthy (cell r "is_admin") |}), d).
Proof.
  intros Htb Hcols Hr Hu Hp Huniq. unfold login_user, bind, select_where.
  rewrite Htb, Hcols. cbn [negb].
  destruct (filter _ (rows tb)) as [|r1 rs] eqn:E.
  - exfalso.
    assert (Hin : r ∈ filter (fun r => sql_eq (cell r "username") (VText username)
                    && sql_eq (cell r "password_hash") (VText (sha256_hexdigest password)))
                    (rows tb)).
    { apply list_elem_of_filter. split; [|done]. apply Is_true_true.
      rewrite Hu, Hp. cbn. by rewrite !String.eqb_refl. }
    rewrite E in Hin. by apply not_elem_of_nil in Hin.
  - assert (Hin : r1 ∈ filter (fun r => sql_eq (cell r "username") (VText username)
                    && sql_eq (cell r "password_hash") (VText (sha256_hexdigest password)))
                    (rows tb)) by (rewrite E; left).
    apply list_elem_of_filter in Hin as [Hc Hin]. apply Is_true_true_1 in Hc.
    apply andb_true_iff in Hc as [Hc _].
    by rewrite (Huniq r1 Hin Hc).
Qed.

(** Logging in when no row has the username. *)
Lemma login_user_unknown (username password : string) (st : session_state)
    (d : db) (tb : table) :
  d !! "users" = Some tb ->
  forallb (fun c => mem c (map c_name (columns tb)))
          ["hub_name"; "is_admin"; "username"; "password_hash"] = true ->
  Forall (fun r => sql_eq (cell r "username") (VText username) = false) (rows tb) ->
  login_user sha256_hexdigest username password st d = (Returned (false, st), d).
Proof.
  intros Htb Hcols Hnone. unfold login_user, bind, select_where.
  rewrite Htb, Hcols. cbn [negb]. rewrite filter_none; [done|].
  eapply Forall_impl; [exact Hnone|]. intros r Hr. cbv beta in *. by rewrite Hr.
Qed.

(** X16.  A user the administrator has just added can log in: when the
    form reports success on a [users] table whose usernames are unique, a
    login with the same username and password succeeds on the store it left,
    and the session is on the hub chosen in the form, with administrator
    rights exactly when the box was ticked. *)
Theorem add_user_then_login :
  forall (username password confirm_password hub_name : string) (admin : bool)
         (st : session_state) (d d' : db) (tb : table) (msg : string),
    d !! "users" = Some tb ->
    ["username"] ∈ uniques tb ->
    add_user sha256_hexdigest now username password confirm_password hub_name admin d =
      (Returned (st_success msg), d') ->
    login_user sha256_hexdigest username password st d' =
      (Returned (true, {| logged_in := true; current_hub := Some (VText hub_name);
                          is_admin := admin |}), d').
Proof.
  intros u p cp hub admin st d d' tb msg Htb Huq H. unfold add_user in H.
  destruct (_ || _); [discriminate|]. destruct (negb _); [discriminate|].
  match type of H with
  | match insert_into now ?t ?v d with _ => _ end = _ =>
      set (vals := v) in *;
      destruct (insert_into now t vals d) as [[[]|e] d1] eqn:I
  end.
  2:{ destruct e; discriminate. }
  injection H as _ <-.
  pose proof I as I'. rewrite insert_into_eq, Htb in I'.
  destruct (negb _) eqn:Hnames; [discriminate|]. apply negb_false_iff in Hnames.
  clear I'.
  apply insert_into_returned in I as (tb0 & Htb0 & Huniq & ->).
  rewrite Htb in Htb0. injection Htb0 as <-.
  set (r := new_row now tb vals) in *.
  assert (Hcell : forall c, c <> "id" ->
            cell r c = cell (assign vals (list_to_map
              (map (fun c => (c_name c, default_value now (c_default c))) (columns tb)))) c)
    by (intros c Hc; by apply cell_new_row_other).
  assert (Hu : cell r "username" = VText u) by (rewrite Hcell by done; unfold vals; by cells).
  assert (Hp : cell r "password_hash" = VText (sha256_hexdigest p))
    by (rewrite Hcell by done; unfold vals; by cells).
  assert (Hh : cell r "hub_name" = VText hub)
    by (rewrite Hcell by done; unfold vals; by cells).
  assert (Ha : cell r "is_admin" = VInt (if admin then 1 else 0))
    by (rewrite Hcell by done; unfold vals; by cells).
  rewrite (login_user_unique u p st _
             (mk_table (columns tb) (uniques tb) (rows tb ++ [r])) r).
  - rewrite Hh, Ha. by destruct admin.
  - apply lookup_insert_eq.
  - cbn [columns]. unfold vals in Hnames. cbn [forallb fst] in Hnames.
    repeat (apply andb_true_iff in Hnames as [? Hnames]).
    cbn [forallb]. repeat (apply andb_true_iff; split); done.
  - cbn [rows]. apply elem_of_app. right. by apply list_elem_of_singleton.
  - exact Hu.
  - exact Hp.
  - cbn [rows]. intros r' Hr' Hc.
    apply elem_of_app in Hr' as [Hr'|Hr']; [exfalso|by apply list_elem_of_singleton in Hr'].
    cbn [existsb] in Huniq. apply orb_false_elim in Huniq as [_ Huniq].
    rewrite (existsb_elem _ _ ["username"] Huq) in Huniq; [discriminate|].
    apply (existsb_elem _ _ r' Hr'). unfold same_key. cbn [forallb].
    by rewrite Hu, sql_eq_sym, Hc.
Qed.

(** X17.  A username that is taken cannot be added again: with a row of
    that username in a [users] table whose usernames are unique, the form
    answers that the username already exists and the store is as it was.  An
    empty username or password, and a confirmation that differs, are turned
    down before the store is touched. *)
Theorem add_user_rejected :
  forall (username password confirm_password hub_name : string) (admin : bool) (d : db),
    (username = "" \/ password = "" ->
       add_user sha256_hexdigest now username password confirm_password hub_name admin d =
         (Returned (st_error "Username and password are required"), d)) /\
    (username <> "" -> password <> "" -> password <> confirm_password ->
       add_user sha256_hexdigest now username password confirm_password hub_name admin d =
         (Returned (st_error "Passwords do not match"), d)) /\
    (forall (tb : table) (r : row),
       username <> "" -> password <> "" -> password = confirm_password ->
       d !! "users" = Some tb ->
       forallb (fun c => mem c (map c_name (columns tb)))
               ["username"; "password_hash"; "hub_name"; "is_admin"] = true ->
       ["username"] ∈ uniques tb ->
       r ∈ rows tb -> cell r "username" = VText username ->
       add_user sha256_hexdigest now username password confirm_password hub_name admin d =
         (Returned (st_error ("Username '" ++ username
                              ++ "' already exists. Please choose another username.")), d)).
Proof.
  intros u p cp hub admin d. unfold add_user. repeat split.
  - intros [-> | ->]; [done|]. by rewrite orb_true_r.
  - intros Hu Hp Hne.
    destruct (String.eqb_spec u ""); [done|]. destruct (String.eqb_spec p ""); [done|].
    cbn [orb]. by destruct (String.eqb_spec p cp).
  - intros tb r Hu Hp <- Htb Hcols Huq Hr Hname.
    destruct (String.eqb_spec u ""); [done|]. destruct (String.eqb_spec p ""); [done|].
    cbn [orb]. rewrite String.eqb_refl. cbn [negb].
    match goal with
    | |- match insert_into now ?t ?v d with _ => _ end = _ => set (vals := v)
    end.
    rewrite insert_into_eq, Htb.
    assert (Hnames : forallb (fun kv => mem (fst kv) (map c_name (columns tb))) vals = true).
    { unfold vals. cbn [forallb fst]. cbn [forallb] in Hcols.
      repeat (apply andb_true_iff in Hcols as [? Hcols]).
      repeat (apply andb_true_iff; split); done. }
    rewrite Hnames. cbn [negb].
    destruct (existsb _ (columns tb)); [done|].
    assert (Hdup : existsb (fun key => existsb (same_key key (new_row now tb vals)) (rows tb))
                     (["id"] :: uniques tb) = true).
    { cbn [existsb]. apply orb_true_iff. right.
      apply (existsb_elem _ _ ["username"] Huq), (existsb_elem _ _ r Hr).
      unfold same_key. cbn [forallb].
      rewrite cell_new_row_other by done. unfold vals. cells.
      rewrite Hname. cbn. by rewrite String.eqb_refl. }
    by rewrite Hdup.
Qed.

End Users.

End SessionFacts.

(** ** Sessions on the seeded store *)

Module SessionExamples.
Import Store Setup Repository Session StoreFacts RepositoryFacts FormsFacts SetupExamples
       SessionFacts.

Section Seeded.
Variable sha256_hexdigest : string -> string.
Variable now : string.

(** The row [seed_users] writes for a user. *)
Definition seeded_user (id : Z) (username hub_name : string) (admin : Z) : row :=
  list_to_map
    [ ("id", VInt id); ("username", VText username);
      ("password_hash", VText (sha256_hexdigest (username ++ "123")));
      ("hub_name", VText hub_name); ("is_admin", VInt admin);
      ("created_at", VText now) ].

Definition seeded_users : table :=
  mk_table users_columns [["username"]]
    [ seeded_user 1 "admin" "ALL" 1;
      seeded_user 2 "akqa" "AKQA" 0;
      seeded_user 3 "mirum_digital_pvt_ltd" "Mirum Digital Pvt Ltd" 0;
      seeded_user 4 "groupm_nexus_global_team" "GroupM Nexus Global Team" 0;
      seeded_user 5 "hogarth_worldwide" "Hogarth Worldwide" 0;
      seeded_user 6 "hogarth_studios" "Hogarth Studios" 0;
      seeded_user 7 "verticurl" "Verticurl" 0;
      seeded_user 8 "vml-tech_commerce" "VML-Tech Commerce" 0 ].

Lemma first_run_users :
  snd (setup_database sha256_hexdigest now ∅) !! "users" = Some seeded_users.
Proof. vm_compute. reflexivity. Qed.

Ltac in_rows := repeat first [ by constructor 1 | constructor 2 ].

Ltac only_row :=
  let r' := fresh "r" in
  let Hr := fresh "Hr" in
  let Hc := fresh "Hc" in
  intros r' Hr Hc;
  repeat (apply elem_of_cons in Hr as [->|Hr];
          [first [reflexivity | vm_compute in Hc; discriminate Hc]|]);
  by apply not_elem_of_nil in Hr.

Ltac seeded_login id u :=
  match goal with
  | |- login_user _ _ _ ?st ?d = (Returned (true, {| current_hub := Some (VText ?h) |}), _) =>
      apply (login_user_unique sha256_hexdigest _ _ st d seeded_users (seeded_user id u h 0));
      [ apply first_run_users | reflexivity | in_rows | reflexivity | reflexivity | only_row ]
  end.

(** X18.  On the store a first run of [setup_database] leaves, every
    default hub can log in with the user name
    [hub_name.lower().replace(' ', '_')] and that name followed by [123] as
    password, and lands in a session on its own hub without administrator
    rights; [admin] with [admin123] lands in an administrator session on
    [ALL].  The lower-case hub name itself is no user name when the hub name
    has a space. *)
Theorem seeded_logins :
  forall (st : session_state),
    let d1 := snd (setup_database sha256_hexdigest now ∅) in
    (forall hub_name, hub_name ∈ default_hubs ->
       let username := replace_space (lower hub_name) in
       login_user sha256_hexdigest username (username ++ "123") st d1 =
         (Returned (true, {| logged_in := true; current_hub := Some (VText hub_name);
                             is_admin := false |}), d1)) /\
    login_user sha256_hexdigest "admin" "admin123" st d1 =
      (Returned (true, {| logged_in := true; current_hub := Some (VText "ALL");
                          is_admin := true |}), d1) /\
    login_user sha256_hexdigest "mirum digital pvt ltd" "mirum digital pvt ltd123" st d1 =
      (Returned (false, st), d1).
Proof.
  intros st. cbv zeta. split; [|split].
  - intros hub Hhub. unfold default_hubs in Hhub.
    apply elem_of_cons in Hhub as [->|Hhub]; [seeded_login 2 "akqa"|].
    apply elem_of_cons in Hhub as [->|Hhub]; [seeded_login 3 "mirum_digital_pvt_ltd"|].
    apply elem_of_cons in Hhub as [->|Hhub]; [seeded_login 4 "groupm_nexus_global_team"|].
    apply elem_of_cons in Hhub as [->|Hhub]; [seeded_login 5 "hogarth_worldwide"|].
    apply elem_of_cons in Hhub as [->|Hhub]; [seeded_login 6 "hogarth_studios"|].
    apply elem_of_cons in Hhub as [->|Hhub]; [seeded_login 7 "verticurl"|].
    apply elem_of_cons in Hhub as [->|Hhub]; [seeded_login 8 "vml-tech_commerce"|].
    exfalso. exact (not_elem_of_nil _ Hhub).
  - apply (login_user_unique sha256_hexdigest "admin" "admin123" st _ seeded_users
             (seeded_user 1 "admin" "ALL" 1));
      [ apply first_run_users | reflexivity | in_rows | reflexivity | reflexivity | only_row ].
  - apply (login_user_unknown sha256_hexdigest _ _ st _ seeded_users);
      [ apply first_run_users | reflexivity | repeat constructor ].
Qed.

End Seeded.

(** A [users] table with the administrator only. *)
Definition admin_store : db :=
  {[ "users" := mk_table users_columns [["username"]]
                  [seeded_user tagged_digest "2025-01-01 00:00:00" 1 "admin" "ALL" 1] ]}.

Lemma add_user_then_login_witness :
  exists d',
    add_user tagged_digest "2025-06-01 00:00:00" "pune" "secret" "secret" "AKQA" false
      admin_store = (Returned (st_success "User 'pune' added successfully!"), d') /\
    login_user tagged_digest "pune" "secret" (mk_session_state false None false) d' =
      (Returned (true, mk_session_state true (Some (VText "AKQA")) false), d').
Proof.
  exists (snd (add_user tagged_digest "2025-06-01 00:00:00" "pune" "secret" "secret" "AKQA"
                 false admin_store)).
  assert (E : add_user tagged_digest "2025-06-01 00:00:00" "pune" "secret" "secret" "AKQA"
                false admin_store =
              (Returned (st_success "User 'pune' added successfully!"),
               snd (add_user tagged_digest "2025-06-01 00:00:00" "pune" "secret" "secret"
                      "AKQA" false admin_store)))
    by (vm_compute; reflexivity).
  split; [exact E|].
  apply (add_user_then_login tagged_digest "2025-06-01 00:00:00" "pune" "secret" "secret"
           "AKQA" false _ admin_store _
           (mk_table users_columns [["username"]]
              [seeded_user tagged_digest "2025-01-01 00:00:00" 1 "admin" "ALL" 1])
           "User 'pune' added successfully!").
  - reflexivity.
  - left.
  - exact E.
Defined.

End SessionExamples.

(** ** The read side *)

Module QueriesFacts.
Import Store Setup Repository Queries StoreFacts RepositoryFacts FormsFacts.
Local Open Scope stmt_scope.

Lemma insert_row_perm (keys : list string) (r : row) (l : list row) :
  Permutation (insert_row keys r l) (r :: l).
Proof.
  induction l as [|x l IH]; cbn; [done|].
  destruct (row_le keys x r); [|done].
  rewrite IH. apply perm_swap.
Qed.

(** [ORDER BY] returns the rows it was given, in some order. *)
Lemma order_by_perm (keys : list string) (l : list row) :
  Permutation (order_by keys l) l.
Proof.
  unfold order_by.
  assert (G : forall acc, Permutation (foldl (fun sorted r => insert_row keys r sorted) acc l)
                                      (acc ++ l)%list).
  { induction l as [|x l IH]; intros acc; cbn [foldl]; [by rewrite app_nil_r|].
    rewrite IH, insert_row_perm. cbn. apply Permutation_middle. }
  apply (G []).
Qed.

Lemma order_by_length (keys : list string) (l : list row) :
  length (order_by keys l) = length l.
Proof. apply Permutation_length, order_by_perm. Qed.

Lemma order_by_elem (keys : list string) (l : list row) (r : row) :
  r ∈ order_by keys l <-> r ∈ l.
Proof. by rewrite order_by_perm. Qed.

Lemma readonly_join_hubs (t : string) (used : list string) (keep : row -> row -> bool) :
  readonly (join_hubs t used keep).
Proof.
  intros d. unfold join_hubs. destruct (d !! t); [|done].
  destruct (d !! "hubs"); [|done]. by destruct (_ || _).
Qed.

(** What a join that returned has found. *)
Lemma join_hubs_returned (t : string) (used : list string) (keep : row -> row -> bool)
    (d d' : db) (found : list row) :
  join_hubs t used keep d = (Returned found, d') ->
  d' = d /\
  forall r, r ∈ found ->
    exists c h, c ∈ rows (default (mk_table [] [] []) (d !! t)) /\
                h ∈ rows (default (mk_table [] [] []) (d !! "hubs")) /\
                sql_eq (cell c "hub_id") (cell h "id") = true /\ keep h c = true /\
                r = <["hub_name" := cell h "hub_name"]> c.
Proof.
  unfold join_hubs. destruct (d !! t) as [tb|]; [|discriminate].
  destruct (d !! "hubs") as [hubs|]; [|discriminate].
  destruct (_ || _); [discriminate|]. intros H. injection H as <- <-.
  split; [done|]. intros r Hr. cbn [default].
  apply list_elem_of_In, in_flat_map in Hr as (c & Hc & Hr).
  apply in_map_iff in Hr as (h & <- & Hh).
  apply list_elem_of_In, list_elem_of_filter in Hh as [Hk Hh].
  apply Is_true_true_1, andb_true_iff in Hk as [Hid Hk].
  exists c, h. repeat split; try done. by apply list_elem_of_In.
Qed.

Lemma sql_ne_hiring (v : value) : sql_ne v (VText "Hiring") = true -> v <> VText "Hiring".
Proof.
  unfold sql_ne. intros H ->. cbn in H. discriminate.
Qed.

Lemma hiring_excluded (c : row) :
  sql_eq (cell c "metric_category") (VText "Hiring") && not_hiring c = false.
Proof.
  unfold not_hiring, sql_ne.
  destruct (sql_eq (cell c "metric_category") (VText "Hiring")); [|done].
  cbn. apply andb_false_r.
Qed.

Lemma cell_joined (c : row) (v : value) (k : string) :
  k <> "hub_name" -> cell (<["hub_name" := v]> c) k = cell c k.
Proof. intros H. by rewrite cell_insert_ne. Qed.

(** X19.  [get_people_metrics] reads the store and leaves it as it is.
    For a named hub it never returns a row of the category [Hiring], nor a
    row without category, and every row it returns carries the name of that
    hub; asking any hub, or [ALL], for the category [Hiring] returns no row
    at all. *)
Theorem get_people_metrics_excludes_hiring :
  forall (hub_name : string) (category : option string) (d d' : db) (found : list row),
    get_people_metrics hub_name category d = (Returned found, d') ->
    d' = d /\
    (hub_name <> "ALL" ->
       forall r, r ∈ found ->
         cell r "hub_name" = VText hub_name /\
         cell r "metric_category" <> VText "Hiring" /\
         cell r "metric_category" <> VNull) /\
    (category = Some "Hiring" -> found = []).
Proof.
  intros hub category d d' found H.
  assert (Named : forall h c, named hub h = true ->
            cell (<["hub_name" := cell h "hub_name"]> c) "hub_name" = VText hub).
  { intros h c Hn. rewrite cell_insert_eq. unfold named in Hn.
    destruct (cell h "hub_name"); try discriminate. cbn in Hn.
    by apply String.eqb_eq in Hn as ->. }
  assert (NotHiring : forall h c, not_hiring c = true ->
            cell (<["hub_name" := cell h "hub_name"]> c) "metric_category" <> VText "Hiring" /\
            cell (<["hub_name" := cell h "hub_name"]> c) "metric_category" <> VNull).
  { intros h c Hn. rewrite cell_joined by done. unfold not_hiring in Hn.
    split; [by apply sql_ne_hiring|]. intros E. rewrite E in Hn. discriminate. }
  unfold get_people_metrics in H.
  destruct category as [[|a category]|];
    destruct (String.eqb_spec hub "ALL") as [->|Hne];
    apply bind_inv in H as (rows0 & d1 & J & H); injection H as <- <-;
    apply join_hubs_returned in J as [-> J];
    (split; [done|]); (split; [intros Hall; try done|]); try discriminate.
  - intros r Hr. apply order_by_elem, J in Hr as (c & h & _ & _ & _ & Hk & ->).
    apply andb_true_iff in Hk as [Hn Hh]. split; [by apply Named | by apply NotHiring].
  - intros E. injection E as -> ->.
    destruct rows0 as [|r rows0]; [done|]. exfalso.
    destruct (J r ltac:(left)) as (c & h & _ & _ & _ & Hk & _).
    by rewrite hiring_excluded in Hk.
  - intros r Hr. apply order_by_elem, J in Hr as (c & h & _ & _ & _ & Hk & ->).
    apply andb_true_iff in Hk as [Hk Hh]. apply andb_true_iff in Hk as [Hn _].
    split; [by apply Named | by apply NotHiring].
  - intros E. injection E as -> ->.
    destruct rows0 as [|r rows0]; [done|]. exfalso.
    destruct (J r ltac:(left)) as (c & h & _ & _ & _ & Hk & _).
    apply andb_true_iff in Hk as [Hk Hh]. apply andb_true_iff in Hk as [_ Hk].
    pose proof (hiring_excluded c) as Hx. by rewrite Hk, Hh in Hx.
  - intros r Hr. apply order_by_elem, J in Hr as (c & h & _ & _ & _ & Hk & ->).
    apply andb_true_iff in Hk as [Hn Hh]. split; [by apply Named | by apply NotHiring].
Qed.


(** The rows a join returns, as a set. *)
Lemma join_hubs_elem (t : string) (used : list string) (keep : row -> row -> bool)
    (d d' : db) (found : list row) :
  join_hubs t used keep d = (Returned found, d') ->
  d' = d /\
  exists tb hubs, d !! t = Some tb /\ d !! "hubs" = Some hubs /\
    forall r, r ∈ found <->
      exists c h, c ∈ rows tb /\ h ∈ rows hubs /\
                  sql_eq (cell c "hub_id") (cell h "id") = true /\ keep h c = true /\
                  r = <["hub_name" := cell h "hub_name"]> c.
Proof.
  unfold join_hubs. destruct (d !! t) as [tb|]; [|discriminate].
  destruct (d !! "hubs") as [hubs|]; [|discriminate].
  destruct (_ || _); [discriminate|]. intros H. injection H as <- <-.
  split; [done|]. exists tb, hubs. repeat split; try done.
  - intros Hr. apply list_elem_of_In, in_flat_map in Hr as (c & Hc & Hr).
    apply in_map_iff in Hr as (h & <- & Hh).
    apply list_elem_of_In, list_elem_of_filter in Hh as [Hk Hh].
    apply Is_true_true_1, andb_true_iff in Hk as [Hid Hk].
    exists c, h. repeat split; try done. by apply list_elem_of_In.
  - intros (c & h & Hc & Hh & Hid & Hk & ->).
    apply list_elem_of_In, in_flat_map. exists c. split; [by apply list_elem_of_In|].
    apply in_map_iff. exists h. split; [done|].
    apply list_elem_of_In, list_elem_of_filter. split; [|done].
    apply Is_true_true. by rewrite Hid, Hk.
Qed.

(** The query [q] on the table [t], asked for a named hub, returns the rows
    of [t] whose [hub_id] is the [id] of a hub of that name, each with the
    name added, and nothing else; the store is left as it is. *)
Definition scoped (t : string) (q : string -> M (list row)) : Prop :=
  forall (hub_name : string) (d d' : db) (found : list row),
    hub_name <> "ALL" ->
    q hub_name d = (Returned found, d') ->
    d' = d /\
    exists tb hubs, d !! t = Some tb /\ d !! "hubs" = Some hubs /\
      forall r, r ∈ found <->
        exists c h, c ∈ rows tb /\ h ∈ rows hubs /\
                    sql_eq (cell c "hub_id") (cell h "id") = true /\
                    cell h "hub_name" = VText hub_name /\
                    r = <["hub_name" := VText hub_name]> c.

Lemma named_text (hub_name : string) (h : row) :
  named hub_name h = true <-> cell h "hub_name" = VText hub_name.
Proof.
  unfold named. split.
  - destruct (cell h "hub_name"); try discriminate. cbn. by intros ->%String.eqb_eq.
  - intros ->. cbn. apply String.eqb_refl.
Qed.

Lemma scoped_join (t : string) (used : list string) (hub_name : string)
    (d d' : db) (found : list row) :
  join_hubs t used (fun h _ => named hub_name h) d = (Returned found, d') ->
  d' = d /\
  exists tb hubs, d !! t = Some tb /\ d !! "hubs" = Some hubs /\
    forall r, r ∈ found <->
      exists c h, c ∈ rows tb /\ h ∈ rows hubs /\
                  sql_eq (cell c "hub_id") (cell h "id") = true /\
                  cell h "hub_name" = VText hub_name /\
                  r = <["hub_name" := VText hub_name]> c.
Proof.
  intros J. apply join_hubs_elem in J as (-> & tb & hubs & Htb & Hhubs & J).
  split; [done|]. exists tb, hubs. repeat split; try done.
  - intros Hr. apply J in Hr as (c & h & Hc & Hh & Hid & Hn & ->).
    apply named_text in Hn. exists c, h. rewrite Hn. by repeat split.
  - intros (c & h & Hc & Hh & Hid & Hn & ->). apply J.
    exists c, h. rewrite Hn. repeat split; try done. by apply named_text.
Qed.

(** X24.  [get_hub_metrics], [get_hub_capabilities] and
    [get_client_metrics], asked for a named hub, leave the store as it is and
    return exactly the rows of their table that point to a hub of that name,
    each with the hub's name added: no row of another hub, and no row whose
    [hub_id] matches no hub, is ever returned, and none that qualifies is
    left out. *)
Theorem hub_queries_scoped :
  scoped "hub_metrics" get_hub_metrics /\
  scoped "hub_capabilities" get_hub_capabilities /\
  scoped "client_metrics" get_client_metrics.
Proof.
  split; [|split]; intros hub d d' found Hne H.
  - unfold get_hub_metrics in H. destruct (String.eqb_spec hub "ALL"); [done|].
    by apply scoped_join in H.
  - unfold get_hub_capabilities in H. destruct (String.eqb_spec hub "ALL"); [done|].
    apply bind_inv in H as (rows0 & d1 & J & H). injection H as <- <-.
    apply scoped_join in J as (-> & tb & hubs & Htb & Hhubs & J).
    split; [done|]. exists tb, hubs. repeat split; try done;
      intros Hr; [apply J; by apply order_by_elem in Hr | apply order_by_elem; by apply J].
  - unfold get_client_metrics in H. destruct (String.eqb_spec hub "ALL"); [done|].
    apply bind_inv in H as (rows0 & d1 & J & H). injection H as <- <-.
    apply scoped_join in J as (-> & tb & hubs & Htb & Hhubs & J).
    split; [done|]. exists tb, hubs. repeat split; try done;
      intros Hr; [apply J; by apply order_by_elem in Hr | apply order_by_elem; by apply J].
Qed.

Lemma filter_cons_bool (f : row -> bool) (x : row) (l : list row) :
  filter f (x :: l) = if f x then x :: filter f l else filter f l.
Proof. rewrite filter_cons. by destruct (f x). Qed.

Lemma filter_andb (f g : row -> bool) (l : list row) :
  filter (fun x => f x && g x) l = filter g (filter f l).
Proof.
  induction l as [|x l IH]; [done|].
  rewrite !filter_cons_bool. destruct (f x); cbn [andb].
  - rewrite filter_cons_bool. destruct (g x); by rewrite IH.
  - done.
Qed.

Lemma filter_ext_bool (f g : row -> bool) (l : list row) :
  (forall x, f x = g x) -> filter f l = filter g l.
Proof.
  intros H. induction l as [|x l IH]; [done|].
  by rewrite !filter_cons_bool, H, IH.
Qed.

(** What the capability query returns for a named hub. *)
Lemma total_services_calculated_run (current_hub : string) (d : db) (tb hubs : table) :
  current_hub <> "ALL" ->
  d !! "hub_capabilities" = Some tb -> d !! "hubs" = Some hubs ->
  negb (forallb (fun c => mem c (map c_name (columns tb)))
          ["hub_id"; "capability_category"; "capability_name"])
  || negb (forallb (fun c => mem c (map c_name (columns hubs))) ["id"; "hub_name"]) = false ->
  total_services_calculated current_hub d =
    (Returned (Z.of_nat (length
       (flat_map (fun c =>
          map (fun h => <["hub_name" := cell h "hub_name"]> c)
              (filter (fun h => sql_eq (cell c "hub_id") (cell h "id") && named current_hub h)
                      (rows hubs)))
          (rows tb)))), d).
Proof.
  intros Hne Htb Hhubs Hcols.
  unfold total_services_calculated, get_hub_capabilities.
  destruct (String.eqb_spec current_hub "ALL"); [done|].
  unfold bind, join_hubs. rewrite Htb, Hhubs, Hcols. unfold ret.
  by rewrite order_by_length.
Qed.

Section Tiles.
Variable now : string.

(** X20.  The [Services Offered] tile follows the capabilities form: when
    the hub is in [hubs] under the id the form uses, and the form adds a
    capability the hub did not have, the count [show_hub_metrics_view]
    computes for the hub is one more than before. *)
Theorem services_offered_after_add_capability :
  forall (current_hub : string) (hub_id : Z) (name category : string) (headcount : Z)
         (d : db) (tb hubs : table) (h : row) (n : Z),
    name <> "" -> current_hub <> "ALL" ->
    d !! "hub_capabilities" = Some tb ->
    columns tb = hub_capabilities_columns ->
    uniques tb = [["hub_id"; "capability_name"]] ->
    Forall (fun r => exists n, cell r "id" = VInt n) (rows tb) ->
    Forall (fun r => sql_eq (cell r "hub_id") (VInt hub_id)
                     && sql_eq (cell r "capability_name") (VText name) = false) (rows tb) ->
    d !! "hubs" = Some hubs ->
    filter (fun h => sql_eq (VInt hub_id) (cell h "id")) (rows hubs) = [h] ->
    cell h "hub_name" = VText current_hub ->
    total_services_calculated current_hub d = (Returned n, d) ->
    exists d',
      add_capability now current_hub hub_id name category headcount d =
        (Returned (Some (st_success ("Added '" ++ name ++ "' to hub capabilities!"))), d') /\
      total_services_calculated current_hub d' = (Returned (n + 1), d').
Proof.
  intros hub hub_id name cat hc d tb hubs h n Hname Hne Htb Hcols Huniq Hids Hfresh
         Hhubs Hone Hh Hbefore.
  destruct (add_capability_appends now hub hub_id name cat hc d tb
              Hname Htb Hcols Huniq Hids Hfresh) as (r & Hadd & _ & Hhub & _).
  eexists. split; [exact Hadd|].
  assert (Hcheck :
    negb (forallb (fun c => mem c (map c_name (columns tb)))
            ["hub_id"; "capability_category"; "capability_name"])
    || negb (forallb (fun c => mem c (map c_name (columns hubs))) ["id"; "hub_name"]) = false).
  { unfold total_services_calculated, get_hub_capabilities in Hbefore.
    destruct (String.eqb_spec hub "ALL"); [done|].
    unfold bind, join_hubs in Hbefore. rewrite Htb, Hhubs in Hbefore.
    by destruct (_ || _). }
  rewrite (total_services_calculated_run hub d tb hubs Hne Htb Hhubs Hcheck) in Hbefore.
  injection Hbefore as <-.
  rewrite (total_services_calculated_run hub _
             (mk_table (columns tb) (uniques tb) (rows tb ++ [r])) hubs Hne).
  - cbn [rows]. rewrite flat_map_app, length_app. cbn [flat_map]. rewrite app_nil_r, length_map.
    rewrite (filter_andb (fun h0 => sql_eq (cell r "hub_id") (cell h0 "id")) (named hub)).
    rewrite Hhub, Hone, filter_cons_bool.
    assert (Hn : named hub h = true)
      by (unfold named; rewrite Hh; cbn [sql_eq]; apply String.eqb_refl).
    rewrite Hn. cbn [length]. rewrite filter_nil. cbn [length]. do 2 f_equal. lia.
  - apply lookup_insert_eq.
  - by rewrite lookup_insert_ne.
  - exact Hcheck.
Qed.

End Tiles.

End QueriesFacts.

(** ** The read side on a one-hub store *)

Module QueriesExamples.
Import Store Setup Repository Queries StoreFacts RepositoryFacts RepositoryExamples
       FormsFacts FormsExamples QueriesFacts.

Definition hub_row : row :=
  list_to_map
    [ ("id", VInt 1); ("hub_name", VText "AKQA");
      ("created_at", VText "2025-01-01 00:00:00");
      ("updated_at", VText "2025-01-01 00:00:00") ].

Definition hubs_table : table := mk_table hubs_columns [["hub_name"]] [hub_row].

(** Hub 1 with its bench count and a hiring row. *)
Definition hiring_row : row :=
  list_to_map
    [ ("id", VInt 2); ("hub_id", VInt 1); ("metric_name", VText "Open Positions");
      ("metric_value", VInt 3); ("metric_category", VText "Hiring");
      ("time_period", VText "Jan 2025"); ("hiring_reason", VText "Growth");
      ("updated_at", VText "2025-01-01 00:00:00"); ("updated_by", VNull);
      ("people_metric_updated_at", VText "2025-01-01 00:00:00") ].

Definition hub_store : db :=
  {[ "hubs" := hubs_table;
     "hub_capabilities" := seo_table;
     "people_metrics" :=
       mk_table people_metrics_columns
         [["hub_id"; "metric_name"; "time_period"; "hiring_reason"]]
         [bench_row; hiring_row] ]}.

Lemma get_people_metrics_excludes_hiring_witness :
  get_people_metrics "AKQA" None hub_store =
    (Returned [<["hub_name" := VText "AKQA"]> bench_row], hub_store) /\
  forall r, r ∈ [<["hub_name" := VText "AKQA"]> bench_row] ->
    cell r "hub_name" = VText "AKQA" /\
    cell r "metric_category" <> VText "Hiring" /\
    cell r "metric_category" <> VNull.
Proof.
  assert (E : get_people_metrics "AKQA" None hub_store =
              (Returned [<["hub_name" := VText "AKQA"]> bench_row], hub_store))
    by reflexivity.
  split; [exact E|].
  apply (get_people_metrics_excludes_hiring "AKQA" None hub_store hub_store _ E).
  discriminate.
Defined.

Lemma services_offered_after_add_capability_witness :
  exists d',
    add_capability clock "AKQA" 1 "CRM" "CX+" 6 hub_store =
      (Returned (Some (st_success "Added 'CRM' to hub capabilities!")), d') /\
    total_services_calculated "AKQA" hub_store = (Returned 1, hub_store) /\
    total_services_calculated "AKQA" d' = (Returned 2, d').
Proof.
  assert (E : total_services_calculated "AKQA" hub_store = (Returned 1, hub_store))
    by reflexivity.
  destruct (services_offered_after_add_capability clock "AKQA" 1 "CRM" "CX+" 6
              hub_store seo_table hubs_table hub_row 1) as (d' & Hadd & Hcount).
  - discriminate.
  - discriminate.
  - reflexivity.
  - reflexivity.
  - reflexivity.
  - repeat constructor. exists 1. reflexivity.
  - repeat constructor.
  - reflexivity.
  - reflexivity.
  - reflexivity.
  - exact E.
  - exists d'. split; [exact Hadd|]. split; [exact E | exact Hcount].
Defined.

End QueriesExamples.

(** ** The location list *)

Module LocationsFacts.
Import Locations.

(** The character does not occur in the string. *)
Fixpoint free_of (c : ascii) (s : string) : bool :=
  match s with
  | EmptyString => true
  | String c' s' => negb (Ascii.eqb c' c) && free_of c s'
  end.

Lemma split_free (sep : ascii) (s : string) : free_of sep s = true -> split sep s = [s].
Proof.
  induction s as [|c s IH]; cbn [split free_of]; [done|].
  intros H. apply andb_true_iff in H as [Hc Hs]. apply negb_true_iff in Hc.
  by rewrite Hc, (IH Hs).
Qed.

Lemma split_app (sep : ascii) (x s : string) :
  free_of sep x = true -> split sep (x ++ String sep s) = x :: split sep s.
Proof.
  induction x as [|c x IH]; simpl; intros H.
  - by rewrite Ascii.eqb_refl.
  - apply andb_true_iff in H as [Hc Hx]. apply negb_true_iff in Hc.
    by rewrite Hc, (IH Hx).
Qed.

Lemma split_parts_free (sep : ascii) (s : string) :
  Forall (fun part => free_of sep part = true) (split sep s).
Proof.
  induction s as [|c s IH]; cbn [split]; [by repeat constructor|].
  destruct (Ascii.eqb c sep) eqn:E; [by constructor|].
  destruct (split sep s) as [|part parts];
    [repeat constructor; cbn [free_of]; by rewrite E|].
  inversion IH; subst. constructor; [cbn [free_of]; rewrite E; by cbn|done].
Qed.

Lemma lstrip_free (c : ascii) (s : string) : free_of c s = true -> free_of c (lstrip s) = true.
Proof.
  induction s as [|c' s IH]; cbn [lstrip free_of]; [done|]. intros H.
  destruct (isspace c'); [|done]. apply andb_true_iff in H as [_ H]. by apply IH.
Qed.

Lemma rstrip_free (c : ascii) (s : string) : free_of c s = true -> free_of c (rstrip s) = true.
Proof.
  induction s as [|c' s IH]; cbn [rstrip free_of]; [done|]. intros H.
  apply andb_true_iff in H as [Hc H]. specialize (IH H).
  destruct (rstrip s); [destruct (isspace c'); cbn [free_of]; [done | by rewrite Hc]|].
  cbn [free_of] in *. by rewrite Hc, IH.
Qed.

Lemma strip_free (c : ascii) (s : string) : free_of c s = true -> free_of c (strip s) = true.
Proof. intros H. by apply rstrip_free, lstrip_free. Qed.

(** A string that does not start with a space. *)
Definition starts_solid (s : string) : bool :=
  match s with EmptyString => true | String c _ => negb (isspace c) end.

Lemma lstrip_solid (s : string) : starts_solid (lstrip s) = true.
Proof.
  induction s as [|c s IH]; cbn [lstrip]; [done|].
  destruct (isspace c) eqn:E; [done|]. cbn [starts_solid]. by rewrite E.
Qed.

Lemma lstrip_id (s : string) : starts_solid s = true -> lstrip s = s.
Proof.
  destruct s as [|c s]; cbn [lstrip starts_solid]; [done|]. by destruct (isspace c).
Qed.

Lemma rstrip_solid (s : string) : starts_solid s = true -> starts_solid (rstrip s) = true.
Proof.
  destruct s as [|c s]; cbn [rstrip starts_solid]; [done|]. intros H.
  destruct (rstrip s); [|done].
  destruct (isspace c) eqn:E; [discriminate H|]. cbn [starts_solid]. by rewrite E.
Qed.

Lemma rstrip_idem (s : string) : rstrip (rstrip s) = rstrip s.
Proof.
  induction s as [|c s IH]; cbn [rstrip]; [done|].
  destruct (rstrip s) as [|c' r] eqn:E.
  - destruct (isspace c) eqn:Hc; cbn [rstrip]; [done|]. by rewrite Hc.
  - change (rstrip (String c (String c' r)))
      with (match rstrip (String c' r) with
            | EmptyString => if isspace c then EmptyString else String c EmptyString
            | r0 => String c r0
            end).
    rewrite IH. reflexivity.
Qed.

Lemma strip_idem (s : string) : strip (strip s) = strip s.
Proof.
  unfold strip. rewrite (lstrip_id (rstrip (lstrip s))).
  - apply rstrip_idem.
  - apply rstrip_solid, lstrip_solid.
Qed.

Lemma strip_space (s : string) : strip (String " " s) = strip s.
Proof. reflexivity. Qed.

Definition kept (loc : string) : bool := nonblank (strip loc).

Lemma filter_all (f : string -> bool) (l : list string) :
  Forall (fun x => f x = true) l -> List.filter f l = l.
Proof. induction 1 as [|x l Hx _ IH]; cbn; [done|]. by rewrite Hx, IH. Qed.

Lemma filter_idem (f : string -> bool) (l : list string) :
  Forall (fun x => f x = true) (List.filter f l).
Proof.
  induction l as [|x l IH]; cbn; [constructor|].
  destruct (f x) eqn:E; [by constructor|done].
Qed.

Lemma Forall_filter_of (P : string -> Prop) (f : string -> bool) (l : list string) :
  Forall P l -> Forall P (List.filter f l).
Proof.
  induction 1 as [|x l Hx _ IH]; cbn; [constructor|].
  destruct (f x); [by constructor|done].
Qed.

(** The parts of a joined list of comma-free, kept locations. *)
Lemma load_join (l : list string) :
  Forall (fun loc => free_of "," loc = true) l ->
  Forall (fun loc => kept loc = true) l ->
  map strip (List.filter kept (split "," (join ", " l))) = map strip l.
Proof.
  intros Hfree Hkept. induction Hfree as [|x l Hx Hfree IH]; [reflexivity|].
  inversion Hkept as [|? ? Kx Kl]; subst.
  destruct l as [|y l].
  - cbn [join]. rewrite (split_free _ _ Hx). cbn. by rewrite Kx.
  - change (join ", " (x :: y :: l)) with (x ++ String "," (String " " (join ", " (y :: l)))).
    rewrite (split_app _ _ _ Hx). cbn [List.filter]. rewrite Kx. cbn [map]. f_equal.
    specialize (IH Kl). clear - IH.
    remember (join ", " (y :: l)) as s eqn:Hs. clear Hs.
    cbn [split]. change (Ascii.eqb " " ",") with false. cbv iota.
    destruct (split "," s) as [|part parts] eqn:E.
    + destruct s; cbn in E; [discriminate|].
      destruct (Ascii.eqb a ","); [discriminate|]. destruct (split "," s); discriminate.
    + cbn [List.filter] in *. unfold kept at 1. rewrite strip_space. fold (kept part).
      destruct (kept part); cbn [map] in *; [|exact IH].
      by rewrite strip_space.
Qed.

(** X21.  Saving the location list and loading it again: the text the
    form stores, read back by the next page load, is the list of the stripped
    names of the locations that are not blank, as long as no name holds a
    comma. *)
Theorem load_locations_location_str :
  forall (locations : list string),
    Forall (fun loc => free_of "," loc = true) locations ->
    load_locations (Some (location_str locations)) =
      map strip (List.filter (fun loc => nonblank (strip loc)) locations).
Proof.
  intros l Hfree. unfold load_locations, location_str.
  apply (load_join (List.filter kept l)).
  - by apply Forall_filter_of.
  - apply filter_idem.
Qed.

Lemma load_locations_location_str_witness :
  load_locations (Some (location_str [" Pune"; "  "; "Mumbai and Gurugram "])) =
    ["Pune"; "Mumbai and Gurugram"].
Proof.
  apply (load_locations_location_str [" Pune"; "  "; "Mumbai and Gurugram "]).
  repeat constructor.
Defined.

(** X22.  What was loaded survives a save: for every stored text, null
    included, saving the list the page loaded from it and loading the result
    gives the same list again.  A name typed with a comma does not: it comes
    back as two locations. *)
Theorem load_locations_stable :
  (forall (location : option string),
     load_locations (Some (location_str (load_locations location))) =
       load_locations location) /\
  load_locations (Some (location_str ["Gurugram, Haryana"])) = ["Gurugram"; "Haryana"].
Proof.
  split; [|reflexivity].
  intros [s|]; [|reflexivity].
  assert (Hparts : Forall (fun loc => free_of "," loc = true /\ strip loc = loc
                                      /\ kept loc = true) (load_locations (Some s))).
  { unfold load_locations. apply List.Forall_forall. intros e He.
    apply in_map_iff in He as (p & <- & Hp). apply filter_In in Hp as [Hp Hk].
    repeat split.
    - apply strip_free. exact (proj1 (List.Forall_forall _ _) (split_parts_free "," s) p Hp).
    - apply strip_idem.
    - unfold kept. by rewrite strip_idem. }
  change (load_locations (Some (location_str (load_locations (Some s)))))
    with (map strip (List.filter kept
            (split "," (join ", " (List.filter kept (load_locations (Some s))))))).
  rewrite (filter_all kept (load_locations (Some s)))
    by (eapply Forall_impl; [exact Hparts|]; by intros e (_ & _ & K)).
  rewrite load_join.
  - rewrite <- (map_id (load_locations (Some s))) at 2. apply map_ext_in.
    intros e He. exact (proj1 (proj2 (proj1 (List.Forall_forall _ _) Hparts e He))).
  - eapply Forall_impl; [exact Hparts|]. by intros e (F & _).
  - eapply Forall_impl; [exact Hparts|]. by intros e (_ & _ & K).
Qed.

End LocationsFacts.
